(** * Adhan app: the prayer-time engine and its callers

    A shallow embedding of [PrayerTimesCalculator] (the solar-position
    prayer-time engine) and of the synchronous methods of [AdhanApp], the
    controller: the readers and printers of times, the validation of the
    times of the remote service, the Hijri date, the current prayer and
    its countdown, the direction of the Kaaba and the compass.  The page
    is modelled as far as those methods write to it: the text of an
    element by its id, and for the compass the classes and the rotation
    they set.  The methods that wait for the network, for the position or
    for a permission are not modelled.

    JavaScript numbers are modelled as the IEEE special values [NaN],
    [+Infinity], [-Infinity] together with the finite values, the latter
    taken as exact real numbers: rounding and the sign of zero are not
    modelled, a zero divisor counts as [+0].  The [Math] functions are the
    mathematical ones of the standard library of reals, extended to the
    special values the way ECMAScript prescribes. *)

From Stdlib Require Import Reals Lra Lia ZArith Zfloor.
From Stdlib Require Import String Ascii List Bool DecimalString Sorted.
Import ListNotations.

Open Scope R_scope.

(** ** Numbers *)

Inductive num : Type :=
| NaN
| PInf
| NInf
| Fin (r : R).

Declare Scope num_scope.
Delimit Scope num_scope with num.
Bind Scope num_scope with num.

Definition Rltb (a b : R) : bool := if Rlt_dec a b then true else false.
Definition Rleb (a b : R) : bool := if Rle_dec a b then true else false.
Definition Req0 (a : R) : bool := if Req_dec_T a 0 then true else false.

(** Truncation toward zero, the rounding behind the remainder operator. *)
Definition Ztrunc (x : R) : Z := if Rle_dec 0 x then Zfloor x else Zceil x.

(** [x % y] on finite operands with [y <> 0]: the result has the sign of
    the dividend. *)
Definition Rrem (x y : R) : R := x - y * IZR (Ztrunc (x / y)).

Module Num.

Definition neg (a : num) : num :=
  match a with
  | NaN => NaN
  | PInf => NInf
  | NInf => PInf
  | Fin x => Fin (- x)
  end.

Definition add (a b : num) : num :=
  match a, b with
  | NaN, _ | _, NaN => NaN
  | PInf, NInf | NInf, PInf => NaN
  | PInf, _ | _, PInf => PInf
  | NInf, _ | _, NInf => NInf
  | Fin x, Fin y => Fin (x + y)
  end.

Definition sub (a b : num) : num := add a (neg b).

(** Sign of a finite operand next to an infinite one. *)
Definition signed_inf (positive : bool) : num := if positive then PInf else NInf.

Definition mul (a b : num) : num :=
  match a, b with
  | NaN, _ | _, NaN => NaN
  | Fin x, Fin y => Fin (x * y)
  | PInf, PInf | NInf, NInf => PInf
  | PInf, NInf | NInf, PInf => NInf
  | PInf, Fin y | Fin y, PInf =>
      if Req0 y then NaN else signed_inf (Rltb 0 y)
  | NInf, Fin y | Fin y, NInf =>
      if Req0 y then NaN else signed_inf (Rltb y 0)
  end.

Definition div (a b : num) : num :=
  match a, b with
  | NaN, _ | _, NaN => NaN
  | Fin x, Fin y =>
      if Req0 y then
        if Req0 x then NaN else signed_inf (Rltb 0 x)
      else Fin (x / y)
  | Fin _, (PInf | NInf) => Fin 0
  | (PInf | NInf), (PInf | NInf) => NaN
  | PInf, Fin y => signed_inf (Rleb 0 y)
  | NInf, Fin y => signed_inf (Rltb y 0)
  end.

(** The remainder operator [%]. *)
Definition rem (a b : num) : num :=
  match a, b with
  | NaN, _ | _, NaN => NaN
  | (PInf | NInf), _ => NaN
  | Fin x, (PInf | NInf) => Fin x
  | Fin x, Fin y => if Req0 y then NaN else Fin (Rrem x y)
  end.

(** [a > b]; every comparison with [NaN] is false. *)
Definition gt (a b : num) : bool :=
  match a, b with
  | NaN, _ | _, NaN => false
  | PInf, PInf => false
  | PInf, _ => true
  | _, PInf => false
  | NInf, _ => false
  | Fin _, NInf => true
  | Fin x, Fin y => Rltb y x
  end.

Definition lt (a b : num) : bool := gt b a.

(** [a >= b]. *)
Definition ge (a b : num) : bool :=
  match a, b with
  | NaN, _ | _, NaN => false
  | PInf, _ => true
  | _, NInf => true
  | NInf, _ => false
  | Fin _, PInf => false
  | Fin x, Fin y => Rleb y x
  end.

(** [a === b] on numbers. *)
Definition strict_eq (a b : num) : bool :=
  match a, b with
  | PInf, PInf | NInf, NInf => true
  | Fin x, Fin y => if Req_dec_T x y then true else false
  | _, _ => false
  end.

(** ToBoolean: [0] and [NaN] are the falsy numbers. *)
Definition truthy (a : num) : bool :=
  match a with
  | NaN => false
  | Fin x => negb (Req0 x)
  | _ => true
  end.

Definition isNaN (a : num) : bool :=
  match a with NaN => true | _ => false end.

Definition is_finite (a : num) : Prop :=
  match a with Fin _ => True | _ => False end.

Definition of_Z (z : Z) : num := Fin (IZR z).

End Num.

Notation "a .+ b" := (Num.add a b) (at level 50, left associativity) : num_scope.
Notation "a .- b" := (Num.sub a b) (at level 50, left associativity) : num_scope.
Notation "a .* b" := (Num.mul a b) (at level 40, left associativity) : num_scope.
Notation "a ./ b" := (Num.div a b) (at level 40, left associativity) : num_scope.
Notation "a .% b" := (Num.rem a b) (at level 40, left associativity) : num_scope.
Notation ".- a" := (Num.neg a) (at level 35, right associativity) : num_scope.
Notation "# r" := (Fin r) (at level 9, r at level 9, format "# r") : num_scope.

(** ** The [Math] object *)

Module Math.

Definition PI : num := Fin Rtrigo1.PI.

Definition abs (a : num) : num :=
  match a with
  | NaN => NaN
  | PInf | NInf => PInf
  | Fin x => Fin (Rabs x)
  end.

Definition floor (a : num) : num :=
  match a with
  | Fin x => Fin (IZR (Zfloor x))
  | other => other
  end.

Definition sin (a : num) : num :=
  match a with Fin x => Fin (Rtrigo_def.sin x) | _ => NaN end.

Definition cos (a : num) : num :=
  match a with Fin x => Fin (Rtrigo_def.cos x) | _ => NaN end.

Definition tan (a : num) : num :=
  match a with Fin x => Fin (Rtrigo1.tan x) | _ => NaN end.

Definition asin (a : num) : num :=
  match a with
  | Fin x => if Rleb (-1) x && Rleb x 1 then Fin (Ratan.asin x) else NaN
  | _ => NaN
  end.

Definition acos (a : num) : num :=
  match a with
  | Fin x => if Rleb (-1) x && Rleb x 1 then Fin (Ratan.acos x) else NaN
  | _ => NaN
  end.

Definition atan (a : num) : num :=
  match a with
  | NaN => NaN
  | PInf => Fin (Rtrigo1.PI / 2)
  | NInf => Fin (- (Rtrigo1.PI / 2))
  | Fin x => Fin (Ratan.atan x)
  end.

(** The two-argument arctangent on finite reals: the angle of the point
    [(x, y)], in [[-PI, PI]]. *)
Definition Ratan2 (y x : R) : R :=
  if Rltb 0 x then Ratan.atan (y / x)
  else if Rltb x 0 then
    if Rleb 0 y then Ratan.atan (y / x) + Rtrigo1.PI
    else Ratan.atan (y / x) - Rtrigo1.PI
  else if Rltb 0 y then Rtrigo1.PI / 2
  else if Rltb y 0 then - (Rtrigo1.PI / 2)
  else 0.

Definition atan2 (y x : num) : num :=
  match y, x with
  | NaN, _ | _, NaN => NaN
  | PInf, PInf => Fin (Rtrigo1.PI / 4)
  | PInf, NInf => Fin (3 * Rtrigo1.PI / 4)
  | NInf, PInf => Fin (- (Rtrigo1.PI / 4))
  | NInf, NInf => Fin (- (3 * Rtrigo1.PI / 4))
  | PInf, Fin _ => Fin (Rtrigo1.PI / 2)
  | NInf, Fin _ => Fin (- (Rtrigo1.PI / 2))
  | Fin _, PInf => Fin 0
  | Fin b, NInf => if Rleb 0 b then Fin Rtrigo1.PI else Fin (- Rtrigo1.PI)
  | Fin b, Fin a => Fin (Ratan2 b a)
  end.

End Math.

(** ** Exceptions *)

Inductive exn : Type :=
| TypeError
| RangeError.

Inductive result (A : Type) : Type :=
| Ok (a : A)
| Throw (e : exn).

Arguments Ok {A} a.
Arguments Throw {A} e.

Definition bind {A B : Type} (m : result A) (k : A -> result B) : result B :=
  match m with
  | Ok a => k a
  | Throw e => Throw e
  end.

(** [try { body } catch (error) { handler }] *)
Definition try_catch {A : Type} (body : result A) (handler : exn -> result A)
  : result A :=
  match body with
  | Ok a => Ok a
  | Throw e => handler e
  end.

Notation "x <- m ;; k" := (bind m (fun x => k))
  (at level 61, m at next level, right associativity).

(** ** The values this program receives from its host *)

(** What the [date] argument can be.  The engine only reads the three UTC
    calendar getters, so a [Date] is represented by what they return
    ([month] is the zero-based [getUTCMonth()]); on an invalid [Date] they
    return [NaN]; on anything that is not a [Date] (undefined, null, a
    string) the method call raises a TypeError. *)
Inductive DateArg : Type :=
| DateUTC (fullYear month date : Z)
| DateInvalid
| NonDate.

Definition getUTCFullYear (d : DateArg) : result num :=
  match d with
  | DateUTC y _ _ => Ok (Num.of_Z y)
  | DateInvalid => Ok NaN
  | NonDate => Throw TypeError
  end.

Definition getUTCMonth (d : DateArg) : result num :=
  match d with
  | DateUTC _ m _ => Ok (Num.of_Z m)
  | DateInvalid => Ok NaN
  | NonDate => Throw TypeError
  end.

Definition getUTCDate (d : DateArg) : result num :=
  match d with
  | DateUTC _ _ day => Ok (Num.of_Z day)
  | DateInvalid => Ok NaN
  | NonDate => Throw TypeError
  end.

(** The host services [getTimezoneOffset] calls: the clock, the [Intl]
    formatter, [toLocaleString] and the [Date] string constructor.  Their
    code is not part of the repository; the engine is modelled over any
    host. *)
Record Host : Type := {
  (** [new Date()]: the current time value, in milliseconds. *)
  clock : Z;
  (** [new Intl.DateTimeFormat('en-US', { timeZone, hour: 'numeric',
      minute: 'numeric' }).format(date)]; an unknown zone name raises a
      RangeError. *)
  formatInZone : string -> Z -> result string;
  (** [date.toLocaleString('en-US', { timeZone: 'UTC' })] *)
  toLocaleStringUTC : Z -> string;
  (** The time value of [new Date(text)]: milliseconds, or [NaN] when the
      text does not parse (Invalid Date). *)
  dateFromString : string -> num
}.

(** ** Strings *)

Definition is_digit (c : ascii) : bool :=
  let n := nat_of_ascii c in (48 <=? n)%nat && (n <=? 57)%nat.

(** [\s] on the characters a byte string can hold, a byte standing for
    the code unit of the same number: the space, U+0009 to U+000D and the
    no-break space U+00A0.  The white space beyond U+00FF is out of the
    reach of these strings. *)
Definition is_space (c : ascii) : bool :=
  let n := nat_of_ascii c in
  (n =? 32)%nat || ((9 <=? n)%nat && (n <=? 13)%nat) || (n =? 160)%nat.

Definition chars (s : string) : list ascii := list_ascii_of_string s.
Definition text (l : list ascii) : string := string_of_list_ascii l.

(** [Number.prototype.toString] on the values the formatters build:
    integers print in decimal, which is what JavaScript prints for the
    integers of magnitude up to 2^53.  Beyond that JavaScript prints the
    shortest digits that identify the double, and from 1e21 on the
    exponent notation; neither is modelled.
    Non-integers never reach it here and print as the empty string in
    this model. *)
Definition Number_toString (a : num) : string :=
  match a with
  | NaN => "NaN"
  | PInf => "Infinity"
  | NInf => "-Infinity"
  | Fin x =>
      if Req_dec_T x (IZR (Zfloor x))
      then NilZero.string_of_int (Z.to_int (Zfloor x))
      else ""
  end%string.

(** [s.padStart(2, '0')] *)
Definition padStart2 (s : string) : string :=
  match String.length s with
  | O => "00" ++ s
  | S O => "0" ++ s
  | _ => s
  end%string.

(** The value of a string of decimal digits, as [Number] and
    [parseInt(_, 10)] both read it. *)
Fixpoint digits_value (acc : Z) (l : list ascii) : Z :=
  match l with
  | [] => acc
  | c :: l' => digits_value (10 * acc + (Z.of_nat (nat_of_ascii c) - 48)) l'
  end.

Definition parseDigits (s : string) : num := Num.of_Z (digits_value 0 (chars s)).

(** [^(\d{1,2}):] : the hour group and the rest of the input. *)
Definition match_hour_colon (l : list ascii) : option (list ascii * list ascii) :=
  match l with
  | d1 :: ":"%char :: rest =>
      if is_digit d1 then Some ([d1], rest) else None
  | d1 :: d2 :: ":"%char :: rest =>
      if is_digit d1 && is_digit d2 then Some ([d1; d2], rest) else None
  | _ => None
  end.

(** [(\d{2})] : the minute group and the rest of the input. *)
Definition match_two_digits (l : list ascii) : option (list ascii * list ascii) :=
  match l with
  | d1 :: d2 :: rest =>
      if is_digit d1 && is_digit d2 then Some ([d1; d2], rest) else None
  | _ => None
  end.

(** [(AM|PM)$] under the [i] flag; the group is returned as written. *)
Definition match_period_end (l : list ascii) : option (list ascii) :=
  match l with
  | [c1; c2] =>
      let u1 := nat_of_ascii c1 in
      let u2 := nat_of_ascii c2 in
      if ((u1 =? 65) || (u1 =? 97) || (u1 =? 80) || (u1 =? 112))%nat
         && ((u2 =? 77) || (u2 =? 109))%nat
      then Some [c1; c2] else None
  | _ => None
  end.

(** [/^(\d{1,2}):(\d{2})$/] : the two groups of a match. *)
Definition match_24h (s : string) : option (string * string) :=
  match match_hour_colon (chars s) with
  | Some (h, rest) =>
      match match_two_digits rest with
      | Some (m, []) => Some (text h, text m)
      | _ => None
      end
  | None => None
  end.

(** [/^(\d{1,2}):(\d{2})\s?(AM|PM)$/i] : the three groups of a match. *)
Definition match_12h (s : string) : option (string * string * string) :=
  match match_hour_colon (chars s) with
  | Some (h, rest) =>
      match match_two_digits rest with
      | Some (m, rest') =>
          let after_space :=
            match rest' with
            | c :: tl => if is_space c then tl else rest'
            | [] => rest'
            end in
          match match_period_end after_space with
          | Some p => Some (text h, text m, text p)
          | None => None
          end
      | None => None
      end
  | None => None
  end.

(** [toUpperCase] on a matched period group. *)
Definition toUpperCase (s : string) : string :=
  text (map (fun c =>
               let n := nat_of_ascii c in
               if ((97 <=? n) && (n <=? 122))%nat then ascii_of_nat (n - 32) else c)
            (chars s)).

(** ** [PrayerTimesCalculator] *)

Record MethodParams : Type := {
  fajrAngle : num;
  ishaAngle : num
}.

(** The six-entry mapping [calculatePrayerTimes] returns. *)
Record PrayerTimes : Type := {
  fajr : num;
  sunrise : num;
  dhuhr : num;
  asr : num;
  maghrib : num;
  isha : num
}.

(** [a || b] on an optional number: [undefined], [0] and [NaN] give [b]. *)
Definition or_default (a : option num) (b : num) : num :=
  match a with
  | Some v => if Num.truthy v then v else b
  | None => b
  end.

Module PrayerTimesCalculator.

Open Scope num_scope.

(** The table the constructor builds, as the list of its entries. *)
Definition methodParamsTable : list (string * MethodParams) :=
  [ ("MWL"%string,     {| fajrAngle := #18;   ishaAngle := #17 |});
    ("ISNA"%string,    {| fajrAngle := #15;   ishaAngle := #15 |});
    ("Egypt"%string,   {| fajrAngle := #19.5; ishaAngle := #17.5 |});
    ("Makkah"%string,  {| fajrAngle := #18.5; ishaAngle := #90 |});
    ("Karachi"%string, {| fajrAngle := #18;   ishaAngle := #18 |});
    ("Tehran"%string,  {| fajrAngle := #17.7; ishaAngle := #14 |}) ].

Fixpoint lookup (key : string) (table : list (string * MethodParams))
  : option MethodParams :=
  match table with
  | [] => None
  | (k, v) :: rest => if String.eqb key k then Some v else lookup key rest
  end.

(** [this.methodParams[method]]; every other key, inherited ones
    included, has no [fajrAngle] or [ishaAngle] field. *)
Definition methodParams (method : string) : option MethodParams :=
  lookup method methodParamsTable.

Definition getJulianDate (date : DateArg) : result num :=
  year <- getUTCFullYear date ;;
  month0 <- getUTCMonth date ;;
  let month := month0 .+ #1 in
  day <- getUTCDate date ;;
  let a := Math.floor ((#14 .- month) ./ #12) in
  let y := year .+ #4800 .- a in
  let m := month .+ #12 .* a .- #3 in
  Ok (day .+ Math.floor ((#153 .* m .+ #2) ./ #5) .+ #365 .* y
      .+ Math.floor (y ./ #4) .- Math.floor (y ./ #100)
      .+ Math.floor (y ./ #400) .- #32045).

Definition getTimezoneOffset (host : Host) (timezone : string) : num :=
  let date := clock host in
  match formatInZone host timezone date with
  | Ok formatted =>
      let localTime := dateFromString host formatted in
      let utcTime := dateFromString host (toLocaleStringUTC host date) in
      (localTime .- utcTime) ./ #1000 ./ #60 ./ #60
  | Throw _ => #5.5
  end.

Definition calculateSolarTime (host : Host) (julianDate longitude : num)
           (timezone : string) : num :=
  let D := julianDate .- #2451545.0 in
  let g := (#357.529 .+ #0.98560028 .* D) .% #360 in
  let q := (#280.459 .+ #0.98564736 .* D) .% #360 in
  let L := (q .+ #1.915 .* Math.sin (g .* Math.PI ./ #180)
              .+ #0.020 .* Math.sin (#2 .* g .* Math.PI ./ #180)) .% #360 in
  let e := #23.439 .- #0.00000036 .* D in
  let RA := Math.atan2 (Math.cos (e .* Math.PI ./ #180)
                          .* Math.sin (L .* Math.PI ./ #180))
                       (Math.cos (L .* Math.PI ./ #180))
            .* #180 ./ Math.PI ./ #15 in
  let EqT := (q ./ #15 .- RA) .* #4 ./ #60 in
  let longitudeHour := longitude ./ #15 in
  let timezoneOffset := getTimezoneOffset host timezone ./ #60 in
  #12 .+ EqT .- longitudeHour .+ timezoneOffset.

Definition calculateDeclination (solarTime : num) : num :=
  let D := solarTime .* #24 .- #2451545.0 in
  let g := (#357.529 .+ #0.98560028 .* D) .% #360 in
  let q := (#280.459 .+ #0.98564736 .* D) .% #360 in
  let L := (q .+ #1.915 .* Math.sin (g .* Math.PI ./ #180)
              .+ #0.020 .* Math.sin (#2 .* g .* Math.PI ./ #180)) .% #360 in
  let e := #23.439 .- #0.00000036 .* D in
  Math.asin (Math.sin (e .* Math.PI ./ #180) .* Math.sin (L .* Math.PI ./ #180))
    .* #180 ./ Math.PI.

Definition calculateFajr (solarTime latitude fajrAngle : num) : num :=
  let declination := calculateDeclination solarTime in
  let cosAngle :=
    .- Math.sin (fajrAngle .* Math.PI ./ #180)
       ./ (Math.cos (latitude .* Math.PI ./ #180) .* Math.cos declination) in
  if Num.gt (Math.abs cosAngle) #1 then solarTime .- #1.5
  else
    let hourAngle := Math.acos cosAngle .* #180 ./ Math.PI in
    solarTime .- hourAngle ./ #15.

Definition calculateSunrise (solarTime latitude : num) : num :=
  let declination := calculateDeclination solarTime in
  let cosAngle :=
    .- Math.sin (#0 .* Math.PI ./ #180)
       ./ (Math.cos (latitude .* Math.PI ./ #180) .* Math.cos declination) in
  if Num.gt (Math.abs cosAngle) #1 then solarTime
  else
    let hourAngle := Math.acos cosAngle .* #180 ./ Math.PI in
    solarTime .- hourAngle ./ #15.

Definition calculateDhuhr (solarTime : num) : num := solarTime.

Definition calculateAsr (solarTime latitude asrFactor : num) : num :=
  let declination := calculateDeclination solarTime in
  let tanAngle :=
    Math.abs (Math.tan ((latitude .- declination .* #180 ./ Math.PI)
                          .* Math.PI ./ #180)) in
  let shadowAngle := Math.atan (#1 ./ (asrFactor .+ tanAngle)) in
  let cosAngle :=
    (Math.sin shadowAngle
       .- Math.sin (latitude .* Math.PI ./ #180) .* Math.sin declination)
      ./ (Math.cos (latitude .* Math.PI ./ #180) .* Math.cos declination) in
  if Num.gt (Math.abs cosAngle) #1 then solarTime .+ #2
  else
    let hourAngle := Math.acos cosAngle .* #180 ./ Math.PI in
    solarTime .+ hourAngle ./ #15.

Definition calculateMaghrib (solarTime latitude : num) : num :=
  let declination := calculateDeclination solarTime in
  let cosAngle :=
    .- Math.sin (#0 .* Math.PI ./ #180)
       ./ (Math.cos (latitude .* Math.PI ./ #180) .* Math.cos declination) in
  if Num.gt (Math.abs cosAngle) #1 then solarTime
  else
    let hourAngle := Math.acos cosAngle .* #180 ./ Math.PI in
    solarTime .+ hourAngle ./ #15.

Definition calculateIsha (solarTime latitude ishaAngle : num) : num :=
  let declination := calculateDeclination solarTime in
  let cosAngle :=
    .- Math.sin (ishaAngle .* Math.PI ./ #180)
       ./ (Math.cos (latitude .* Math.PI ./ #180) .* Math.cos declination) in
  if Num.gt (Math.abs cosAngle) #1 then solarTime .+ #1.5
  else
    let hourAngle := Math.acos cosAngle .* #180 ./ Math.PI in
    solarTime .+ hourAngle ./ #15.

(** [(x % 24 + 24) % 24], applied to every entry before returning. *)
Definition normalize (x : num) : num := (x .% #24 .+ #24) .% #24.

Definition unavailable : PrayerTimes :=
  {| fajr := #0; sunrise := #0; dhuhr := #0;
     asr := #0; maghrib := #0; isha := #0 |}.

(** The body of the [try] block. *)
Definition calculatePrayerTimes_try (host : Host) (date : DateArg)
           (latitude longitude : num) (timezone method madhab : string)
  : result PrayerTimes :=
  julianDate <- getJulianDate date ;;
  let localTime := calculateSolarTime host julianDate longitude timezone in
  let fajrAngle := or_default (option_map fajrAngle (methodParams method)) #18 in
  let ishaAngle := or_default (option_map ishaAngle (methodParams method)) #18 in
  let asrFactor := if String.eqb madhab "Hanafi" then #2 else #1 in
  Ok {| fajr := normalize (calculateFajr localTime latitude fajrAngle);
        sunrise := normalize (calculateSunrise localTime latitude);
        dhuhr := normalize (calculateDhuhr localTime);
        asr := normalize (calculateAsr localTime latitude asrFactor);
        maghrib := normalize (calculateMaghrib localTime latitude);
        isha := normalize (calculateIsha localTime latitude ishaAngle) |}.

(** The default values of the last two parameters. *)
Definition with_default (v : option string) (d : string) : string :=
  match v with Some s => s | None => d end.

(** The outcome is a [result] so that "returns normally" is a statement
    about the function and not about its type. *)
Definition calculatePrayerTimes (host : Host) (date : DateArg)
           (latitude longitude : num) (timezone : string)
           (method madhab : option string) : result PrayerTimes :=
  try_catch
    (calculatePrayerTimes_try host date latitude longitude timezone
       (with_default method "Karachi") (with_default madhab "Hanafi"))
    (fun _ => Ok unavailable).

Definition formatTime (decimalTime : num) : string :=
  if negb (Num.truthy decimalTime) || Num.isNaN decimalTime then "Error"%string
  else
    let hours := Math.floor decimalTime in
    let minutes := Math.floor ((decimalTime .- hours) .* #60) in
    let period := if Num.ge hours #12 then "PM"%string else "AM"%string in
    let displayHours := or_default (Some (hours .% #12)) #12 in
    (Number_toString displayHours ++ ":" ++ padStart2 (Number_toString minutes)
       ++ " " ++ period)%string.

Definition formatCountdown (hours : num) : string :=
  let totalMinutes := Math.floor (hours .* #60) in
  let h := Math.floor (totalMinutes ./ #60) in
  let m := totalMinutes .% #60 in
  (Number_toString h ++ " hours " ++ Number_toString m ++ " minutes")%string.

End PrayerTimesCalculator.

(** ** [AdhanApp] *)

Module AdhanApp.

Open Scope num_scope.

Definition convertTimeToDecimal (timeStr : string) : num :=
  if String.eqb timeStr "" then #0
  else
    let parsed : option (num * num) :=
      match match_24h timeStr with
      | Some (h, m) => Some (parseDigits h, parseDigits m)
      | None =>
          match match_12h timeStr with
          | Some (h, m, p) =>
              let hours := parseDigits h in
              let minutes := parseDigits m in
              let period := toUpperCase p in
              let hours :=
                if String.eqb period "PM" && negb (Num.strict_eq hours #12)
                then hours .+ #12 else hours in
              let hours :=
                if String.eqb period "AM" && Num.strict_eq hours #12
                then #0 else hours in
              Some (hours, minutes)
          | None => None
          end
      end in
    match parsed with
    | None => #0
    | Some (hours, minutes) =>
        if Num.isNaN hours || Num.isNaN minutes then #0
        else hours .+ (minutes ./ #60)
    end.

Definition getJulianDate (date : DateArg) : result num :=
  year <- getUTCFullYear date ;;
  month0 <- getUTCMonth date ;;
  let month := month0 .+ #1 in
  day <- getUTCDate date ;;
  let a := Math.floor ((#14 .- month) ./ #12) in
  let y := year .+ #4800 .- a in
  let m := month .+ #12 .* a .- #3 in
  Ok (day .+ Math.floor ((#153 .* m .+ #2) ./ #5) .+ #365 .* y
      .+ Math.floor (y ./ #4) .- Math.floor (y ./ #100)
      .+ Math.floor (y ./ #400) .- #32045.5).

Definition isValidTimeFormat (timeStr : string) : bool :=
  match match_24h timeStr with
  | Some _ => true
  | None => match match_12h timeStr with Some _ => true | None => false end
  end.

Definition formatApiTime (timeStr : string) : string :=
  if String.eqb timeStr "" then "Error"%string
  else
    let parsed : option (num * num * string) :=
      match match_24h timeStr with
      | Some (h, m) =>
          let hours := parseDigits h in
          let minutes := parseDigits m in
          let period := if Num.ge hours #12 then "PM"%string else "AM"%string in
          let hours := or_default (Some (hours .% #12)) #12 in
          Some (hours, minutes, period)
      | None =>
          match match_12h timeStr with
          | Some (h, m, p) => Some (parseDigits h, parseDigits m, toUpperCase p)
          | None => None
          end
      end in
    match parsed with
    | None => "Error"%string
    | Some (hours, minutes, period) =>
        if Num.isNaN hours || Num.isNaN minutes
           || Num.gt hours #12 || Num.gt minutes #59
        then "Error"%string
        else (Number_toString hours ++ ":" ++ padStart2 (Number_toString minutes)
                ++ " " ++ period)%string
    end.

Definition formatCountdown (hours : num) : string :=
  let totalMinutes := Math.floor (hours .* #60) in
  let h := Math.floor (totalMinutes ./ #60) in
  let m := totalMinutes .% #60 in
  (Number_toString h ++ " hours " ++ Number_toString m ++ " minutes")%string.

(** What a property read on an object literal gives when the key is not
    one of its own: the members every object inherits are found, and are
    functions or objects, not numbers. *)
Inductive MemberValue : Type :=
| NumberMember (n : num)
| InheritedMember (name : string).

(** The names of the members of [Object.prototype]. *)
Definition objectPrototypeMembers : list string :=
  [ "constructor"; "hasOwnProperty"; "isPrototypeOf"; "propertyIsEnumerable";
    "toLocaleString"; "toString"; "valueOf"; "__proto__";
    "__defineGetter__"; "__defineSetter__"; "__lookupGetter__";
    "__lookupSetter__" ]%string.

Definition methodMap : list (string * num) :=
  [ ("MWL"%string, #3); ("ISNA"%string, #2); ("Egypt"%string, #5);
    ("Makkah"%string, #4); ("Karachi"%string, #1); ("Tehran"%string, #7) ].

Fixpoint ownProperty (key : string) (object : list (string * num)) : option num :=
  match object with
  | [] => None
  | (k, v) :: rest => if String.eqb key k then Some v else ownProperty key rest
  end.

(** [methodMap[method] || 1]: an inherited member is truthy and is what
    the expression returns. *)
Definition getAladhanMethod (method : string) : MemberValue :=
  match ownProperty method methodMap with
  | Some n => NumberMember (or_default (Some n) #1)
  | None =>
      if existsb (String.eqb method) objectPrototypeMembers
      then InheritedMember method
      else NumberMember #1
  end.

Definition leapYearsIn30 : list Z := [2; 5; 7; 10; 13; 16; 18; 21; 24; 26; 29]%Z.

(** [leapYearsIn30.includes(y)] *)
Definition includes (y : Z) (years : list Z) : bool := existsb (Z.eqb y) years.

(** The loop over the years of a cycle: [years] are the values of [y]
    still to visit; the result is [yearInCycle] (0 when no year was
    chosen) and [daysLeft]. *)
Fixpoint yearLoop (years : list Z) (daysLeft : num) : Z * num :=
  match years with
  | [] => (0%Z, daysLeft)
  | y :: rest =>
      let isLeap := includes y leapYearsIn30 in
      let daysInYear := if isLeap then #355 else #354 in
      if Num.lt daysLeft daysInYear then (y, daysLeft)
      else yearLoop rest (daysLeft .- daysInYear)
  end.

Definition islamicMonths (currentYearIsLeap : bool) : list (string * num) :=
  [ ("Muharram"%string, #30); ("Safar"%string, #29);
    ("Rabi al-Awwal"%string, #30); ("Rabi al-Thani"%string, #29);
    ("Jumada al-Awwal"%string, #30); ("Jumada al-Thani"%string, #29);
    ("Rajab"%string, #30); ("Shaban"%string, #29);
    ("Ramadan"%string, #30); ("Shawwal"%string, #29);
    ("Dhu al-Qidah"%string, #30);
    ("Dhu al-Hijjah"%string, if currentYearIsLeap then #30 else #29) ].

(** The loop over the months: [m] is the index of the head of [months];
    the result is [monthIndex] (0 when no month was chosen) and
    [daysLeft]. *)
Fixpoint monthLoop (m : nat) (months : list (string * num)) (daysLeft : num)
  : nat * num :=
  match months with
  | [] => (O, daysLeft)
  | (_, days) :: rest =>
      if Num.lt daysLeft days then (m, daysLeft)
      else monthLoop (S m) rest (daysLeft .- days)
  end.

Definition calculateLocalHijriDate (date : DateArg) : string :=
  match getJulianDate date with
  | Throw _ => "Hijri Date Unavailable"%string
  | Ok jd =>
      let islamicEpoch := #1948439.5 in
      let daysSinceEpoch := Math.floor (jd .- islamicEpoch) .+ #1 in
      let thirtyYearCycles := Math.floor (daysSinceEpoch ./ #10631) in
      let remainingDaysAfterCycles := daysSinceEpoch .% #10631 in
      let '(yearInCycle, daysLeft) :=
        yearLoop (map Z.of_nat (seq 1 30)) remainingDaysAfterCycles in
      let yearInCycle := if (yearInCycle =? 0)%Z then 30%Z else yearInCycle in
      let hijriYear := thirtyYearCycles .* #30 .+ Num.of_Z yearInCycle in
      let currentYearIsLeap := includes yearInCycle leapYearsIn30 in
      let '(monthIndex, daysLeft) :=
        monthLoop 0 (islamicMonths currentYearIsLeap) daysLeft in
      let hijriDay := Math.floor daysLeft .+ #1 in
      (Number_toString hijriDay ++ " "
         ++ fst (nth monthIndex (islamicMonths currentYearIsLeap) (""%string, NaN))
         ++ " " ++ Number_toString hijriYear ++ " AH")%string
  end.

Record Location : Type := {
  latitude : num;
  longitude : num;
  timezone : string;
  city : string
}.

Record Settings : Type := {
  method : option string;
  madhab : option string
}.

(** The part of the controller's state the functions below read:
    [this.currentLocation] and [this.settings], where [None] is [null];
    a setting that the saved settings lack is [undefined], [None] as
    well. *)
Record App : Type := {
  currentLocation : option Location;
  settings : option Settings
}.

(** The value [calculateQiblaDirection] leaves in [this.qiblaDirection],
    given the value it had: the bearing of the Kaaba from the current
    location, in degrees from north.  The text it writes to the page
    afterwards is not modelled. *)
Definition calculateQiblaDirection (app : App) (qiblaDirection : num) : num :=
  match currentLocation app with
  | None => qiblaDirection
  | Some location =>
      let kaabaLat := #21.4225 .* Math.PI ./ #180 in
      let kaabaLon := #39.8262 .* Math.PI ./ #180 in
      let userLat := latitude location .* Math.PI ./ #180 in
      let userLon := longitude location .* Math.PI ./ #180 in
      let lonDiff := kaabaLon .- userLon in
      let y := Math.sin lonDiff in
      let x := Math.cos userLat .* Math.tan kaabaLat
               .- Math.sin userLat .* Math.cos lonDiff in
      (Math.atan2 y x .* #180 ./ Math.PI .+ #360) .% #360
  end.

(** The six keys the controller loops over. *)
Inductive Prayer : Type := Fajr | Sunrise | Dhuhr | Asr | Maghrib | Isha.

Definition prayers : list Prayer := [Fajr; Sunrise; Dhuhr; Asr; Maghrib; Isha].

Definition key (prayer : Prayer) : string :=
  match prayer with
  | Fajr => "fajr" | Sunrise => "sunrise" | Dhuhr => "dhuhr"
  | Asr => "asr" | Maghrib => "maghrib" | Isha => "isha"
  end%string.

(** [times[prayer]] on the mapping the engine returns. *)
Definition entry (times : PrayerTimes) (prayer : Prayer) : num :=
  match prayer with
  | Fajr => fajr times | Sunrise => sunrise times | Dhuhr => dhuhr times
  | Asr => asr times | Maghrib => maghrib times | Isha => isha times
  end.

(** [new Date()], as the UTC fields [utcFields] gives for the clock of the
    host: year, zero-based month and day of the month. *)
Definition newDate (utcFields : Z -> Z * Z * Z) (host : Host) : DateArg :=
  let '(year, month, day) := utcFields (clock host) in DateUTC year month day.

(** Reading a field of [null] raises a TypeError, which the [catch]
    answers with ["Error"]. *)
Definition calculateFallbackTime (host : Host) (utcFields : Z -> Z * Z * Z)
           (app : App) (prayer : Prayer) : string :=
  match currentLocation app, settings app with
  | Some location, Some chosen =>
      match PrayerTimesCalculator.calculatePrayerTimes host (newDate utcFields host)
              (latitude location) (longitude location) (timezone location)
              (method chosen) (madhab chosen) with
      | Ok times =>
          PrayerTimesCalculator.formatTime (or_default (Some (entry times prayer)) #0)
      | Throw _ => "Error"%string
      end
  | _, _ => "Error"%string
  end.

(** [prayer.charAt(0).toUpperCase() + prayer.slice(1)] *)
Definition capitalize (s : string) : string :=
  match s with
  | EmptyString => EmptyString
  | String c rest => (toUpperCase (String c EmptyString) ++ rest)%string
  end.

(** [a || b] on two optional texts: a missing or empty [a] gives [b]. *)
Definition or_text (a b : option string) : option string :=
  match a with
  | Some s => if String.eqb s "" then b else Some s
  | None => b
  end.

(** The loop of [validateAndAdjustTimes]: [timings] gives the text stored
    under a key of the response, [fallback] is [calculateFallbackTime],
    the result lists the entries of [validated] in the order they are
    set. *)
Fixpoint validateLoop (fallback : Prayer -> string)
         (timings : string -> option string)
         (remaining : list Prayer) (prevTime : num) : list (Prayer * string) :=
  match remaining with
  | [] => []
  | prayer :: rest =>
      let timeStr := or_text (timings (key prayer))
                             (timings (capitalize (key prayer))) in
      match timeStr with
      | Some text =>
          if negb (String.eqb text "") && isValidTimeFormat text then
            let time := convertTimeToDecimal text in
            if negb (Num.isNaN time) && Num.gt time prevTime
            then (prayer, text) :: validateLoop fallback timings rest time
            else (prayer, fallback prayer)
                   :: validateLoop fallback timings rest prevTime
          else (prayer, fallback prayer)
                 :: validateLoop fallback timings rest prevTime
      | None => (prayer, fallback prayer)
                  :: validateLoop fallback timings rest prevTime
      end
  end.

Definition validateAndAdjustTimes (host : Host) (utcFields : Z -> Z * Z * Z)
           (app : App) (timings : string -> option string)
  : list (Prayer * string) :=
  validateLoop (calculateFallbackTime host utcFields app) timings prayers (.- #1).

(** The page, as far as the controller writes to it: the text of the
    element with a given id, [None] where there is no such element. *)
Definition Document : Type := string -> option string.

(** [document.getElementById(id).textContent = text], a TypeError where
    [getElementById] answers [null]. *)
Definition setTextContent (id text : string) (document : Document)
  : result Document :=
  match document id with
  | Some _ => Ok (fun i => if String.eqb i id then Some text else document i)
  | None => Throw TypeError
  end.

(** [const el = document.getElementById(id); if (el) el.textContent = text] *)
Definition setTextIfPresent (id text : string) (document : Document) : Document :=
  match document id with
  | Some _ => fun i => if String.eqb i id then Some text else document i
  | None => document
  end.

Definition handleError (app : App) (message : string) (document : Document)
  : Document :=
  let ids := ["fajr-time"; "sunrise-time"; "dhuhr-time"; "asr-time";
              "maghrib-time"; "isha-time"; "current-prayer-name";
              "current-prayer-time"]%string in
  let document :=
    fold_left (fun page id => setTextIfPresent id "Error" page) ids document in
  let document := setTextIfPresent "countdown" message document in
  setTextIfPresent "location"
    match currentLocation app with
    | Some location =>
        if String.eqb (city location) "" then "Error"%string else city location
    | None => "Error"%string
    end
    document.

(** An element of the array [prayers] of [updateCurrentAndNextPrayer]. *)
Record NamedTime : Type := { name : string; time : num }.

(** The index at which the [for] loop of [updateCurrentAndNextPrayer]
    breaks, when it does: [i] is the index of the head of [remaining]. *)
Fixpoint firstLater (currentTime : num) (remaining : list NamedTime) (i : nat)
  : option nat :=
  match remaining with
  | [] => None
  | prayer :: rest =>
      if Num.lt currentTime (or_default (Some (time prayer)) #0) then Some i
      else firstLater currentTime rest (S i)
  end.

(** [updateCurrentAndNextPrayer] up to its first write: the current
    prayer and the hours that remain until the next one.  [nextPrayer] is
    assigned by the source and never read, and is left out. *)
Definition currentAndRemaining (currentTime : num) (times : PrayerTimes)
  : NamedTime * num :=
  let prayers :=
    [ {| name := "Fajr"; time := fajr times |};
      {| name := "Sunrise"; time := sunrise times |};
      {| name := "Dhuhr"; time := dhuhr times |};
      {| name := "Asr"; time := asr times |};
      {| name := "Maghrib"; time := maghrib times |};
      {| name := "Isha"; time := isha times |} ] in
  let at_index i := nth i prayers {| name := ""; time := NaN |} in
  let '(currentPrayer, nextTime) :=
    match firstLater currentTime prayers 0 with
    | Some i =>
        (if (0 <? i)%nat then at_index (i - 1)%nat
         else at_index (length prayers - 1)%nat,
         time (at_index i))
    | None =>
        (at_index (length prayers - 1)%nat,
         or_default (Some (time (at_index 0%nat))) #0 .+ #24)
    end in
  let remaining := nextTime .- currentTime in
  let remaining := if Num.lt remaining #0 then remaining .+ #24 else remaining in
  (currentPrayer, remaining).

(** [localFields] gives [getHours()] and [getMinutes()] of [new Date()]
    for the clock of the host.  A write that fails leaves the earlier
    ones in place and hands the page to [handleError]. *)
Definition updateCurrentAndNextPrayer (app : App) (host : Host)
           (localFields : Z -> Z * Z) (times : PrayerTimes)
           (document : Document) : Document :=
  let '(hours, minutes) := localFields (clock host) in
  let currentTime := Num.of_Z hours .+ Num.of_Z minutes ./ #60 in
  let '(currentPrayer, remaining) := currentAndRemaining currentTime times in
  let failed := handleError app "Prayer time update failed" in
  match setTextContent "current-prayer-name" (name currentPrayer) document with
  | Throw _ => failed document
  | Ok document1 =>
      match setTextContent "current-prayer-time"
              (PrayerTimesCalculator.formatTime (time currentPrayer)) document1 with
      | Throw _ => failed document1
      | Ok document2 =>
          match setTextContent "countdown"
                  ("Next prayer in " ++ formatCountdown remaining) document2 with
          | Throw _ => failed document2
          | Ok document3 => document3
          end
      end
  end.

(** A [deviceorientation] event, as far as [handleOrientation] reads it:
    [alpha] is [null] ([None]) or a number, [webkitCompassHeading] is
    [undefined] ([None]) or a number. *)
Record OrientationEvent : Type := {
  alpha : option num;
  webkitCompassHeading : option num
}.

(** What [handleOrientation] reads and writes.  The three elements are
    there or not; of the pointer the number put into its [rotate(...)]
    transform is kept, of the message and the dial whether they carry the
    class [visible] and [aligned]; [vibrations] counts the calls of
    [navigator.vibrate], which [canVibrate] says the host has.
    [compassUnavailable] stands for the effects of [showCompassError]. *)
Record CompassView : Type := {
  qiblaDirection : num;
  isQiblaViewActive : bool;
  isVibrating : bool;
  hasPointer : bool;
  hasMessage : bool;
  hasDial : bool;
  pointerRotation : option num;
  messageVisible : bool;
  dialAligned : bool;
  canVibrate : bool;
  vibrations : nat;
  compassUnavailable : bool
}.

Definition showCompassError (view : CompassView) : CompassView :=
  {| qiblaDirection := qiblaDirection view;
     isQiblaViewActive := isQiblaViewActive view;
     isVibrating := isVibrating view;
     hasPointer := hasPointer view;
     hasMessage := hasMessage view;
     hasDial := hasDial view;
     pointerRotation := pointerRotation view;
     messageVisible := messageVisible view;
     dialAligned := dialAligned view;
     canVibrate := canVibrate view;
     vibrations := vibrations view;
     compassUnavailable := true |}.

(** [360 - event.alpha] reads a [null] as 0. *)
Definition handleOrientation (event : OrientationEvent) (view : CompassView)
  : CompassView :=
  match alpha event, webkitCompassHeading event with
  | None, None => showCompassError view
  | _, _ =>
      if negb (isQiblaViewActive view) then view
      else if negb (hasPointer view) || negb (hasMessage view)
              || negb (hasDial view) then view
      else
        let heading :=
          or_default (webkitCompassHeading event)
            (#360 .- match alpha event with Some a => a | None => #0 end) in
        let rotation := qiblaDirection view .- heading in
        let isAligned :=
          Num.lt (Math.abs (rotation .% #360)) #2
          || Num.gt (Math.abs (rotation .% #360)) #358 in
        if isAligned then
          {| qiblaDirection := qiblaDirection view;
             isQiblaViewActive := isQiblaViewActive view;
             isVibrating := true;
             hasPointer := hasPointer view;
             hasMessage := hasMessage view;
             hasDial := hasDial view;
             pointerRotation := Some rotation;
             messageVisible := true;
             dialAligned := true;
             canVibrate := canVibrate view;
             vibrations :=
               if negb (isVibrating view) && canVibrate view
               then S (vibrations view) else vibrations view;
             compassUnavailable := compassUnavailable view |}
        else
          {| qiblaDirection := qiblaDirection view;
             isQiblaViewActive := isQiblaViewActive view;
             isVibrating := false;
             hasPointer := hasPointer view;
             hasMessage := hasMessage view;
             hasDial := hasDial view;
             pointerRotation := Some rotation;
             messageVisible := false;
             dialAligned := false;
             canVibrate := canVibrate view;
             vibrations := vibrations view;
             compassUnavailable := compassUnavailable view |}
  end.

End AdhanApp.

Import PrayerTimesCalculator.

(** ** Reference definitions *)

(** The Julian Day Number as section 4.1 of the specification writes it,
    on integers with floor division. *)
Definition gregorian_jdn (year month day : Z) : Z :=
  let a := ((14 - month) / 12)%Z in
  let y := (year + 4800 - a)%Z in
  let m := (month + 12 * a - 3)%Z in
  (day + (153 * m + 2) / 5 + 365 * y + y / 4 - y / 100 + y / 400 - 32045)%Z.

(** *** The solar model on finite inputs

    What the shared formula steps of [calculateSolarTime] and
    [calculateDeclination] compute when their input is a finite number,
    as functions on reals. *)

Definition mean_anomaly (D : R) : R := Rrem (357.529 + 0.98560028 * D) 360.

Definition mean_longitude (D : R) : R := Rrem (280.459 + 0.98564736 * D) 360.

Definition ecliptic_longitude (D : R) : R :=
  Rrem (mean_longitude D
        + 1.915 * sin (mean_anomaly D * PI / 180)
        + 0.020 * sin (2 * mean_anomaly D * PI / 180)) 360.

Definition obliquity (D : R) : R := 23.439 - 0.00000036 * D.

(** The number [calculateDeclination] returns: an angle in degrees. *)
Definition declination_of (solarTime : R) : R :=
  let D := solarTime * 24 - 2451545.0 in
  asin (sin (obliquity D * PI / 180) * sin (ecliptic_longitude D * PI / 180))
  * 180 / PI.

Definition right_ascension (D : R) : R :=
  Math.Ratan2 (cos (obliquity D * PI / 180) * sin (ecliptic_longitude D * PI / 180))
              (cos (ecliptic_longitude D * PI / 180))
  * 180 / PI / 15.

Definition equation_of_time (julianDate : R) : R :=
  let D := julianDate - 2451545.0 in
  (mean_longitude D / 15 - right_ascension D) * 4 / 60.

(** The [cosAngle] of [calculateFajr] and [calculateIsha], which differ
    only in the sign of the offset they apply afterwards. *)
Definition twilight_cosAngle (solarTime latitude angle : num) : num :=
  (.- Math.sin (angle .* Math.PI ./ #180)
     ./ (Math.cos (latitude .* Math.PI ./ #180)
         .* Math.cos (PrayerTimesCalculator.calculateDeclination solarTime)))%num.

(** The Fajr solver as section 4.3 of the specification words it: every
    angle given in degrees, the declination included, is converted to
    radians before a trigonometric call. *)
Definition calculateFajr_spec (solarTime latitude fajrAngle : num) : num :=
  (let declination := PrayerTimesCalculator.calculateDeclination solarTime in
   let cosH :=
     .- Math.sin (fajrAngle .* Math.PI ./ #180)
        ./ (Math.cos (latitude .* Math.PI ./ #180)
            .* Math.cos (declination .* Math.PI ./ #180)) in
   if Num.gt (Math.abs cosH) #1 then solarTime .- #1.5
   else
     let H := Math.acos cosH .* #180 ./ Math.PI in
     solarTime .- H ./ #15)%num.

(** *** Hosts to run the engine on *)

Definition Z_toString (z : Z) : string := NilZero.string_of_int (Z.to_int z).

(** A host that does not know the zone name it is given. *)
Definition host_unknown_zone : Host :=
  {| clock := 0;
     formatInZone := fun _ _ => Throw RangeError;
     toLocaleStringUTC := fun _ => ""%string;
     dateFromString := fun _ => NaN |}.

(** *** The formatter and the parser on integers *)

(** The text [formatTime] builds from an hour of the day and a minute. *)
Definition format_hm (h m : Z) : string :=
  (Z_toString (if (h mod 12 =? 0)%Z then 12 else h mod 12) ++ ":"
   ++ padStart2 (Z_toString m) ++ " "
   ++ (if (12 <=? h)%Z then "PM" else "AM"))%string.

(** The hour and minute [convertTimeToDecimal] reads from a text. *)
Definition parse_hm (timeStr : string) : option (Z * Z) :=
  if String.eqb timeStr "" then None
  else
    match match_24h timeStr with
    | Some (h, m) => Some (digits_value 0 (chars h), digits_value 0 (chars m))
    | None =>
        match match_12h timeStr with
        | Some (h, m, p) =>
            let hours := digits_value 0 (chars h) in
            let minutes := digits_value 0 (chars m) in
            let period := toUpperCase p in
            let hours :=
              if String.eqb period "PM" && negb (hours =? 12)%Z
              then (hours + 12)%Z else hours in
            let hours :=
              if String.eqb period "AM" && (hours =? 12)%Z then 0%Z else hours in
            Some (hours, minutes)
        | None => None
        end
    end.

(** The six values of a mapping, in the order of its keys. *)
Definition values (t : PrayerTimes) : list num :=
  [fajr t; sunrise t; dhuhr t; asr t; maghrib t; isha t].

(** *** Shorthands used in the statements *)

(** The denominator shared by the hour-angle equations: the cosine of the
    latitude, converted to radians, times the cosine of the declination
    as [calculateDeclination] returns it. *)
Definition cos_lat_cos_dec (solarTime latitude : R) : R :=
  cos (latitude * PI / 180) * cos (declination_of solarTime).

(** The two twilight angles a method name resolves to. *)
Definition resolved_fajrAngle (method : string) : num :=
  or_default (option_map fajrAngle (methodParams method)) (Fin 18).

Definition resolved_ishaAngle (method : string) : num :=
  or_default (option_map ishaAngle (methodParams method)) (Fin 18).

(** Whether formatting hour [h] and minute [m] and reading the text back
    gives [h] and [m] again. *)
Definition roundtrip_ok (h m : Z) : bool :=
  match parse_hm (format_hm h m) with
  | Some (h', m') => (h' =? h)%Z && (m' =? m)%Z
  | None => false
  end.

(** A number of the day: finite and in [[0, 24)]. *)
Definition in_day (a : num) : Prop :=
  exists v : R, a = Fin v /\ 0 <= v < 24.

(** *** The display format on integers *)

(** The text ["H:MM AM"] or ["H:MM PM"] both formatters print. *)
Definition clock_text (h m : Z) (period : string) : string :=
  (Z_toString h ++ ":" ++ padStart2 (Z_toString m) ++ " " ++ period)%string.

(** What [formatApiTime] prints, from the integers its two patterns
    read. *)
Definition api_display (timeStr : string) : option (Z * Z * string) :=
  if String.eqb timeStr "" then None
  else
    match match_24h timeStr with
    | Some (h, m) =>
        let hours := digits_value 0 (chars h) in
        Some (if (hours mod 12 =? 0)%Z then 12%Z else (hours mod 12)%Z,
              digits_value 0 (chars m),
              if (12 <=? hours)%Z then "PM"%string else "AM"%string)
    | None =>
        match match_12h timeStr with
        | Some (h, m, p) =>
            Some (digits_value 0 (chars h), digits_value 0 (chars m), toUpperCase p)
        | None => None
        end
    end.

(** The hour of the day [convertTimeToDecimal] makes of a 12-hour hour. *)
Definition adjusted_hour (h : Z) (period : string) : Z :=
  let h1 := if String.eqb period "PM" && negb (h =? 12)%Z then (h + 12)%Z else h in
  if String.eqb period "AM" && (h1 =? 12)%Z then 0%Z else h1.

(** Whether both readers read the text printed for [h], [m] and [period]
    back as it was printed. *)
Definition display_table_ok (h m : Z) (period : string) : bool :=
  match api_display (clock_text h m period), parse_hm (clock_text h m period) with
  | Some (h1, m1, p1), Some (h2, m2) =>
      (h1 =? h)%Z && (m1 =? m)%Z && String.eqb p1 period
      && (h2 =? adjusted_hour h period)%Z && (m2 =? m)%Z
  | _, _ => false
  end.

(** The method names of the two method tables. *)
Definition known_methods : list string :=
  ["MWL"; "ISNA"; "Egypt"; "Makkah"; "Karachi"; "Tehran"]%string.

(** *** The tabular Islamic calendar

    The calendar [calculateLocalHijriDate] implements, written from day
    counts: years of 354 days, or 355 in the eleven leap years of each
    cycle of thirty; months of 30 and 29 days in turn, the last one of 30
    days in a leap year. *)

Definition hijri_leap (yearInCycle : Z) : bool :=
  existsb (Z.eqb yearInCycle) [2; 5; 7; 10; 13; 16; 18; 21; 24; 26; 29]%Z.

Definition hijri_year_length (yearInCycle : Z) : Z :=
  if hijri_leap yearInCycle then 355%Z else 354%Z.

(** Days of the cycle before the first day of year [yearInCycle]. *)
Definition hijri_year_start (yearInCycle : Z) : Z :=
  fold_right Z.add 0%Z
    (map (fun k => hijri_year_length (Z.of_nat k))
         (seq 1 (Z.to_nat yearInCycle - 1))).

Definition hijri_month_length (yearInCycle : Z) (month : nat) : Z :=
  if Nat.eqb month 11 then (if hijri_leap yearInCycle then 30%Z else 29%Z)
  else if Nat.even month then 30%Z else 29%Z.

(** Days of the year before the first day of month [month] (from 0). *)
Definition hijri_month_start (yearInCycle : Z) (month : nat) : Z :=
  fold_right Z.add 0%Z (map (hijri_month_length yearInCycle) (seq 0 month)).

Definition hijri_month_name (month : nat) : string :=
  nth month
      [ "Muharram"; "Safar"; "Rabi al-Awwal"; "Rabi al-Thani";
        "Jumada al-Awwal"; "Jumada al-Thani"; "Rajab"; "Shaban";
        "Ramadan"; "Shawwal"; "Dhu al-Qidah"; "Dhu al-Hijjah" ]%string
      ""%string.

(** The number of days from the first day of year 1 to the given day. *)
Definition hijri_day_number (year : Z) (month : nat) (day : Z) : Z :=
  let cycle := ((year - 1) / 30)%Z in
  let yearInCycle := ((year - 1) mod 30 + 1)%Z in
  (10631 * cycle + hijri_year_start yearInCycle
   + hijri_month_start yearInCycle month + (day - 1))%Z.

(** The two loops of [calculateLocalHijriDate] on integers. *)
Fixpoint yearLoopZ (years : list Z) (daysLeft : Z) : Z * Z :=
  match years with
  | [] => (0%Z, daysLeft)
  | y :: rest =>
      let daysInYear := if AdhanApp.includes y AdhanApp.leapYearsIn30
                        then 355%Z else 354%Z in
      if (daysLeft <? daysInYear)%Z then (y, daysLeft)
      else yearLoopZ rest (daysLeft - daysInYear)
  end.

Fixpoint monthLoopZ (m : nat) (lengths : list Z) (daysLeft : Z) : nat * Z :=
  match lengths with
  | [] => (O, daysLeft)
  | days :: rest =>
      if (daysLeft <? days)%Z then (m, daysLeft)
      else monthLoopZ (S m) rest (daysLeft - days)
  end.

Definition month_lengths (leap : bool) : list Z :=
  [30; 29; 30; 29; 30; 29; 30; 29; 30; 29; 30; if leap then 30 else 29]%Z.

(** The months of [islamicMonths] with their lengths as integers. *)
Definition named_months (leap : bool) : list (string * Z) :=
  [ ("Muharram", 30); ("Safar", 29); ("Rabi al-Awwal", 30);
    ("Rabi al-Thani", 29); ("Jumada al-Awwal", 30); ("Jumada al-Thani", 29);
    ("Rajab", 30); ("Shaban", 29); ("Ramadan", 30); ("Shawwal", 29);
    ("Dhu al-Qidah", 30); ("Dhu al-Hijjah", if leap then 30 else 29) ]%string%Z.

(** Year of the cycle, month and day the loops find for a day of the
    cycle. *)
Definition hijri_of_cycle_day (r : Z) : Z * nat * Z :=
  let '(y, daysLeft) := yearLoopZ (map Z.of_nat (seq 1 30)) r in
  let y := if (y =? 0)%Z then 30%Z else y in
  let '(m, daysLeft) :=
    monthLoopZ 0 (month_lengths (AdhanApp.includes y AdhanApp.leapYearsIn30))
               daysLeft in
  (y, m, (daysLeft + 1)%Z).

(** Whether the day found for day [r] of the cycle is a day of the
    calendar and is day [r]. *)
Definition cycle_day_ok (r : Z) : bool :=
  let '(y, m, d) := hijri_of_cycle_day r in
  (1 <=? y)%Z && (y <=? 30)%Z && (m <? 12)%nat
  && (1 <=? d)%Z && (d <=? hijri_month_length y m)%Z
  && (hijri_year_start y + hijri_month_start y m + (d - 1) =? r)%Z.

(** *** Reading the result of [validateAndAdjustTimes] *)

(** The entries of a validated mapping that are not the fallback text of
    their prayer: the texts kept from the response. *)
Definition kept_entries (fallback : AdhanApp.Prayer -> string)
           (validated : list (AdhanApp.Prayer * string)) : list string :=
  map snd (filter (fun e => negb (String.eqb (snd e) (fallback (fst e)))) validated).

(** [a < b] on numbers, as a proposition. *)
Definition num_lt (a b : num) : Prop := Num.lt a b = true.

(** *** The page *)

(** The three elements [updateCurrentAndNextPrayer] writes to are on the
    page. *)
Definition page_ready (document : AdhanApp.Document) : Prop :=
  document "current-prayer-name"%string <> None
  /\ document "current-prayer-time"%string <> None
  /\ document "countdown"%string <> None.

(** The ids of those three elements. *)
Definition prayer_panel : list string :=
  ["current-prayer-name"; "current-prayer-time"; "countdown"]%string.

(** A reading of [getHours()] and [getMinutes()]. *)
Definition clock_reading (fields : Z * Z) : Prop :=
  (0 <= fst fields < 24)%Z /\ (0 <= snd fields < 60)%Z.

(** The hour of the day of such a reading. *)
Definition hour_of_day (fields : Z * Z) : R :=
  IZR (fst fields) + IZR (snd fields) / 60.

(** The place of a prayer in the order of the day. *)
Definition position (p : AdhanApp.Prayer) : nat :=
  match p with
  | AdhanApp.Fajr => 0 | AdhanApp.Sunrise => 1 | AdhanApp.Dhuhr => 2
  | AdhanApp.Asr => 3 | AdhanApp.Maghrib => 4 | AdhanApp.Isha => 5
  end%nat.

(** The prayer before it, Isha before Fajr. *)
Definition previous (p : AdhanApp.Prayer) : AdhanApp.Prayer :=
  match p with
  | AdhanApp.Fajr => AdhanApp.Isha | AdhanApp.Sunrise => AdhanApp.Fajr
  | AdhanApp.Dhuhr => AdhanApp.Sunrise | AdhanApp.Asr => AdhanApp.Dhuhr
  | AdhanApp.Maghrib => AdhanApp.Asr | AdhanApp.Isha => AdhanApp.Maghrib
  end.

(** The element of the array [prayers] that stands for a prayer. *)
Definition named (times : PrayerTimes) (p : AdhanApp.Prayer) : AdhanApp.NamedTime :=
  {| AdhanApp.name := AdhanApp.capitalize (AdhanApp.key p);
     AdhanApp.time := AdhanApp.entry times p |}.

(** [if (remaining < 0) remaining += 24] *)
Definition next_day (remaining : num) : num :=
  if Num.lt remaining #0 then (remaining .+ #24)%num else remaining.

(** *** The compass *)

(** [event.webkitCompassHeading || (360 - event.alpha)] *)
Definition compass_heading (event : AdhanApp.OrientationEvent) : num :=
  or_default (AdhanApp.webkitCompassHeading event)
    (#360 .- match AdhanApp.alpha event with Some a => a | None => #0 end)%num.

(** The view is shown and its three elements are on the page. *)
Definition compass_ready (view : AdhanApp.CompassView) : Prop :=
  AdhanApp.isQiblaViewActive view = true
  /\ AdhanApp.hasPointer view = true
  /\ AdhanApp.hasMessage view = true
  /\ AdhanApp.hasDial view = true.

(** Handling the events of a list one after the other. *)
Definition handleOrientations (events : list AdhanApp.OrientationEvent)
           (view : AdhanApp.CompassView) : AdhanApp.CompassView :=
  fold_left (fun v event => AdhanApp.handleOrientation event v) events view.

(** Whether the message is visible once [event] has been handled. *)
Definition shows_qibla (view : AdhanApp.CompassView)
           (event : AdhanApp.OrientationEvent) : bool :=
  AdhanApp.messageVisible (AdhanApp.handleOrientation event view).

(** *** A host of the [en-US] locale

    The texts a host prints for the two calls of the offset probe and
    what its [Date] constructor makes of them, on a host whose own zone is
    UTC. *)




(** Year, month (from 1) and day of the day [days] days after 1 January
    1970. *)
Definition civil_of_days (days : Z) : Z * Z * Z :=
  let z := (days + 719468)%Z in
  let era := (z / 146097)%Z in
  let doe := (z - era * 146097)%Z in
  let yoe := ((doe - doe / 1460 + doe / 36524 - doe / 146096) / 365)%Z in
  let doy := (doe - (365 * yoe + yoe / 4 - yoe / 100))%Z in
  let mp := ((5 * doy + 2) / 153)%Z in
  let d := (doy - (153 * mp + 2) / 5 + 1)%Z in
  let m := if (mp <? 10)%Z then (mp + 3)%Z else (mp - 9)%Z in
  let y := (yoe + era * 400)%Z in
  (if (m <=? 2)%Z then (y + 1)%Z else y, m, d).

(** [formatter.format(date)] with [hour: 'numeric', minute: 'numeric']:
    ["h:mm AM"], the time of the day in the zone and nothing of the
    date.  (Hosts with newer locale data put a narrow no-break space
    before the period; that text has no date either.) *)
Definition en_US_time (t : Z) : string :=
  format_hm ((t / 3600000) mod 24) ((t / 60000) mod 60).

(** [date.toLocaleString('en-US', { timeZone: 'UTC' })]:
    ["M/D/YYYY, h:mm:ss AM"]. *)
Definition en_US_date_time (t : Z) : string :=
  let '(y, m, d) := civil_of_days (t / 86400000) in
  let h := ((t / 3600000) mod 24)%Z in
  (Z_toString m ++ "/" ++ Z_toString d ++ "/" ++ Z_toString y ++ ", "
     ++ Z_toString (if (h mod 12 =? 0)%Z then 12 else h mod 12) ++ ":"
     ++ padStart2 (Z_toString ((t / 60000) mod 60)) ++ ":"
     ++ padStart2 (Z_toString ((t / 1000) mod 60)) ++ " "
     ++ (if (12 <=? h)%Z then "PM" else "AM"))%string.

(** The leading digits of a text and what follows them. *)
Fixpoint take_digits (l : list ascii) : list ascii * list ascii :=
  match l with
  | c :: rest =>
      if is_digit c
      then let '(digits, tail) := take_digits rest in (c :: digits, tail)
      else ([], l)
  | [] => ([], [])
  end.

(** The instant a text of the form ["M/D/YYYY, h:mm:ss AM"] stands for,
    read as a time of the host's own zone. *)
Definition read_en_US_date_time (s : string) : option Z :=
  let '(month, r1) := take_digits (chars s) in
  match r1 with
  | "/"%char :: r2 =>
      let '(day, r3) := take_digits r2 in
      match r3 with
      | "/"%char :: r4 =>
          let '(year, r5) := take_digits r4 in
          match r5 with
          | ","%char :: " "%char :: r6 =>
              match match_hour_colon r6 with
              | Some (hour, r7) =>
                  match match_two_digits r7 with
                  | Some (minute, ":"%char :: r8) =>
                      match match_two_digits r8 with
                      | Some (second, " "%char :: r9) =>
                          match match_period_end r9 with
                          | Some period =>
                              let mo := digits_value 0 month in
                              let d := digits_value 0 day in
                              let h := digits_value 0 hour in
                              let mi := digits_value 0 minute in
                              let sec := digits_value 0 second in
                              if negb (Nat.eqb (length year) 0)
                                 && (1 <=? mo)%Z && (mo <=? 12)%Z
                                 && (1 <=? d)%Z && (d <=? 31)%Z
                                 && (1 <=? h)%Z && (h <=? 12)%Z
                                 && (mi <=? 59)%Z && (sec <=? 59)%Z
                              then
                                let days :=
                                  (gregorian_jdn (digits_value 0 year) mo d
                                   - 2440588)%Z in
                                let h24 :=
                                  adjusted_hour h (toUpperCase (text period)) in
                                Some ((((days * 24 + h24) * 60 + mi) * 60 + sec)
                                      * 1000)%Z
                              else None
                          | None => None
                          end
                      | _ => None
                      end
                  | _ => None
                  end
              | None => None
              end
          | _ => None
          end
      | _ => None
      end
  | _ => None
  end.

(** A host that knows the zones [zones] gives an offset for, in
    milliseconds, and whose [Date] constructor reads the date-and-time
    texts and gives an Invalid Date for a time without a date. *)
Definition host_en_US (zones : string -> option Z) : Host :=
  {| clock := 0;
     formatInZone := fun timezone t =>
       match zones timezone with
       | Some offset => Ok (en_US_time (t + offset))
       | None => Throw RangeError
       end;
     toLocaleStringUTC := en_US_date_time;
     dateFromString := fun s =>
       match read_en_US_date_time s with
       | Some t => Num.of_Z t
       | None => NaN
       end |}.

(** Two zones such a host knows. *)
Definition zones_known (timezone : string) : option Z :=
  if String.eqb "UTC" timezone then Some 0%Z
  else if String.eqb "Asia/Kolkata" timezone then Some 19800000%Z
  else None.


(** * Properties *)

(** ** Comparisons on reals as booleans *)

Lemma Rltb_true (a b : R) : a < b -> Rltb a b = true.
Proof. intros H; unfold Rltb; destruct (Rlt_dec a b); [reflexivity | contradiction]. Qed.

Lemma Rltb_false (a b : R) : b <= a -> Rltb a b = false.
Proof. intros H; unfold Rltb; destruct (Rlt_dec a b); [lra | reflexivity]. Qed.

Lemma Rleb_true (a b : R) : a <= b -> Rleb a b = true.
Proof. intros H; unfold Rleb; destruct (Rle_dec a b); [reflexivity | contradiction]. Qed.

Lemma Rleb_false (a b : R) : b < a -> Rleb a b = false.
Proof. intros H; unfold Rleb; destruct (Rle_dec a b); [lra | reflexivity]. Qed.

Lemma Req0_true (a : R) : a = 0 -> Req0 a = true.
Proof. intros H; unfold Req0; destruct (Req_dec_T a 0); [reflexivity | contradiction]. Qed.

Lemma Req0_false (a : R) : a <> 0 -> Req0 a = false.
Proof. intros H; unfold Req0; destruct (Req_dec_T a 0); [contradiction | reflexivity]. Qed.

(** ** The remainder operator *)

Lemma Ztrunc_nonneg (t : R) :
  0 <= t -> IZR (Ztrunc t) <= t < IZR (Ztrunc t) + 1.
Proof.
  intros Ht; unfold Ztrunc; destruct (Rle_dec 0 t); [ | contradiction].
  apply Zfloor_bound.
Qed.

Lemma Ztrunc_neg (t : R) :
  t < 0 -> t <= IZR (Ztrunc t) < t + 1.
Proof.
  intros Ht; unfold Ztrunc; destruct (Rle_dec 0 t); [lra | ].
  pose proof (Zceil_bound t); lra.
Qed.

Lemma Rrem_nonneg (x y : R) : 0 < y -> 0 <= x -> 0 <= Rrem x y < y.
Proof.
  intros Hy Hx; unfold Rrem.
  assert (Ht : 0 <= x / y) by (apply Rmult_le_pos; [lra | left; apply Rinv_0_lt_compat; lra]).
  pose proof (Ztrunc_nonneg _ Ht) as [Hlo Hhi].
  assert (Hxy : x = (x / y) * y) by (field; lra).
  set (k := IZR (Ztrunc (x / y))) in *.
  set (t := x / y) in *.
  split; nra.
Qed.

Lemma Rrem_neg (x y : R) : 0 < y -> x < 0 -> - y < Rrem x y <= 0.
Proof.
  intros Hy Hx; unfold Rrem.
  assert (Ht : x / y < 0).
  { unfold Rdiv. assert (0 < / y) by (apply Rinv_0_lt_compat; lra). nra. }
  pose proof (Ztrunc_neg _ Ht) as [Hlo Hhi].
  assert (Hxy : x = (x / y) * y) by (field; lra).
  set (k := IZR (Ztrunc (x / y))) in *.
  set (t := x / y) in *.
  split; nra.
Qed.

Lemma Rrem_abs_lt (x y : R) : 0 < y -> - y < Rrem x y < y.
Proof.
  intros Hy. destruct (Rle_dec 0 x) as [Hx | Hx].
  - pose proof (Rrem_nonneg x y Hy Hx); lra.
  - pose proof (Rrem_neg x y Hy ltac:(lra)); lra.
Qed.

(** A value already in [[0, y)] is its own remainder. *)
Lemma Rrem_small (x y : R) : 0 <= x < y -> Rrem x y = x.
Proof.
  intros [Hx Hy]; unfold Rrem.
  assert (Ht : 0 <= x / y < 1).
  { split.
    - apply Rmult_le_pos; [lra | left; apply Rinv_0_lt_compat; lra].
    - apply (Rmult_lt_reg_r y); [lra | ]. unfold Rdiv.
      rewrite Rmult_assoc, Rinv_l by lra. lra. }
  unfold Ztrunc; destruct (Rle_dec 0 (x / y)); [ | lra].
  rewrite (Zfloor_eq 0) by (simpl; lra). simpl; ring.
Qed.

(** A value in [[-y, 0)] comes back unchanged as well: the operator keeps
    the sign of the dividend. *)
Lemma Rrem_small_neg (x y : R) : - y < x <= 0 -> Rrem x y = x.
Proof.
  intros [Hx Hy]; unfold Rrem.
  assert (Hpos : 0 < y) by lra.
  assert (Ht : -1 < x / y <= 0).
  { assert (Hi : 0 < / y) by (apply Rinv_0_lt_compat; lra).
    assert (Hyy : y * / y = 1) by (apply Rinv_r; lra).
    unfold Rdiv; split; nra. }
  unfold Ztrunc; destruct (Rle_dec 0 (x / y)) as [H0 | H0].
  - assert (E : x / y = 0) by lra. rewrite E.
    rewrite (Zfloor_eq 0) by (simpl; lra). simpl; ring.
  - rewrite (Zceil_eq 0) by (simpl; lra). simpl; ring.
Qed.

Lemma normalize_Fin (x : R) :
  normalize (Fin x) = Fin (Rrem (Rrem x 24 + 24) 24).
Proof.
  unfold normalize; simpl.
  rewrite Req0_false by lra. simpl.
  rewrite Req0_false by lra. reflexivity.
Qed.

Lemma normalize_in_day (x : R) : in_day (normalize (Fin x)).
Proof.
  rewrite normalize_Fin. eexists; split; [reflexivity | ].
  pose proof (Rrem_abs_lt x 24 ltac:(lra)).
  apply Rrem_nonneg; lra.
Qed.

Lemma normalize_not_finite (a : num) :
  ~ Num.is_finite a -> normalize a = NaN.
Proof. destruct a; simpl; intros H; try reflexivity. exfalso; apply H; exact I. Qed.

Lemma normalize_cases (a : num) : normalize a = NaN \/ in_day (normalize a).
Proof.
  destruct a; try (left; reflexivity).
  right; apply normalize_in_day.
Qed.

(** ** Arithmetic on finite numbers *)

Lemma Fin_div (x y : R) : y <> 0 -> (Fin x ./ Fin y)%num = Fin (x / y).
Proof. intros H; simpl; rewrite Req0_false by exact H; reflexivity. Qed.

Lemma Fin_rem (x y : R) : y <> 0 -> (Fin x .% Fin y)%num = Fin (Rrem x y).
Proof. intros H; simpl; rewrite Req0_false by exact H; reflexivity. Qed.

Lemma Fin_sub (x y : R) : (Fin x .- Fin y)%num = Fin (x - y).
Proof. reflexivity. Qed.

Lemma Math_asin_Fin (v : R) : -1 <= v <= 1 -> Math.asin (Fin v) = Fin (asin v).
Proof.
  intros [H1 H2]; simpl. rewrite !Rleb_true by assumption. reflexivity.
Qed.

Lemma Math_acos_Fin (v : R) : -1 <= v <= 1 -> Math.acos (Fin v) = Fin (acos v).
Proof.
  intros [H1 H2]; simpl. rewrite !Rleb_true by assumption. reflexivity.
Qed.

Lemma sin_mul_bound (a b : R) : -1 <= sin a * sin b <= 1.
Proof.
  pose proof (SIN_bound a); pose proof (SIN_bound b). split; nra.
Qed.

Lemma cos_mul_bound (a b : R) : -1 <= cos a * cos b <= 1.
Proof.
  pose proof (COS_bound a); pose proof (COS_bound b). split; nra.
Qed.

(** Rewrites the operators applied to finite operands into the real
    operations; nonzero side conditions are numeric literals or [PI]. *)
Ltac nonzero := first [ exact PI_neq0 | lra ].

Ltac fin_arith :=
  repeat first
    [ progress unfold Math.PI
    | progress cbn [Num.add Num.sub Num.mul Num.neg Math.PI Math.sin Math.cos
                    Math.floor Math.abs Math.atan2 Num.of_Z]
    | rewrite Fin_div by nonzero
    | rewrite Fin_rem by nonzero ].

(** ** The solar model on finite inputs *)

Lemma calculateDeclination_Fin (solarTime : R) :
  calculateDeclination (Fin solarTime) = Fin (declination_of solarTime).
Proof.
  unfold calculateDeclination. fin_arith.
  rewrite Math_asin_Fin by apply sin_mul_bound.
  fin_arith.
  unfold declination_of, obliquity, ecliptic_longitude, mean_longitude,
    mean_anomaly, Rminus.
  reflexivity.
Qed.

Lemma calculateSolarTime_Fin (host : Host) (jd lon off : R) (timezone : string) :
  getTimezoneOffset host timezone = Fin off ->
  calculateSolarTime host (Fin jd) (Fin lon) timezone
  = Fin (12 + equation_of_time jd - lon / 15 + off / 60).
Proof.
  intros Hoff. unfold calculateSolarTime. rewrite Hoff. fin_arith.
  unfold equation_of_time, right_ascension, obliquity, ecliptic_longitude,
    mean_longitude, mean_anomaly, Rminus.
  reflexivity.
Qed.

(** ** Julian dates *)

Lemma Zfloor_div (a b : Z) : (0 < b)%Z -> Zfloor (IZR a / IZR b) = (a / b)%Z.
Proof.
  intros Hb. apply Zfloor_eq.
  assert (Hb' : 0 < IZR b) by (apply IZR_lt; exact Hb).
  pose proof (Z.div_mod a b ltac:(lia)) as Hdm.
  pose proof (Z.mod_pos_bound a b Hb) as [Hlo Hhi].
  assert (Ha : IZR a = IZR b * IZR (a / b) + IZR (a mod b)).
  { rewrite <- mult_IZR, <- plus_IZR. f_equal. exact Hdm. }
  apply IZR_le in Hlo. apply IZR_lt in Hhi.
  assert (E : IZR a / IZR b = IZR (a / b) + IZR (a mod b) / IZR b).
  { rewrite Ha. field. lra. }
  rewrite E.
  assert (0 <= IZR (a mod b) / IZR b < 1).
  { split.
    - apply Rmult_le_pos; [lra | left; apply Rinv_0_lt_compat; lra].
    - apply (Rmult_lt_reg_r (IZR b)); [lra | ].
      unfold Rdiv. rewrite Rmult_assoc, Rinv_l by lra. lra. }
  lra.
Qed.

Lemma floor_quotient (a : Z) (x : R) (b : Z) (y : R) :
  x = IZR a -> y = IZR b -> (0 < b)%Z ->
  Math.floor (Fin x ./ Fin y)%num = Fin (IZR (a / b)).
Proof.
  intros -> -> Hb.
  rewrite Fin_div by (apply not_0_IZR; lia).
  simpl. rewrite Zfloor_div by exact Hb. reflexivity.
Qed.

Ltac push_IZR :=
  repeat (rewrite minus_IZR || rewrite plus_IZR || rewrite mult_IZR
          || rewrite opp_IZR).

Ltac floor_step n d :=
  rewrite (floor_quotient n _ d _) by (try lia; push_IZR; lra);
  cbn [Num.add Num.sub Num.neg Num.mul].

Lemma engine_getJulianDate (y m d : Z) :
  getJulianDate (DateUTC y m d) = Ok (Fin (IZR (gregorian_jdn y (m + 1) d))).
Proof.
  unfold getJulianDate, gregorian_jdn.
  cbn [getUTCFullYear getUTCMonth getUTCDate bind Num.of_Z Num.add Num.sub Num.neg].
  floor_step (14 - (m + 1))%Z 12%Z.
  set (a := ((14 - (m + 1)) / 12)%Z).
  floor_step (153 * (m + 1 + 12 * a - 3) + 2)%Z 5%Z.
  floor_step (y + 4800 - a)%Z 4%Z.
  floor_step (y + 4800 - a)%Z 100%Z.
  floor_step (y + 4800 - a)%Z 400%Z.
  do 2 f_equal. push_IZR. lra.
Qed.

Lemma app_getJulianDate (y m d : Z) :
  AdhanApp.getJulianDate (DateUTC y m d)
  = Ok (Fin (IZR (gregorian_jdn y (m + 1) d) - 0.5)).
Proof.
  unfold AdhanApp.getJulianDate, gregorian_jdn.
  cbn [getUTCFullYear getUTCMonth getUTCDate bind Num.of_Z Num.add Num.sub Num.neg].
  floor_step (14 - (m + 1))%Z 12%Z.
  set (a := ((14 - (m + 1)) / 12)%Z).
  floor_step (153 * (m + 1 + 12 * a - 3) + 2)%Z 5%Z.
  floor_step (y + 4800 - a)%Z 4%Z.
  floor_step (y + 4800 - a)%Z 100%Z.
  floor_step (y + 4800 - a)%Z 400%Z.
  do 2 f_equal. push_IZR. lra.
Qed.

(** C10, as amended.  On a date with UTC fields [y], [m] (zero-based) and
    [d], the engine's [getJulianDate] returns exactly the Julian Day Number
    of the specification's formula, and the [getJulianDate] of the
    application controller returns that number less one half. *)
Theorem getJulianDate_engine_and_app (y m d : Z) :
  PrayerTimesCalculator.getJulianDate (DateUTC y m d)
  = Ok (Fin (IZR (gregorian_jdn y (m + 1) d)))
  /\ AdhanApp.getJulianDate (DateUTC y m d)
     = Ok (Fin (IZR (gregorian_jdn y (m + 1) d) - 0.5)).
Proof. split; [apply engine_getJulianDate | apply app_getJulianDate]. Qed.

(** C10 as stated fails on the second conversion of the program: on
    1 January 2000 the controller's [getJulianDate] returns 2451544.5, not
    the Julian Day Number 2451545. *)
Lemma getJulianDate_app_is_not_jdn :
  AdhanApp.getJulianDate (DateUTC 2000 0 1) = Ok (Fin 2451544.5)
  /\ AdhanApp.getJulianDate (DateUTC 2000 0 1)
     <> Ok (Fin (IZR (gregorian_jdn 2000 (0 + 1) 1))).
Proof.
  rewrite app_getJulianDate.
  replace (gregorian_jdn 2000 (0 + 1) 1) with 2451545%Z by (vm_compute; reflexivity).
  split.
  - do 2 f_equal. lra.
  - intros H. injection H as H. lra.
Qed.

(** ** The wrap into a day and the failure path *)

Lemma try_total (host : Host) (date : DateArg) (lat lon : num)
      (tz method madhab : string) :
  (date = NonDate
   /\ calculatePrayerTimes_try host date lat lon tz method madhab = Throw TypeError)
  \/ (exists t, calculatePrayerTimes_try host date lat lon tz method madhab = Ok t
                /\ Forall (fun v => exists x, v = normalize x) (values t)).
Proof.
  destruct date as [y m d | | ].
  - right. unfold calculatePrayerTimes_try.
    rewrite engine_getJulianDate. cbn [bind].
    eexists; split; [reflexivity | ].
    unfold values; cbn [fajr sunrise dhuhr asr maghrib isha].
    repeat constructor; eexists; reflexivity.
  - right. unfold calculatePrayerTimes_try. cbn [getJulianDate getUTCFullYear getUTCMonth getUTCDate bind].
    eexists; split; [reflexivity | ].
    unfold values; cbn [fajr sunrise dhuhr asr maghrib isha].
    repeat constructor; eexists; reflexivity.
  - left. split; reflexivity.
Qed.





(** C2.  [calculatePrayerTimes] returns normally on every input, and when
    a step of its [try] block throws, what it returns is the all-zero
    mapping. *)
Theorem calculatePrayerTimes_never_raises
        (host : Host) (date : DateArg) (latitude longitude : num)
        (timezone : string) (method madhab : option string) :
  exists t,
    calculatePrayerTimes host date latitude longitude timezone method madhab = Ok t
    /\ (forall e,
           calculatePrayerTimes_try host date latitude longitude timezone
             (with_default method "Karachi") (with_default madhab "Hanafi")
           = Throw e ->
           t = unavailable).
Proof.
  unfold calculatePrayerTimes.
  destruct (calculatePrayerTimes_try host date latitude longitude timezone
              (with_default method "Karachi") (with_default madhab "Hanafi"))
    as [t | e0]; cbn [try_catch].
  - exists t; split; [reflexivity | ]. intros e He; discriminate He.
  - exists unavailable; split; [reflexivity | ]. intros; reflexivity.
Qed.

(** A call whose [date] is not a [Date]: the getter raises a TypeError
    inside the [try] block and the caller receives the all-zero mapping. *)
Lemma calculatePrayerTimes_never_raises_witness :
  calculatePrayerTimes_try host_unknown_zone NonDate (Fin 16.2) (Fin 77.35)
    "Asia/Raichur" "Karachi" "Hanafi" = Throw TypeError
  /\ calculatePrayerTimes host_unknown_zone NonDate (Fin 16.2) (Fin 77.35)
       "Asia/Raichur" None None = Ok unavailable.
Proof.
  split; [reflexivity | ].
  destruct (calculatePrayerTimes_never_raises host_unknown_zone NonDate
              (Fin 16.2) (Fin 77.35) "Asia/Raichur" None None) as [t [E H]].
  rewrite E. f_equal. apply (H TypeError). reflexivity.
Defined.

(** ** Dependence on the host *)







(** What the [en-US] host prints at noon UTC of 15 January 2024, and what
    its [Date] constructor makes of the two texts. *)
Lemma host_en_US_example :
  toLocaleStringUTC (host_en_US zones_known) 1705320000000
  = "1/15/2024, 12:00:00 PM"%string
  /\ read_en_US_date_time "1/15/2024, 12:00:00 PM" = Some 1705320000000%Z
  /\ formatInZone (host_en_US zones_known) "Asia/Kolkata" 1705320000000
     = Ok "5:30 PM"%string
  /\ read_en_US_date_time "5:30 PM" = None.
Proof. vm_compute. repeat split. Qed.


(** ** The solvers on finite inputs *)

Lemma zero_twilight_cosAngle (solarTime latitude : R) :
  cos_lat_cos_dec solarTime latitude <> 0 ->
  twilight_cosAngle (Fin solarTime) (Fin latitude) (Fin 0) = Fin 0.
Proof.
  intros Hc. unfold twilight_cosAngle.
  rewrite calculateDeclination_Fin. fin_arith.
  rewrite Fin_div by exact Hc.
  f_equal.
  replace (0 * PI / 180) with 0 by (field; nonzero).
  rewrite sin_0. unfold Rdiv. ring.
Qed.

Lemma quarter_turn_hours : acos 0 * 180 / PI / 15 = 6.
Proof. rewrite acos_0. field. exact PI_neq0. Qed.

Lemma calculateSunrise_Fin (solarTime latitude : R) :
  cos_lat_cos_dec solarTime latitude <> 0 ->
  calculateSunrise (Fin solarTime) (Fin latitude) = Fin (solarTime - 6).
Proof.
  intros Hc. unfold calculateSunrise.
  change (.- Math.sin (#0 .* Math.PI ./ #180)
          ./ (Math.cos (#latitude .* Math.PI ./ #180)
              .* Math.cos (calculateDeclination #solarTime)))%num
    with (twilight_cosAngle (Fin solarTime) (Fin latitude) (Fin 0)).
  rewrite zero_twilight_cosAngle by exact Hc.
  cbn [Math.abs Num.gt]. rewrite Rabs_R0, Rltb_false by lra.
  rewrite Math_acos_Fin by lra. fin_arith.
  f_equal. rewrite quarter_turn_hours. reflexivity.
Qed.

Lemma calculateMaghrib_Fin (solarTime latitude : R) :
  cos_lat_cos_dec solarTime latitude <> 0 ->
  calculateMaghrib (Fin solarTime) (Fin latitude) = Fin (solarTime + 6).
Proof.
  intros Hc. unfold calculateMaghrib.
  change (.- Math.sin (#0 .* Math.PI ./ #180)
          ./ (Math.cos (#latitude .* Math.PI ./ #180)
              .* Math.cos (calculateDeclination #solarTime)))%num
    with (twilight_cosAngle (Fin solarTime) (Fin latitude) (Fin 0)).
  rewrite zero_twilight_cosAngle by exact Hc.
  cbn [Math.abs Num.gt]. rewrite Rabs_R0, Rltb_false by lra.
  rewrite Math_acos_Fin by lra. fin_arith.
  f_equal. rewrite quarter_turn_hours. reflexivity.
Qed.

(** When the denominator vanishes the quotient is [0 / 0]: the two
    zero-angle solvers return [NaN]. *)
Lemma calculateSunrise_singular (solarTime latitude : R) :
  cos_lat_cos_dec solarTime latitude = 0 ->
  calculateSunrise (Fin solarTime) (Fin latitude) = NaN.
Proof.
  intros Hc. unfold calculateSunrise.
  rewrite calculateDeclination_Fin. fin_arith.
  fold (cos_lat_cos_dec solarTime latitude). rewrite Hc.
  replace (0 * PI / 180) with 0 by (field; nonzero).
  rewrite sin_0.
  cbn [Num.div]. rewrite !Req0_true by lra. reflexivity.
Qed.

(** C7.  Whenever the product of the two cosines is not zero, the sunrise
    solver returns exactly [solarTime - 6] and the sunset solver exactly
    [solarTime + 6], whatever the latitude and the declination. *)
Theorem sunrise_and_maghrib_are_six_hours_from_noon (solarTime latitude : R) :
  cos (latitude * PI / 180) * cos (declination_of solarTime) <> 0 ->
  calculateDeclination (Fin solarTime) = Fin (declination_of solarTime)
  /\ calculateSunrise (Fin solarTime) (Fin latitude) = Fin (solarTime - 6)
  /\ calculateMaghrib (Fin solarTime) (Fin latitude) = Fin (solarTime + 6).
Proof.
  intros Hc. split; [apply calculateDeclination_Fin | ].
  split; [apply calculateSunrise_Fin | apply calculateMaghrib_Fin]; exact Hc.
Qed.

(** ** The twilight solvers and their fallback *)

Lemma calculateFajr_unfold (solarTime latitude angle : num) :
  calculateFajr solarTime latitude angle
  = if Num.gt (Math.abs (twilight_cosAngle solarTime latitude angle)) (Fin 1)
    then (solarTime .- #1.5)%num
    else (solarTime
          .- Math.acos (twilight_cosAngle solarTime latitude angle)
             .* #180 ./ Math.PI ./ #15)%num.
Proof. reflexivity. Qed.

Lemma calculateIsha_unfold (solarTime latitude angle : num) :
  calculateIsha solarTime latitude angle
  = if Num.gt (Math.abs (twilight_cosAngle solarTime latitude angle)) (Fin 1)
    then (solarTime .+ #1.5)%num
    else (solarTime
          .+ Math.acos (twilight_cosAngle solarTime latitude angle)
             .* #180 ./ Math.PI ./ #15)%num.
Proof. reflexivity. Qed.

(** The equation has no solution as soon as the sine of the twilight angle
    exceeds the product of the two cosines in absolute value; a vanishing
    product gives an infinite quotient and the same branch. *)
Lemma twilight_no_solution (solarTime latitude angle : R) :
  Rabs (cos_lat_cos_dec solarTime latitude) < Rabs (sin (angle * PI / 180)) ->
  Num.gt (Math.abs (twilight_cosAngle (Fin solarTime) (Fin latitude) (Fin angle)))
         (Fin 1) = true.
Proof.
  intros Hlt. unfold twilight_cosAngle.
  rewrite calculateDeclination_Fin. fin_arith.
  fold (cos_lat_cos_dec solarTime latitude).
  set (c := cos_lat_cos_dec solarTime latitude) in *.
  set (s := sin (angle * PI / 180)) in *.
  assert (Hs : s <> 0).
  { intros E. rewrite E, Rabs_R0 in Hlt. pose proof (Rabs_pos c). lra. }
  destruct (Req_dec_T c 0) as [Hc | Hc].
  - rewrite Hc. cbn [Num.div]. rewrite Req0_true by reflexivity.
    rewrite Req0_false by lra.
    destruct (Rltb 0 (- s)); reflexivity.
  - rewrite Fin_div by exact Hc. cbn [Math.abs Num.gt].
    apply Rltb_true.
    unfold Rdiv. rewrite Rabs_mult, Rabs_Ropp, Rabs_inv.
    assert (Hcpos : 0 < Rabs c) by (apply Rabs_pos_lt; exact Hc).
    apply (Rmult_lt_reg_r (Rabs c)); [exact Hcpos | ].
    rewrite Rmult_assoc, Rinv_l by lra. lra.
Qed.

Lemma fallback_taken (solarTime latitude angle : R) :
  Rabs (cos_lat_cos_dec solarTime latitude) < Rabs (sin (angle * PI / 180)) ->
  calculateFajr (Fin solarTime) (Fin latitude) (Fin angle) = Fin (solarTime - 1.5)
  /\ calculateIsha (Fin solarTime) (Fin latitude) (Fin angle) = Fin (solarTime + 1.5).
Proof.
  intros H. rewrite calculateFajr_unfold, calculateIsha_unfold.
  rewrite (twilight_no_solution _ _ _ H). split; reflexivity.
Qed.

(** At 89 degrees the cosine of the latitude is the sine of one degree. *)
Lemma cos_89_degrees : cos (89 * PI / 180) = sin (PI / 180).
Proof.
  replace (89 * PI / 180) with (PI / 2 - PI / 180) by field.
  apply cos_shift.
Qed.

Lemma sin_degrees_above_one (angle : R) :
  1 < angle <= 90 -> sin (PI / 180) < sin (angle * PI / 180).
Proof.
  intros [H1 H90]. pose proof PI_RGT_0 as Hpi.
  apply sin_increasing_1; try nra.
Qed.

Lemma near_pole_no_solution (solarTime angle : R) :
  1 < angle <= 90 ->
  Rabs (cos_lat_cos_dec solarTime 89) < Rabs (sin (angle * PI / 180)).
Proof.
  intros Ha. unfold cos_lat_cos_dec. rewrite cos_89_degrees.
  pose proof (sin_degrees_above_one angle Ha) as Hs.
  assert (H1 : 0 < sin (PI / 180)).
  { apply sin_gt_0; pose proof PI_RGT_0; lra. }
  pose proof (COS_bound (declination_of solarTime)) as [Hc1 Hc2].
  rewrite Rabs_mult, (Rabs_pos_eq (sin (PI / 180))) by lra.
  rewrite (Rabs_pos_eq (sin (angle * PI / 180))) by lra.
  assert (Rabs (cos (declination_of solarTime)) <= 1) by (apply Rabs_le; lra).
  pose proof (Rabs_pos (cos (declination_of solarTime))).
  nra.
Qed.

Lemma or_default_Fin (v d : R) : v <> 0 -> or_default (Some (Fin v)) (Fin d) = Fin v.
Proof. intros H; unfold or_default; cbn. rewrite Req0_false by exact H. reflexivity. Qed.

Lemma resolved_angles_range (method : string) :
  exists fa ia : R,
    resolved_fajrAngle method = Fin fa /\ resolved_ishaAngle method = Fin ia
    /\ 1 < fa <= 90 /\ 1 < ia <= 90.
Proof.
  unfold resolved_fajrAngle, resolved_ishaAngle, methodParams, methodParamsTable.
  cbn [lookup].
  repeat match goal with
         | |- context [String.eqb method ?k] =>
             destruct (String.eqb method k);
             [ cbn [option_map fajrAngle ishaAngle];
               rewrite !or_default_Fin by lra;
               do 2 eexists; repeat split; try reflexivity; lra | ]
         end.
  cbn [option_map or_default].
  do 2 eexists; repeat split; try reflexivity; lra.
Qed.

(** C5.  In both twilight solvers an hour-angle cosine above one in
    absolute value selects the fallback: Fajr is [solarTime - 1.5] and
    Isha is [solarTime + 1.5].  At latitude 89 that branch is the one
    taken for every solar time (summer dates included) and for the angles
    of every method name. *)
Theorem twilight_fallback :
  (forall solarTime latitude angle : num,
      Num.gt (Math.abs (twilight_cosAngle solarTime latitude angle)) (Fin 1) = true ->
      calculateFajr solarTime latitude angle = (solarTime .- #1.5)%num
      /\ calculateIsha solarTime latitude angle = (solarTime .+ #1.5)%num)
  /\ (forall (solarTime : R) (method : string),
         Num.gt (Math.abs (twilight_cosAngle (Fin solarTime) (Fin 89)
                             (resolved_fajrAngle method))) (Fin 1) = true
         /\ Num.gt (Math.abs (twilight_cosAngle (Fin solarTime) (Fin 89)
                                (resolved_ishaAngle method))) (Fin 1) = true
         /\ calculateFajr (Fin solarTime) (Fin 89) (resolved_fajrAngle method)
            = Fin (solarTime - 1.5)
         /\ calculateIsha (Fin solarTime) (Fin 89) (resolved_ishaAngle method)
            = Fin (solarTime + 1.5)).
Proof.
  split.
  - intros st lat a H. rewrite calculateFajr_unfold, calculateIsha_unfold, H.
    split; reflexivity.
  - intros st method.
    destruct (resolved_angles_range method) as [fa [ia [-> [-> [Hfa Hia]]]]].
    pose proof (near_pole_no_solution st fa Hfa) as Hf.
    pose proof (near_pole_no_solution st ia Hia) as Hi.
    repeat split.
    + apply twilight_no_solution; exact Hf.
    + apply twilight_no_solution; exact Hi.
    + apply (fallback_taken _ _ _ Hf).
    + apply (fallback_taken _ _ _ Hi).
Qed.

(** The fallback at solar time 12, latitude 89 and a twilight angle of 18
    degrees. *)
Lemma twilight_fallback_witness :
  Num.gt (Math.abs (twilight_cosAngle (Fin 12) (Fin 89) (Fin 18))) (Fin 1) = true
  /\ calculateFajr (Fin 12) (Fin 89) (Fin 18) = Fin (12 - 1.5)
  /\ calculateIsha (Fin 12) (Fin 89) (Fin 18) = Fin (12 + 1.5).
Proof.
  assert (H : Num.gt (Math.abs (twilight_cosAngle (Fin 12) (Fin 89) (Fin 18)))
                     (Fin 1) = true).
  { apply twilight_no_solution, near_pole_no_solution; lra. }
  split; [exact H | ].
  exact (proj1 twilight_fallback (Fin 12) (Fin 89) (Fin 18) H).
Defined.

Lemma sin_90_degrees : sin (90 * PI / 180) = 1.
Proof. replace (90 * PI / 180) with (PI / 2) by field. apply sin_PI2. Qed.

Lemma makkah_ishaAngle : resolved_ishaAngle "Makkah" = Fin 90.
Proof.
  unfold resolved_ishaAngle, methodParams, methodParamsTable.
  cbn [lookup String.eqb Ascii.eqb Bool.eqb option_map ishaAngle].
  apply or_default_Fin. lra.
Qed.

Lemma isha_at_90_degrees (solarTime latitude : R) :
  Rabs (cos (latitude * PI / 180) * cos (declination_of solarTime)) < 1 ->
  calculateIsha (Fin solarTime) (Fin latitude) (Fin 90) = Fin (solarTime + 1.5).
Proof.
  intros Hc. apply fallback_taken. unfold cos_lat_cos_dec.
  rewrite sin_90_degrees, Rabs_R1. exact Hc.
Qed.

(** C4, as amended.  The Isha angle of the method Makkah is 90, used as a
    literal angle: the numerator of the hour-angle cosine is
    [- sin 90 = -1], so whenever the product of the two cosines is below one
    in absolute value the equation has no solution and Isha is the
    fallback [solarTime + 1.5]; Maghrib, when its quotient is defined, is
    [solarTime + 6], four and a half hours later. *)
Theorem isha_makkah_is_the_fallback (solarTime latitude : R) :
  Rabs (cos (latitude * PI / 180) * cos (declination_of solarTime)) < 1 ->
  resolved_ishaAngle "Makkah" = Fin 90
  /\ calculateIsha (Fin solarTime) (Fin latitude) (Fin 90) = Fin (solarTime + 1.5)
  /\ (cos (latitude * PI / 180) * cos (declination_of solarTime) <> 0 ->
      calculateMaghrib (Fin solarTime) (Fin latitude) = Fin (solarTime + 6)).
Proof.
  intros Hc. split; [apply makkah_ishaAngle | ].
  split; [apply isha_at_90_degrees; exact Hc | apply calculateMaghrib_Fin].
Qed.

Lemma cos_60_degrees : cos (60 * PI / 180) = 1 / 2.
Proof. replace (60 * PI / 180) with (PI / 3) by field. apply cos_PI3. Qed.

(** At latitude 60 the product of the cosines is at most one half. *)
Lemma isha_makkah_is_the_fallback_witness :
  calculateIsha (Fin 12) (Fin 60) (Fin 90) = Fin (12 + 1.5).
Proof.
  apply (isha_makkah_is_the_fallback 12 60).
  rewrite cos_60_degrees, Rabs_mult.
  pose proof (COS_bound (declination_of 12)) as [H1 H2].
  assert (Rabs (cos (declination_of 12)) <= 1) by (apply Rabs_le; lra).
  rewrite (Rabs_pos_eq (1 / 2)) by lra. lra.
Defined.

(** ** Order of the returned times *)

Lemma atan_nonpos (t : R) : t <= 0 -> atan t <= 0.
Proof.
  intros [Ht | ->]; [ | rewrite atan_0; lra].
  pose proof (atan_increasing t 0 Ht) as H. rewrite atan_0 in H. lra.
Qed.

Lemma atan_pos (t : R) : 0 < t -> 0 < atan t.
Proof.
  intros Ht. pose proof (atan_increasing 0 t Ht) as H. rewrite atan_0 in H. lra.
Qed.

Lemma Ratan2_bound (y x : R) : - PI <= Math.Ratan2 y x <= PI.
Proof.
  pose proof PI_RGT_0 as Hpi. unfold Math.Ratan2, Rltb, Rleb.
  destruct (Rlt_dec 0 x) as [Hx | Hx].
  { pose proof (atan_bound (y / x)); lra. }
  destruct (Rlt_dec x 0) as [Hx' | Hx'].
  - assert (Hi : / x < 0) by (apply Rinv_lt_0_compat; exact Hx').
    destruct (Rle_dec 0 y) as [Hy | Hy].
    + assert (Hq : y / x <= 0) by (unfold Rdiv; nra).
      pose proof (atan_nonpos _ Hq). pose proof (atan_bound (y / x)). lra.
    + assert (Hq : 0 < y / x) by (unfold Rdiv; nra).
      pose proof (atan_pos _ Hq). pose proof (atan_bound (y / x)). lra.
  - destruct (Rlt_dec 0 y); [lra | ].
    destruct (Rlt_dec y 0); lra.
Qed.

Lemma right_ascension_bound (D : R) : -12 <= right_ascension D <= 12.
Proof.
  unfold right_ascension.
  set (a := Math.Ratan2 _ _).
  pose proof (Ratan2_bound
                (cos (obliquity D * PI / 180) * sin (ecliptic_longitude D * PI / 180))
                (cos (ecliptic_longitude D * PI / 180))) as [Hlo Hhi].
  fold a in Hlo, Hhi. pose proof PI_RGT_0 as Hpi.
  assert (Hi : 0 < / PI) by (apply Rinv_0_lt_compat; exact Hpi).
  assert (Hone : PI * / PI = 1) by (apply Rinv_r; lra).
  assert (Hr : -1 <= a * / PI <= 1) by (split; nra).
  replace (a * 180 / PI / 15) with (a * / PI * 12) by (field; lra).
  lra.
Qed.

(** The equation of time the engine computes stays within 2.4 hours. *)
Lemma equation_of_time_bound (jd : R) : -2.4 < equation_of_time jd < 2.4.
Proof.
  unfold equation_of_time.
  pose proof (right_ascension_bound (jd - 2451545.0)).
  pose proof (Rrem_abs_lt (280.459 + 0.98564736 * (jd - 2451545.0)) 360 ltac:(lra)).
  unfold mean_longitude. lra.
Qed.

Lemma Rrem_shift (x y : R) : 0 <= x < y -> Rrem (x + y) y = x.
Proof.
  intros [Hx Hy]; unfold Rrem.
  assert (Hpos : 0 < y) by lra.
  assert (Hi : 0 < / y) by (apply Rinv_0_lt_compat; lra).
  assert (Hyy : y * / y = 1) by (apply Rinv_r; lra).
  assert (Ht : 1 <= (x + y) / y < 2) by (unfold Rdiv; split; nra).
  unfold Ztrunc; destruct (Rle_dec 0 ((x + y) / y)); [ | lra].
  rewrite (Zfloor_eq 1) by (simpl; lra). simpl; ring.
Qed.

Lemma normalize_day (x : R) : 0 <= x < 24 -> normalize (Fin x) = Fin x.
Proof.
  intros H. rewrite normalize_Fin, (Rrem_small x 24) by lra.
  rewrite Rrem_shift by lra. reflexivity.
Qed.

Lemma normalize_eve (x : R) : -24 < x < 0 -> normalize (Fin x) = Fin (x + 24).
Proof.
  intros H. rewrite normalize_Fin, (Rrem_small_neg x 24) by lra.
  rewrite Rrem_small by lra. reflexivity.
Qed.

Lemma sunrise_cases (solarTime latitude : R) :
  calculateSunrise (Fin solarTime) (Fin latitude) = Fin (solarTime - 6)
  \/ calculateSunrise (Fin solarTime) (Fin latitude) = NaN.
Proof.
  destruct (Req_dec_T (cos_lat_cos_dec solarTime latitude) 0) as [H | H].
  - right; apply calculateSunrise_singular; exact H.
  - left; apply calculateSunrise_Fin; exact H.
Qed.

(** C3 fails on the code.  At longitude 135 east, for every valid date,
    every latitude, method and madhab, and every offset reading within a
    day, the solar time the engine computes lies between 0 and 6: Dhuhr is
    that time, and Sunrise, six hours earlier, wraps to the evening, so
    Sunrise is not before Dhuhr. *)
Theorem sunrise_not_before_dhuhr_at_135_east
        (host : Host) (y m d : Z) (latitude off : R) (timezone : string)
        (method madhab : option string) :
  getTimezoneOffset host timezone = Fin off ->
  -24 <= off <= 24 ->
  exists t st,
    calculatePrayerTimes host (DateUTC y m d) (Fin latitude) (Fin 135)
      timezone method madhab = Ok t
    /\ 0 < st < 6
    /\ dhuhr t = Fin st
    /\ (sunrise t = Fin (st + 18) \/ sunrise t = NaN)
    /\ Num.lt (sunrise t) (dhuhr t) = false.
Proof.
  intros Hoff Hrange.
  unfold calculatePrayerTimes, calculatePrayerTimes_try.
  rewrite engine_getJulianDate. cbn [bind try_catch].
  rewrite (calculateSolarTime_Fin _ _ _ off) by exact Hoff.
  set (jd := IZR (gregorian_jdn y (m + 1) d)).
  pose proof (equation_of_time_bound jd) as Heq.
  set (st := 12 + equation_of_time jd - 135 / 15 + off / 60) in *.
  assert (Hst : 0 < st < 6) by (unfold st; lra).
  eexists; exists st. split; [reflexivity | ].
  cbn [dhuhr sunrise]. unfold calculateDhuhr.
  rewrite (normalize_day st) by lra.
  split; [exact Hst | ]. split; [reflexivity | ].
  destruct (sunrise_cases st latitude) as [-> | ->].
  - rewrite (normalize_eve (st - 6)) by lra.
    replace (st - 6 + 24) with (st + 18) by ring.
    split; [left; reflexivity | ].
    cbn [Num.lt Num.gt]. apply Rltb_false. lra.
  - split; [right; reflexivity | reflexivity].
Qed.

Lemma unknown_zone_offset (timezone : string) :
  getTimezoneOffset host_unknown_zone timezone = Fin 5.5.
Proof. reflexivity. Qed.

(** Akashi, Japan (35 north, 135 east), on the March equinox of 2024, with
    a zone name the host does not know, so that the offset is the
    fallback. *)
Lemma sunrise_not_before_dhuhr_at_135_east_witness :
  exists t,
    calculatePrayerTimes host_unknown_zone (DateUTC 2024 2 20)
      (Fin 35) (Fin 135) "Japan/Akashi" (Some "Karachi"%string) (Some "Hanafi"%string)
    = Ok t
    /\ Num.lt (sunrise t) (dhuhr t) = false.
Proof.
  destruct (sunrise_not_before_dhuhr_at_135_east
              host_unknown_zone 2024 2 20 35 5.5 "Japan/Akashi"
              (Some "Karachi"%string) (Some "Hanafi"%string)
              (unknown_zone_offset _) ltac:(lra))
    as [t [st [E [_ [_ [_ H]]]]]].
  exists t. split; [exact E | exact H].
Defined.

(** ** Formatting a time and reading it back *)

Lemma strict_eq_IZR (a b : Z) :
  Num.strict_eq (Fin (IZR a)) (Fin (IZR b)) = (a =? b)%Z.
Proof.
  cbn [Num.strict_eq]. destruct (Req_dec_T (IZR a) (IZR b)) as [E | E].
  - apply eq_IZR in E. subst. symmetry; apply Z.eqb_refl.
  - symmetry; apply Z.eqb_neq. intros ->. apply E; reflexivity.
Qed.

(** [convertTimeToDecimal] reads the hour and the minute that [parse_hm]
    reads, and returns the hour plus the minute over sixty. *)
Lemma convertTimeToDecimal_parse (timeStr : string) :
  AdhanApp.convertTimeToDecimal timeStr
  = match parse_hm timeStr with
    | Some (h, m) => Fin (IZR h + IZR m / 60)
    | None => Fin 0
    end.
Proof.
  unfold AdhanApp.convertTimeToDecimal, parse_hm.
  destruct (String.eqb timeStr ""); [reflexivity | ].
  destruct (match_24h timeStr) as [[h m] | ].
  { unfold parseDigits, Num.of_Z. cbn [Num.isNaN orb]. fin_arith. reflexivity. }
  destruct (match_12h timeStr) as [[[h m] p] | ]; [ | reflexivity].
  unfold parseDigits, Num.of_Z.
  set (a := digits_value 0 (chars h)).
  set (b := digits_value 0 (chars m)).
  change (Fin 12) with (Fin (IZR 12)).
  rewrite strict_eq_IZR.
  destruct (String.eqb (toUpperCase p) "PM"), (String.eqb (toUpperCase p) "AM"),
    (a =? 12)%Z eqn:Ea;
    cbn [andb negb Num.add];
    rewrite <- ?plus_IZR, ?strict_eq_IZR, ?Ea;
    try (apply Z.eqb_eq in Ea; subst a);
    try (replace ((a + 12) =? 12)%Z with (a =? 0)%Z
          by (destruct (Z.eqb_spec a 0), (Z.eqb_spec (a + 12) 12); lia || reflexivity));
    try destruct (a =? 0)%Z;
    cbn [Num.isNaN orb]; fin_arith; reflexivity.
Qed.

Lemma roundtrip_table :
  forallb (fun h => forallb (fun m => roundtrip_ok (Z.of_nat h) (Z.of_nat m))
                            (seq 0 60))
          (seq 0 24) = true.
Proof. vm_compute. reflexivity. Qed.

(** Every hour of the day and minute of the hour is read back from the
    text it is formatted to. *)
Lemma parse_format_hm (h m : Z) :
  (0 <= h < 24)%Z -> (0 <= m < 60)%Z -> parse_hm (format_hm h m) = Some (h, m).
Proof.
  intros Hh Hm.
  pose proof roundtrip_table as T.
  rewrite forallb_forall in T.
  specialize (T (Z.to_nat h)). rewrite in_seq in T.
  specialize (T ltac:(lia)).
  rewrite forallb_forall in T.
  specialize (T (Z.to_nat m)). rewrite in_seq in T.
  specialize (T ltac:(lia)).
  rewrite !Z2Nat.id in T by lia.
  unfold roundtrip_ok in T.
  destruct (parse_hm (format_hm h m)) as [[h' m'] | ]; [ | discriminate T].
  apply andb_true_iff in T. destruct T as [T1 T2].
  apply Z.eqb_eq in T1, T2. subst. reflexivity.
Qed.

Lemma Rrem_IZR_nonneg (a b : Z) :
  (0 <= a)%Z -> (0 < b)%Z -> Rrem (IZR a) (IZR b) = IZR (a mod b).
Proof.
  intros Ha Hb. unfold Rrem.
  assert (Hb' : 0 < IZR b) by (apply IZR_lt; exact Hb).
  assert (Hq : 0 <= IZR a / IZR b).
  { apply Rmult_le_pos; [apply IZR_le; exact Ha | left; apply Rinv_0_lt_compat; exact Hb']. }
  unfold Ztrunc. destruct (Rle_dec 0 (IZR a / IZR b)); [ | contradiction].
  rewrite Zfloor_div by exact Hb.
  rewrite Z.mod_eq by lia. push_IZR. ring.
Qed.

Lemma Number_toString_IZR (z : Z) : Number_toString (Fin (IZR z)) = Z_toString z.
Proof.
  unfold Number_toString. rewrite ZfloorZ.
  destruct (Req_dec_T (IZR z) (IZR z)) as [_ | E]; [reflexivity | ].
  exfalso; apply E; reflexivity.
Qed.

(** On a time of the day other than midnight, [formatTime] prints the
    whole hours and the whole minutes of its argument. *)
Lemma formatTime_Fin (x : R) :
  0 < x < 24 ->
  formatTime (Fin x)
  = format_hm (Zfloor x) (Zfloor ((x - IZR (Zfloor x)) * 60)).
Proof.
  intros Hx. unfold formatTime, format_hm.
  cbn [Num.truthy Num.isNaN]. rewrite Req0_false by lra.
  cbn [negb orb]. fin_arith.
  set (h := Zfloor x).
  assert (Hh : (0 <= h < 24)%Z).
  { pose proof (Zfloor_bound x) as [Hlo Hhi]. fold h in Hlo, Hhi.
    split.
    - apply (Zfloor_lub 0 x); simpl; lra.
    - apply lt_IZR. lra. }
  change 12 with (IZR 12).
  rewrite Rrem_IZR_nonneg by lia.
  cbn [Num.ge].
  assert (Eperiod : Rleb (IZR 12) (IZR h) = (12 <=? h)%Z).
  { destruct (Z.leb_spec 12 h) as [H | H].
    - apply Rleb_true, IZR_le; exact H.
    - apply Rleb_false, IZR_lt; exact H. }
  rewrite Eperiod.
  assert (Edisplay : or_default (Some (Fin (IZR (h mod 12)))) (Fin (IZR 12))
                     = Fin (IZR (if (h mod 12 =? 0)%Z then 12 else h mod 12))).
  { unfold or_default; cbn [Num.truthy].
    destruct (Z.eqb_spec (h mod 12) 0) as [E | E].
    - rewrite E, Req0_true by reflexivity. reflexivity.
    - rewrite Req0_false by (apply not_0_IZR; exact E). reflexivity. }
  rewrite Edisplay, !Number_toString_IZR.
  reflexivity.
Qed.

(** C8.  For a decimal hour strictly between 0 and 24, reading back the
    text [formatTime] prints gives a number at most one minute below the
    original and never above it. *)
Theorem convertTimeToDecimal_formatTime (x : R) :
  0 < x < 24 ->
  exists y : R,
    AdhanApp.convertTimeToDecimal (formatTime (Fin x)) = Fin y
    /\ Rabs (y - x) <= 1 / 60
    /\ x - 1 / 60 < y <= x.
Proof.
  intros Hx.
  rewrite formatTime_Fin by exact Hx.
  set (h := Zfloor x).
  set (m := Zfloor ((x - IZR h) * 60)).
  pose proof (Zfloor_bound x) as [Hlo Hhi]. fold h in Hlo, Hhi.
  pose proof (Zfloor_bound ((x - IZR h) * 60)) as [Mlo Mhi]. fold m in Mlo, Mhi.
  assert (Hh : (0 <= h < 24)%Z).
  { split; [apply (Zfloor_lub 0 x); simpl; lra | apply lt_IZR; lra]. }
  assert (Hm : (0 <= m < 60)%Z).
  { split; [apply (Zfloor_lub 0); simpl; lra | apply lt_IZR; lra]. }
  rewrite convertTimeToDecimal_parse, parse_format_hm by assumption.
  exists (IZR h + IZR m / 60).
  split; [reflexivity | ].
  assert (x - 1 / 60 < IZR h + IZR m / 60 <= x) by lra.
  split; [ | assumption].
  apply Rabs_le. lra.
Qed.

(** A quarter to four in the afternoon. *)
Lemma convertTimeToDecimal_formatTime_witness :
  exists y : R,
    AdhanApp.convertTimeToDecimal (formatTime (Fin 15.76)) = Fin y
    /\ Rabs (y - 15.76) <= 1 / 60.
Proof.
  destruct (convertTimeToDecimal_formatTime 15.76 ltac:(lra)) as [y [E [H _]]].
  exists y. split; [exact E | exact H].
Defined.

Lemma formatTime_example : formatTime (Fin 15.76) = "3:45 PM"%string.
Proof.
  rewrite formatTime_Fin by lra.
  rewrite (Zfloor_eq 15) by (simpl; lra).
  rewrite (Zfloor_eq 45) by (simpl; lra).
  reflexivity.
Qed.
Lemma INR_fact_3 : INR (fact 3) = 6.
Proof. rewrite INR_IZR_INZ. reflexivity. Qed.
Lemma INR_fact_5 : INR (fact 5) = 120.
Proof. rewrite INR_IZR_INZ. reflexivity. Qed.
Lemma INR_fact_7 : INR (fact 7) = 5040.
Proof. rewrite INR_IZR_INZ. reflexivity. Qed.

Lemma sin_approx_1 (a : R) : sin_approx a 1 = a - a ^ 3 / 6.
Proof.
  unfold sin_approx, sin_term. cbn [sum_f_R0 Nat.mul Nat.add].
  rewrite INR_fact_3. change (INR (fact 1)) with 1. simpl pow. field.
Qed.

Lemma sin_approx_2 (a : R) : sin_approx a 2 = a - a ^ 3 / 6 + a ^ 5 / 120.
Proof.
  unfold sin_approx, sin_term. cbn [sum_f_R0 Nat.mul Nat.add].
  rewrite INR_fact_3, INR_fact_5. change (INR (fact 1)) with 1. simpl pow. field.
Qed.

Lemma sin_approx_3 (a : R) :
  sin_approx a 3 = a - a ^ 3 / 6 + a ^ 5 / 120 - a ^ 7 / 5040.
Proof.
  unfold sin_approx, sin_term. cbn [sum_f_R0 Nat.mul Nat.add].
  rewrite INR_fact_3, INR_fact_5, INR_fact_7. change (INR (fact 1)) with 1. simpl pow. field.
Qed.

Lemma sin_between (a : R) :
  0 <= a <= 4 ->
  a - a ^ 3 / 6 + a ^ 5 / 120 - a ^ 7 / 5040 <= sin a <= a - a ^ 3 / 6 + a ^ 5 / 120.
Proof.
  intros [H0 H4].
  pose proof (pre_sin_bound a 1 H0 H4) as [Hlo _].
  pose proof (pre_sin_bound a 0 H0 H4) as [_ Hhi].
  change (2 * 1 + 1)%nat with 3%nat in Hlo.
  change (2 * (0 + 1))%nat with 2%nat in Hhi.
  rewrite sin_approx_3 in Hlo. rewrite sin_approx_2 in Hhi. lra.
Qed.

Lemma PI_lower : 3.1404 < PI.
Proof.
  (* sin 0.5234 < 1/2 = sin (PI/6) *)
  pose proof (sin_between 0.5234 ltac:(lra)) as [_ Hhi].
  assert (Hs : sin 0.5234 < sin (PI / 6)).
  { rewrite sin_PI6. eapply Rle_lt_trans; [exact Hhi | ]. lra. }
  pose proof PI2_1 as H1.
  destruct (Rlt_dec 0.5234 (PI / 6)) as [H | H]; [lra | ].
  exfalso.
  assert (Hle : PI / 6 <= 0.5234) by lra.
  pose proof PI_RGT_0 as Hpos.
  pose proof (sin_incr_1 (PI / 6) 0.5234 ltac:(lra) ltac:(lra) ltac:(lra) ltac:(lra) Hle).
  lra.
Qed.

Lemma PI_upper : PI < 3.1422.
Proof.
  pose proof (sin_between 0.5237 ltac:(lra)) as [Hlo _].
  assert (Hs : sin (PI / 6) < sin 0.5237).
  { rewrite sin_PI6. eapply Rlt_le_trans; [ | exact Hlo]. lra. }
  pose proof PI2_1 as H1. pose proof PI_RGT_0 as Hpos.
  destruct (Rlt_dec (PI / 6) 0.5237) as [H | H]; [lra | ].
  exfalso.
  assert (Hle : 0.5237 <= PI / 6) by lra.
  pose proof (sin_incr_1 0.5237 (PI / 6) ltac:(lra) ltac:(lra) ltac:(lra) ltac:(lra) Hle).
  lra.
Qed.

(** Enclosure of the sine of a number known between two bounds. *)
Lemma sin_enclosure (a lo hi : R) :
  0 <= lo -> lo <= a -> a <= hi -> hi <= 4 ->
  lo - hi ^ 3 / 6 <= sin a <= hi - lo ^ 3 / 6 + hi ^ 5 / 120.
Proof.
  intros H0 Hlo Hhi H4.
  pose proof (sin_between a ltac:(lra)) as [Hs1 Hs2].
  assert (Ha3 : lo ^ 3 <= a ^ 3 <= hi ^ 3)
    by (split; apply pow_incr; lra).
  assert (Ha5 : 0 <= a ^ 5 <= hi ^ 5)
    by (split; [apply pow_le; lra | apply pow_incr; lra]).
  assert (Ha7 : a ^ 7 <= 16 * a ^ 5).
  { replace (a ^ 7) with (a ^ 2 * a ^ 5) by ring.
    apply Rmult_le_compat_r; [lra | ]. nra. }
  lra.
Qed.

Lemma Rrem_negative (x y : R) (k : Z) :
  0 < y -> x < 0 -> - y < x - y * IZR k <= 0 -> Rrem x y = x - y * IZR k.
Proof.
  intros Hy Hx [Hlo Hhi]. unfold Rrem, Ztrunc.
  assert (Hi : 0 < / y) by (apply Rinv_0_lt_compat; exact Hy).
  assert (Hyy : y * / y = 1) by (apply Rinv_r; lra).
  assert (Hq : x / y < 0) by (unfold Rdiv; nra).
  destruct (Rle_dec 0 (x / y)); [lra | ].
  rewrite (Zceil_eq k); [reflexivity | ].
  unfold Rdiv; split; nra.
Qed.

(** *** The declination at solar time 6

    With [solarTime = 6] the day count of [calculateDeclination] is
    [-2451401].  The mean longitude is [-336.46495136], the ecliptic
    longitude lies within 1.935 of it, the obliquity is [24.32150436], and
    the declination returned, in degrees, lies between [5 PI / 2] and
    [7 PI / 2]: read as radians, its cosine is negative. *)

Lemma mean_longitude_at_6 : mean_longitude (-2451401) = -336.46495136.
Proof.
  unfold mean_longitude.
  rewrite (Rrem_negative _ 360 (-6710)) by lra. lra.
Qed.

Lemma ecliptic_longitude_at_6 :
  -338.4 <= ecliptic_longitude (-2451401) <= -334.5299.
Proof.
  unfold ecliptic_longitude. rewrite mean_longitude_at_6.
  pose proof (SIN_bound (mean_anomaly (-2451401) * PI / 180)) as [A1 A2].
  pose proof (SIN_bound (2 * mean_anomaly (-2451401) * PI / 180)) as [B1 B2].
  rewrite Rrem_small_neg by lra. lra.
Qed.

Lemma sin_product_at_6 :
  0.149 <=
  sin (obliquity (-2451401) * PI / 180) * sin (ecliptic_longitude (-2451401) * PI / 180)
  <= 0.1796.
Proof.
  pose proof PI_lower as Hl. pose proof PI_upper as Hu.
  pose proof ecliptic_longitude_at_6 as [L1 L2].
  set (L := ecliptic_longitude (-2451401)) in *.
  assert (EL : sin (L * PI / 180) = sin ((L + 360) * PI / 180)).
  { rewrite <- (sin_period (L * PI / 180) 1). f_equal. simpl INR. field. }
  rewrite EL.
  assert (Ee : obliquity (-2451401) = 24.32150436) by (unfold obliquity; lra).
  rewrite Ee.
  assert (Hth : 0.376848 <= (L + 360) * PI / 180 <= 0.444624).
  { assert (21.6 * 3.1404 <= (L + 360) * PI <= 25.4701 * 3.1422) by (split; nra).
    lra. }
  pose proof (sin_enclosure ((L + 360) * PI / 180) 0.376848 0.444624
                ltac:(lra) ltac:(lra) ltac:(lra) ltac:(lra)) as [S1 S2].
  pose proof (sin_enclosure (24.32150436 * PI / 180) 0.424329 0.424573
                ltac:(lra) ltac:(lra) ltac:(lra) ltac:(lra)) as [T1 T2].
  set (a := sin ((L + 360) * PI / 180)) in *.
  set (b := sin (24.32150436 * PI / 180)) in *.
  assert (A1 : 0.3621 <= a <= 0.4359) by lra.
  assert (B1 : 0.4115 <= b <= 0.412) by lra.
  split; nra.
Qed.

Lemma asin_above (s y : R) :
  -1 <= s <= 1 -> - (PI / 2) <= y <= PI / 2 -> sin y < s -> y < asin s.
Proof.
  intros Hs Hy Hlt.
  destruct (Rlt_dec y (asin s)) as [H | H]; [exact H | exfalso].
  pose proof (asin_bound s) as [A1 A2].
  pose proof (sin_incr_1 (asin s) y ltac:(lra) ltac:(lra) ltac:(lra) ltac:(lra)
                ltac:(lra)) as Hle.
  rewrite sin_asin in Hle by exact Hs. lra.
Qed.

Lemma asin_below (s y : R) :
  -1 <= s <= 1 -> - (PI / 2) <= y <= PI / 2 -> s < sin y -> asin s < y.
Proof.
  intros Hs Hy Hlt.
  destruct (Rlt_dec (asin s) y) as [H | H]; [exact H | exfalso].
  pose proof (asin_bound s) as [A1 A2].
  pose proof (sin_incr_1 y (asin s) ltac:(lra) ltac:(lra) ltac:(lra) ltac:(lra)
                ltac:(lra)) as Hle.
  rewrite sin_asin in Hle by exact Hs. lra.
Qed.

Lemma PI_square : 9.862 < PI * PI < 9.8735.
Proof. pose proof PI_lower; pose proof PI_upper; split; nra. Qed.

Lemma declination_at_6 :
  5 / 2 * PI < declination_of 6 < 7 / 2 * PI.
Proof.
  pose proof PI_lower as Hl. pose proof PI_upper as Hu.
  pose proof PI_square as [Q1 Q2].
  unfold declination_of.
  replace (6 * 24 - 2451545.0) with (-2451401) by lra.
  pose proof sin_product_at_6 as [S1 S2].
  set (s := sin (obliquity (-2451401) * PI / 180)
            * sin (ecliptic_longitude (-2451401) * PI / 180)) in *.
  assert (Hlow : 5 / 2 * (PI * PI) / 180 < asin s).
  { apply asin_above; [lra | lra | ].
    assert (H0 : 0 < 5 / 2 * (PI * PI) / 180) by lra.
    pose proof (sin_lt_x _ H0). lra. }
  assert (Hhigh : asin s < 7 / 2 * (PI * PI) / 180).
  { apply asin_below; [lra | lra | ].
    pose proof (sin_enclosure (7 / 2 * (PI * PI) / 180) 0.19176 0.19199
                  ltac:(lra) ltac:(lra) ltac:(lra) ltac:(lra)) as [T1 _].
    lra. }
  assert (Hi : 0 < / PI) by (apply Rinv_0_lt_compat; lra).
  assert (Hone : PI * / PI = 1) by (apply Rinv_r; lra).
  unfold Rdiv in *.
  split; nra.
Qed.

Lemma cos_declination_at_6 : cos (declination_of 6) < 0.
Proof.
  pose proof declination_at_6 as [H1 H2].
  assert (E : cos (declination_of 6) = cos (declination_of 6 - 2 * PI)).
  { rewrite <- (cos_period (declination_of 6 - 2 * PI) 1).
    f_equal. simpl INR. ring. }
  rewrite E. apply cos_lt_0; lra.
Qed.

Lemma cos_0_degrees : cos (0 * PI / 180) = 1.
Proof. replace (0 * PI / 180) with 0 by (field; nonzero). apply cos_0. Qed.

(** At solar time 6 on the equator the product of the two cosines is not
    zero. *)
Lemma sunrise_and_maghrib_are_six_hours_from_noon_witness :
  calculateSunrise (Fin 6) (Fin 0) = Fin (6 - 6)
  /\ calculateMaghrib (Fin 6) (Fin 0) = Fin (6 + 6).
Proof.
  apply (sunrise_and_maghrib_are_six_hours_from_noon 6 0).
  rewrite cos_0_degrees. pose proof cos_declination_at_6. lra.
Defined.

Lemma acos_acute (v : R) : 0 < v <= 1 -> acos v < PI / 2.
Proof.
  intros Hv. pose proof (acos_bound v) as [A1 A2].
  destruct (Rlt_dec (acos v) (PI / 2)) as [H | H]; [exact H | exfalso].
  pose proof (cos_le_0 (acos v) ltac:(lra) ltac:(lra)) as Hc.
  rewrite cos_acos in Hc by lra. lra.
Qed.

Lemma acos_obtuse (v : R) : -1 <= v < 0 -> PI / 2 < acos v.
Proof.
  intros Hv. pose proof (acos_bound v) as [A1 A2].
  destruct (Rlt_dec (PI / 2) (acos v)) as [H | H]; [exact H | exfalso].
  pose proof (cos_ge_0 (acos v) ltac:(lra) ltac:(lra)) as Hc.
  rewrite cos_acos in Hc by lra. lra.
Qed.

(** C6 fails on the code.  At solar time 6, latitude 0 and a Fajr angle of
    18 degrees, [calculateFajr] feeds the declination, a number of
    degrees, to the cosine as it is and returns a time after
    [solarTime - 6]; the solver of the specification, which converts the
    declination to radians first, returns a time before [solarTime - 6]. *)
Theorem fajr_declination_not_converted :
  exists code spec : R,
    calculateFajr (Fin 6) (Fin 0) (Fin 18) = Fin code
    /\ calculateFajr_spec (Fin 6) (Fin 0) (Fin 18) = Fin spec
    /\ spec < 6 - 6 < code.
Proof.
  pose proof PI_lower as Hl. pose proof PI_upper as Hu.
  pose proof PI_square as [Q1 Q2].
  pose proof declination_at_6 as [D1 D2].
  pose proof cos_declination_at_6 as Hneg.
  assert (Hs18 : 0 < sin (18 * PI / 180) < 1 / 2).
  { split.
    - apply sin_gt_0; lra.
    - pose proof (sin_lt_x (18 * PI / 180) ltac:(lra)). lra. }
  assert (Hi : 0 < / PI) by (apply Rinv_0_lt_compat; lra).
  assert (Hone : PI * / PI = 1) by (apply Rinv_r; lra).
  (* the code *)
  assert (Hcode : exists code, calculateFajr (Fin 6) (Fin 0) (Fin 18) = Fin code
                               /\ 0 < code).
  { rewrite calculateFajr_unfold. unfold twilight_cosAngle.
    rewrite calculateDeclination_Fin. fin_arith.
    rewrite cos_0_degrees, Rmult_1_l.
    rewrite Fin_div by lra.
    set (v := - sin (18 * PI / 180) / cos (declination_of 6)).
    assert (Hv : 0 < v).
    { unfold v, Rdiv.
      assert (/ cos (declination_of 6) < 0) by (apply Rinv_lt_0_compat; exact Hneg).
      nra. }
    cbn [Math.abs Num.gt]. unfold Rltb.
    destruct (Rlt_dec 1 (Rabs v)) as [Hbig | Hsmall].
    - eexists; split; [reflexivity | lra].
    - rewrite Rabs_pos_eq in Hsmall by lra.
      rewrite Math_acos_Fin by lra. fin_arith.
      eexists; split; [reflexivity | ].
      pose proof (acos_acute v ltac:(lra)) as Ha.
      pose proof (acos_bound v) as [A1 _].
      assert (acos v * 180 / PI / 15 < 6).
      { unfold Rdiv. replace (acos v * 180 * / PI * / 15) with (acos v * / PI * 12) by (field; lra).
        assert (acos v * / PI < / 2) by nra. lra. }
      lra. }
  (* the solver as specified *)
  assert (Hspec : exists spec, calculateFajr_spec (Fin 6) (Fin 0) (Fin 18) = Fin spec
                               /\ spec < 0).
  { unfold calculateFajr_spec.
    rewrite calculateDeclination_Fin. fin_arith.
    rewrite cos_0_degrees, Rmult_1_l.
    set (y := declination_of 6 * PI / 180).
    assert (Hy : 0 < y < PI / 3) by (unfold y; split; nra).
    assert (Hc : 1 / 2 < cos y).
    { rewrite <- cos_PI3. apply cos_decreasing_1; lra. }
    rewrite Fin_div by lra.
    set (w := - sin (18 * PI / 180) / cos y).
    assert (Hw : -1 < w < 0).
    { unfold w, Rdiv.
      assert (Hic : 0 < / cos y < 2).
      { split; [apply Rinv_0_lt_compat; lra | ].
        replace 2 with (/ (1 / 2)) by field.
        apply Rinv_lt_contravar; lra. }
      split; nra. }
    cbn [Math.abs Num.gt]. rewrite Rltb_false
      by (apply Rabs_le; lra).
    rewrite Math_acos_Fin by lra. fin_arith.
    eexists; split; [reflexivity | ].
    pose proof (acos_obtuse w ltac:(lra)) as Ha.
    assert (6 < acos w * 180 / PI / 15).
    { unfold Rdiv. replace (acos w * 180 * / PI * / 15) with (acos w * / PI * 12) by (field; lra).
      assert (/ 2 < acos w * / PI) by nra. lra. }
    lra. }
  destruct Hcode as [code [Ec Hc]]. destruct Hspec as [spec [Es Hs]].
  exists code, spec. repeat split; try assumption; lra.
Qed.

Lemma cos_degrees_between (latitude : R) :
  0 < latitude < 90 -> 0 < cos (latitude * PI / 180) < 1.
Proof.
  intros [H0 H90]. pose proof PI_RGT_0 as Hpi.
  split.
  - apply cos_gt_0; nra.
  - rewrite <- cos_0. apply cos_decreasing_1; nra.
Qed.

(** C4 as stated fails: at solar time 6 and the latitude of Makkah, Isha
    under the method Makkah is the fallback, 7.5, while Maghrib is 12:
    four and a half hours apart, not approximately equal. *)
Lemma isha_makkah_is_not_maghrib :
  calculateIsha (Fin 6) (Fin 21.4225) (resolved_ishaAngle "Makkah") = Fin 7.5
  /\ calculateMaghrib (Fin 6) (Fin 21.4225) = Fin 12.
Proof.
  pose proof (cos_degrees_between 21.4225 ltac:(lra)) as [C1 C2].
  pose proof cos_declination_at_6 as Hneg.
  pose proof (COS_bound (declination_of 6)) as [B1 B2].
  assert (Hsmall : Rabs (cos (21.4225 * PI / 180) * cos (declination_of 6)) < 1).
  { rewrite Rabs_mult, (Rabs_pos_eq (cos (21.4225 * PI / 180))) by lra.
    rewrite (Rabs_left (cos (declination_of 6))) by lra. nra. }
  assert (Hnz : cos (21.4225 * PI / 180) * cos (declination_of 6) <> 0) by nra.
  rewrite makkah_ishaAngle, (isha_at_90_degrees 6 21.4225 Hsmall).
  rewrite (calculateMaghrib_Fin 6 21.4225 Hnz).
  split; f_equal; lra.
Qed.

(** * Further properties of the formatters *)

Lemma Num_ge_IZR (a b : Z) : Num.ge (Fin (IZR a)) (Fin (IZR b)) = (b <=? a)%Z.
Proof.
  cbn [Num.ge]. destruct (Z.leb_spec b a) as [H | H].
  - apply Rleb_true, IZR_le; exact H.
  - apply Rleb_false, IZR_lt; exact H.
Qed.

Lemma Num_gt_IZR (a b : Z) : Num.gt (Fin (IZR a)) (Fin (IZR b)) = (b <? a)%Z.
Proof.
  cbn [Num.gt]. destruct (Z.ltb_spec b a) as [H | H].
  - apply Rltb_true, IZR_lt; exact H.
  - apply Rltb_false, IZR_le; exact H.
Qed.

Lemma or_default_IZR (k d : Z) :
  or_default (Some (Fin (IZR k))) (Fin (IZR d))
  = Fin (IZR (if (k =? 0)%Z then d else k)).
Proof.
  unfold or_default; cbn [Num.truthy].
  destruct (Z.eqb_spec k 0) as [E | E].
  - rewrite E, Req0_true by reflexivity. reflexivity.
  - rewrite Req0_false by (apply not_0_IZR; exact E). reflexivity.
Qed.

(** Digits read by the two patterns are never negative. *)
Lemma digits_value_nonneg (l : list ascii) (acc : Z) :
  (0 <= acc)%Z -> forallb is_digit l = true -> (0 <= digits_value acc l)%Z.
Proof.
  revert acc. induction l as [ | c l IH]; intros acc Hacc Hd;
    cbn [digits_value forallb] in *; [exact Hacc | ].
  apply andb_true_iff in Hd. destruct Hd as [Hc Hl].
  apply IH; [ | exact Hl].
  unfold is_digit in Hc. apply andb_true_iff in Hc. destruct Hc as [H1 H2].
  apply Nat.leb_le in H1. lia.
Qed.

Lemma digits_value_two (l : list ascii) :
  forallb is_digit l = true -> (length l <= 2)%nat ->
  (0 <= digits_value 0 l < 100)%Z.
Proof.
  intros Hd Hlen.
  assert (Hdig : forall c, is_digit c = true ->
                           (0 <= Z.of_nat (nat_of_ascii c) - 48 <= 9)%Z).
  { intros c Hc. unfold is_digit in Hc. apply andb_true_iff in Hc.
    destruct Hc as [H1 H2]. apply Nat.leb_le in H1, H2. lia. }
  destruct l as [ | c1 [ | c2 [ | c3 l]]];
    cbn [digits_value forallb length] in *; try lia.
  - apply andb_true_iff in Hd. destruct Hd as [H1 _].
    pose proof (Hdig _ H1). lia.
  - apply andb_true_iff in Hd. destruct Hd as [H1 Hd].
    apply andb_true_iff in Hd. destruct Hd as [H2 _].
    pose proof (Hdig _ H1). pose proof (Hdig _ H2). lia.
Qed.

Lemma chars_text (l : list ascii) : chars (text l) = l.
Proof. apply list_ascii_of_string_of_list_ascii. Qed.

Lemma match_hour_colon_digits (l h rest : list ascii) :
  match_hour_colon l = Some (h, rest) ->
  forallb is_digit h = true /\ (length h <= 2)%nat.
Proof.
  unfold match_hour_colon. intros H.
  destruct l as [ | d1 [ | d2 l]]; try discriminate.
  destruct (Ascii.eqb d2 ":") eqn:E2.
  - apply Ascii.eqb_eq in E2; subst d2.
    destruct (is_digit d1) eqn:D1; [ | discriminate].
    injection H as <- <-. cbn. rewrite D1. split; [reflexivity | lia].
  - assert (H' : match l with
                 | ":"%char :: rest0 =>
                     if is_digit d1 && is_digit d2 then Some ([d1; d2], rest0) else None
                 | _ => None
                 end = Some (h, rest)).
    { destruct d2 as [[] [] [] [] [] [] [] []]; try discriminate E2; exact H. }
    clear H.
    destruct l as [ | c l]; [discriminate | ].
    destruct (Ascii.eqb c ":") eqn:Ec.
    + apply Ascii.eqb_eq in Ec; subst c.
      destruct (is_digit d1 && is_digit d2) eqn:D; [ | discriminate].
      injection H' as <- <-. cbn. rewrite andb_true_r. split; [exact D | lia].
    + destruct c as [[] [] [] [] [] [] [] []]; try discriminate Ec; discriminate H'.
Qed.

Lemma match_two_digits_digits (l m rest : list ascii) :
  match_two_digits l = Some (m, rest) ->
  forallb is_digit m = true /\ (length m <= 2)%nat.
Proof.
  unfold match_two_digits. intros H.
  destruct l as [ | d1 [ | d2 l]]; try discriminate.
  destruct (is_digit d1 && is_digit d2) eqn:D; [ | discriminate].
  injection H as <- <-. cbn. rewrite andb_true_r. split; [exact D | lia].
Qed.

Lemma match_24h_digits (s h m : string) :
  match_24h s = Some (h, m) ->
  (0 <= digits_value 0 (chars h) < 100)%Z /\ (0 <= digits_value 0 (chars m) < 100)%Z.
Proof.
  unfold match_24h. intros H.
  destruct (match_hour_colon (chars s)) as [[hh rest] | ] eqn:Eh; [ | discriminate].
  destruct (match_two_digits rest) as [[mm rest'] | ] eqn:Em; [ | discriminate].
  destruct rest'; [ | discriminate].
  injection H as <- <-. rewrite !chars_text.
  apply match_hour_colon_digits in Eh. apply match_two_digits_digits in Em.
  split; apply digits_value_two; tauto.
Qed.

(** The period group of a match is ["AM"] or ["PM"] once in upper case. *)
Lemma match_period_end_upper (l p : list ascii) :
  match_period_end l = Some p ->
  toUpperCase (text p) = "AM"%string \/ toUpperCase (text p) = "PM"%string.
Proof.
  unfold match_period_end. intros H.
  destruct l as [ | c1 [ | c2 [ | c3 l]]]; try discriminate.
  destruct (_ && _) eqn:E; [ | discriminate].
  injection H as <-.
  apply andb_true_iff in E. destruct E as [E1 E2].
  rewrite <- (ascii_nat_embedding c1), <- (ascii_nat_embedding c2).
  apply orb_true_iff in E2.
  apply orb_true_iff in E1. destruct E1 as [E1 | E1];
    [apply orb_true_iff in E1; destruct E1 as [E1 | E1];
     [apply orb_true_iff in E1; destruct E1 as [E1 | E1] | ] | ];
    apply Nat.eqb_eq in E1; rewrite E1;
    (destruct E2 as [E2 | E2]; apply Nat.eqb_eq in E2; rewrite E2);
    vm_compute; auto.
Qed.

Lemma match_12h_digits (s h m p : string) :
  match_12h s = Some (h, m, p) ->
  (0 <= digits_value 0 (chars h) < 100)%Z
  /\ (0 <= digits_value 0 (chars m) < 100)%Z
  /\ (toUpperCase p = "AM"%string \/ toUpperCase p = "PM"%string).
Proof.
  unfold match_12h. intros H.
  destruct (match_hour_colon (chars s)) as [[hh rest] | ] eqn:Eh; [ | discriminate].
  destruct (match_two_digits rest) as [[mm rest'] | ] eqn:Em; [ | discriminate].
  destruct (match_period_end _) as [pp | ] eqn:Ep; [ | discriminate].
  injection H as <- <- <-. rewrite !chars_text.
  apply match_hour_colon_digits in Eh. apply match_two_digits_digits in Em.
  apply match_period_end_upper in Ep.
  repeat split; try (apply digits_value_two; tauto). exact Ep.
Qed.

(** [formatApiTime] prints the integers [api_display] reads, unless the
    hour exceeds 12 or the minute 59. *)
Lemma formatApiTime_display (timeStr : string) :
  AdhanApp.formatApiTime timeStr
  = match api_display timeStr with
    | Some (h, m, period) =>
        if (12 <? h)%Z || (59 <? m)%Z then "Error"%string else clock_text h m period
    | None => "Error"%string
    end.
Proof.
  unfold AdhanApp.formatApiTime, api_display.
  destruct (String.eqb timeStr ""); [reflexivity | ].
  destruct (match_24h timeStr) as [[h m] | ] eqn:E24.
  - apply match_24h_digits in E24. destruct E24 as [Hh Hm].
    unfold parseDigits, Num.of_Z.
    set (a := digits_value 0 (chars h)) in *.
    set (b := digits_value 0 (chars m)) in *.
    change (Fin 12) with (Fin (IZR 12)). change (Fin 59) with (Fin (IZR 59)).
    rewrite Num_ge_IZR, Fin_rem by (apply not_0_IZR; lia).
    rewrite Rrem_IZR_nonneg by lia.
    rewrite or_default_IZR, !Num_gt_IZR. cbn [Num.isNaN orb].
    rewrite !Number_toString_IZR. reflexivity.
  - destruct (match_12h timeStr) as [[[h m] p] | ]; [ | reflexivity].
    unfold parseDigits, Num.of_Z.
    change (Fin 12) with (Fin (IZR 12)). change (Fin 59) with (Fin (IZR 59)).
    rewrite !Num_gt_IZR. cbn [Num.isNaN orb].
    rewrite !Number_toString_IZR. reflexivity.
Qed.

Lemma display_table :
  forallb (fun h =>
    forallb (fun m =>
      display_table_ok (Z.of_nat h) (Z.of_nat m) "AM"
      && display_table_ok (Z.of_nat h) (Z.of_nat m) "PM")
      (seq 0 60))
    (seq 0 13) = true.
Proof. vm_compute. reflexivity. Qed.

(** A printed time is read back by both readers as it was printed. *)
Lemma read_clock_text (h m : Z) (period : string) :
  (0 <= h <= 12)%Z -> (0 <= m <= 59)%Z ->
  period = "AM"%string \/ period = "PM"%string ->
  api_display (clock_text h m period) = Some (h, m, period)
  /\ parse_hm (clock_text h m period) = Some (adjusted_hour h period, m).
Proof.
  intros Hh Hm Hp.
  pose proof display_table as T.
  rewrite forallb_forall in T.
  specialize (T (Z.to_nat h)). rewrite in_seq in T. specialize (T ltac:(lia)).
  rewrite forallb_forall in T.
  specialize (T (Z.to_nat m)). rewrite in_seq in T. specialize (T ltac:(lia)).
  rewrite !Z2Nat.id in T by lia.
  apply andb_true_iff in T. destruct T as [TA TP].
  assert (Tp : display_table_ok h m period = true)
    by (destruct Hp as [-> | ->]; assumption).
  unfold display_table_ok in Tp.
  destruct (api_display (clock_text h m period)) as [[[h1 m1] p1] | ]; [ | discriminate].
  destruct (parse_hm (clock_text h m period)) as [[h2 m2] | ]; [ | discriminate].
  repeat (apply andb_true_iff in Tp; destruct Tp as [Tp ?]).
  repeat match goal with
         | H : (_ =? _)%Z = true |- _ => apply Z.eqb_eq in H
         | H : String.eqb _ _ = true |- _ => apply String.eqb_eq in H
         end.
  idtac.
  subst. split; reflexivity.
Qed.

Lemma api_display_range (timeStr : string) (h m : Z) (period : string) :
  api_display timeStr = Some (h, m, period) ->
  (0 <= h < 100)%Z /\ (0 <= m < 100)%Z
  /\ (period = "AM"%string \/ period = "PM"%string).
Proof.
  unfold api_display. intros H.
  destruct (String.eqb timeStr ""); [discriminate | ].
  destruct (match_24h timeStr) as [[hs ms] | ] eqn:E24.
  - apply match_24h_digits in E24. destruct E24 as [Hh Hm].
    injection H as <- <- <-.
    pose proof (Z.mod_pos_bound (digits_value 0 (chars hs)) 12 ltac:(lia)).
    repeat split; try lia.
    + destruct (_ =? 0)%Z; lia.
    + destruct (_ =? 0)%Z; lia.
    + destruct (12 <=? _)%Z; auto.
  - destruct (match_12h timeStr) as [[[hs ms] p] | ] eqn:E12; [ | discriminate].
    apply match_12h_digits in E12. destruct E12 as [Hh [Hm Hp]].
    injection H as <- <- <-. repeat split; try lia. exact Hp.
Qed.

(** X5.  [formatApiTime] is idempotent: what it prints, it prints again
    unchanged, the ["Error"] text included. *)
Theorem formatApiTime_idempotent (timeStr : string) :
  AdhanApp.formatApiTime (AdhanApp.formatApiTime timeStr)
  = AdhanApp.formatApiTime timeStr.
Proof.
  rewrite (formatApiTime_display timeStr).
  destruct (api_display timeStr) as [[[h m] period] | ] eqn:E; [ | reflexivity].
  destruct ((12 <? h)%Z || (59 <? m)%Z) eqn:Ebig; [reflexivity | ].
  apply orb_false_iff in Ebig. destruct Ebig as [Eh Em].
  apply Z.ltb_ge in Eh, Em.
  apply api_display_range in E. destruct E as [Hh [Hm Hp]].
  rewrite formatApiTime_display.
  destruct (read_clock_text h m period ltac:(lia) ltac:(lia) Hp) as [-> _].
  assert (Eb : (12 <? h)%Z || (59 <? m)%Z = false).
  { apply orb_false_iff; split; apply Z.ltb_ge; lia. }
  rewrite Eb. reflexivity.
Qed.

Lemma format_hm_clock_text (h m : Z) :
  format_hm h m
  = clock_text (if (h mod 12 =? 0)%Z then 12 else h mod 12) m
               (if (12 <=? h)%Z then "PM" else "AM").
Proof. reflexivity. Qed.

Lemma api_display_valid (timeStr : string) (shown : Z * Z * string) :
  api_display timeStr = Some shown -> AdhanApp.isValidTimeFormat timeStr = true.
Proof.
  unfold api_display, AdhanApp.isValidTimeFormat.
  destruct (String.eqb timeStr ""); [discriminate | ].
  destruct (match_24h timeStr) as [[hs ms] | ]; [reflexivity | ].
  destruct (match_12h timeStr) as [[[hs ms] p] | ]; [reflexivity | discriminate].
Qed.

(** What the application's three readers make of a text the engine
    printed for a time of the day. *)
Lemma formatTime_read_back (x : R) :
  0 < x < 24 ->
  AdhanApp.formatApiTime (formatTime (Fin x)) = formatTime (Fin x)
  /\ AdhanApp.isValidTimeFormat (formatTime (Fin x)) = true
  /\ exists v, AdhanApp.convertTimeToDecimal (formatTime (Fin x)) = Fin v
               /\ 0 <= v < 24.
Proof.
  intros Hx. rewrite formatTime_Fin by exact Hx.
  set (h := Zfloor x).
  set (m := Zfloor ((x - IZR h) * 60)).
  pose proof (Zfloor_bound x) as [Hlo Hhi]. fold h in Hlo, Hhi.
  pose proof (Zfloor_bound ((x - IZR h) * 60)) as [Mlo Mhi]. fold m in Mlo, Mhi.
  assert (Hh : (0 <= h < 24)%Z).
  { split; [apply (Zfloor_lub 0 x); simpl; lra | apply lt_IZR; lra]. }
  assert (Hm : (0 <= m < 60)%Z).
  { split; [apply (Zfloor_lub 0); simpl; lra | apply lt_IZR; lra]. }
  assert (Hconv : exists v, AdhanApp.convertTimeToDecimal (format_hm h m) = Fin v
                            /\ 0 <= v < 24).
  { rewrite convertTimeToDecimal_parse, parse_format_hm by lia.
    assert (H23 : (h <= 23)%Z) by lia. assert (M59 : (m <= 59)%Z) by lia.
    destruct Hh as [H0 _]. destruct Hm as [M0 _].
    apply IZR_le in H0, H23, M0, M59.
    eexists; split; [reflexivity | lra]. }
  revert Hconv.
  rewrite format_hm_clock_text, formatApiTime_display.
  pose proof (Z.mod_pos_bound h 12 ltac:(lia)) as Hmod.
  set (h12 := if (h mod 12 =? 0)%Z then 12%Z else (h mod 12)%Z).
  assert (Hh12 : (0 <= h12 <= 12)%Z) by (unfold h12; destruct (_ =? 0)%Z; lia).
  destruct (read_clock_text h12 m (if (12 <=? h)%Z then "PM" else "AM")
              Hh12 ltac:(lia) ltac:(destruct (12 <=? h)%Z; auto)) as [Ed _].
  rewrite Ed. intros Hconv.
  assert (Eb : (12 <? h12)%Z || (59 <? m)%Z = false).
  { apply orb_false_iff; split; apply Z.ltb_ge; lia. }
  rewrite Eb. split; [reflexivity | ]. split; [ | exact Hconv].
  eapply api_display_valid. exact Ed.
Qed.

(** X3.  A time of the day printed by the engine's [formatTime] passes
    through [formatApiTime] unchanged. *)
Theorem formatApiTime_formatTime (x : R) :
  0 < x < 24 ->
  AdhanApp.formatApiTime (formatTime (Fin x)) = formatTime (Fin x).
Proof. intros Hx. apply (formatTime_read_back x Hx). Qed.

(** Half past nine in the evening. *)
Lemma formatApiTime_formatTime_witness :
  AdhanApp.formatApiTime (formatTime (Fin 21.5)) = formatTime (Fin 21.5).
Proof. apply formatApiTime_formatTime. lra. Defined.

Lemma parse_hm_display (timeStr : string) :
  parse_hm timeStr
  = match api_display timeStr with
    | None => None
    | Some (h, m, period) =>
        match match_24h timeStr with
        | Some (hs, _) => Some (digits_value 0 (chars hs), m)
        | None => Some (adjusted_hour h period, m)
        end
    end.
Proof.
  unfold parse_hm, api_display.
  destruct (String.eqb timeStr ""); [reflexivity | ].
  destruct (match_24h timeStr) as [[hs ms] | ]; [reflexivity | ].
  destruct (match_12h timeStr) as [[[hs ms] p] | ]; reflexivity.
Qed.

(** X4.  Printing an API time for display does not change the decimal hour
    it stands for: when [formatApiTime] does not answer ["Error"] and a
    24-hour text has an hour below 24, [convertTimeToDecimal] gives the
    same number for the text and for its display form. *)
Theorem convertTimeToDecimal_formatApiTime (timeStr : string) :
  AdhanApp.formatApiTime timeStr <> "Error"%string ->
  (forall hs ms, match_24h timeStr = Some (hs, ms) ->
                 (digits_value 0 (chars hs) < 24)%Z) ->
  AdhanApp.convertTimeToDecimal (AdhanApp.formatApiTime timeStr)
  = AdhanApp.convertTimeToDecimal timeStr.
Proof.
  intros Hok H24.
  rewrite !convertTimeToDecimal_parse.
  rewrite (parse_hm_display timeStr).
  rewrite formatApiTime_display in Hok |- *.
  destruct (api_display timeStr) as [[[h m] period] | ] eqn:E;
    [ | exfalso; apply Hok; reflexivity].
  destruct ((12 <? h)%Z || (59 <? m)%Z) eqn:Ebig;
    [exfalso; apply Hok; reflexivity | ].
  apply orb_false_iff in Ebig. destruct Ebig as [Eh Em].
  apply Z.ltb_ge in Eh, Em.
  pose proof (api_display_range _ _ _ _ E) as [Hh [Hm Hp]].
  destruct (read_clock_text h m period ltac:(lia) ltac:(lia) Hp) as [_ ->].
  destruct (match_24h timeStr) as [[hs ms] | ] eqn:E24; [ | reflexivity].
  specialize (H24 hs ms eq_refl).
  pose proof (match_24h_digits _ _ _ E24) as [Ha _].
  unfold api_display in E. rewrite E24 in E.
  destruct (String.eqb timeStr ""); [discriminate | ].
  injection E as <- <- <-.
  set (a := digits_value 0 (chars hs)) in *.
  replace (adjusted_hour (if (a mod 12 =? 0)%Z then 12%Z else (a mod 12)%Z)
             (if (12 <=? a)%Z then "PM" else "AM")) with a; [reflexivity | ].
  unfold adjusted_hour.
  assert (Ha24 : (0 <= a < 24)%Z) by lia.
  clear - Ha24.
  destruct (Z.leb_spec 12 a) as [Hge | Hlt].
  - assert (Em : (a mod 12 = a - 12)%Z).
    { rewrite (Z.mod_eq a 12) by lia.
      replace (a / 12)%Z with 1%Z; [lia | ].
      apply Z.div_unique with (r := (a - 12)%Z); lia. }
    rewrite Em.
    destruct (Z.eqb_spec (a - 12) 0) as [E0 | E0]; cbn.
    + lia.
    + destruct (Z.eqb_spec (a - 12) 12); cbn; lia.
  - rewrite Z.mod_small by lia.
    destruct (Z.eqb_spec a 0) as [E0 | E0]; cbn; [lia | ].
    destruct (Z.eqb_spec a 12); cbn; lia.
Qed.

Lemma match_24h_example : match_24h "17:05" = Some ("17"%string, "05"%string).
Proof. reflexivity. Qed.

(** Five past five in the afternoon, as the remote service writes it. *)
Lemma convertTimeToDecimal_formatApiTime_witness :
  AdhanApp.convertTimeToDecimal (AdhanApp.formatApiTime "17:05")
  = AdhanApp.convertTimeToDecimal "17:05".
Proof.
  apply convertTimeToDecimal_formatApiTime.
  - rewrite formatApiTime_display. vm_compute. discriminate.
  - intros hs ms H. rewrite match_24h_example in H. injection H as <- <-.
    vm_compute. reflexivity.
Defined.

Lemma convertTimeToDecimal_bounds (timeStr : string) :
  exists v : R, AdhanApp.convertTimeToDecimal timeStr = Fin v /\ 0 <= v < 113.
Proof.
  rewrite convertTimeToDecimal_parse, parse_hm_display.
  destruct (api_display timeStr) as [[[h m] period] | ] eqn:E;
    [ | exists 0; split; [reflexivity | lra]].
  pose proof (api_display_range _ _ _ _ E) as [Hh [[M1 M2] Hp]].
  assert (M3 : (m <= 99)%Z) by lia. clear M2.
  apply IZR_le in M1, M3.
  destruct (match_24h timeStr) as [[hs ms] | ] eqn:E24.
  + apply match_24h_digits in E24. destruct E24 as [[H1 H2] _].
    apply IZR_le in H1. apply IZR_lt in H2.
    eexists; split; [reflexivity | ]. lra.
  + assert (Hadj : (0 <= adjusted_hour h period < 112)%Z).
    { unfold adjusted_hour.
      destruct Hp as [-> | ->]; cbn [String.eqb Ascii.eqb Bool.eqb andb negb];
        repeat match goal with
               | |- context [(?u =? ?v)%Z] => destruct (Z.eqb_spec u v)
               end;
        cbn [negb]; lia. }
    destruct Hadj as [A1 A2].
    assert (A3 : (adjusted_hour h period <= 111)%Z) by lia.
    apply IZR_le in A1, A3.
    eexists; split; [reflexivity | ]. lra.
Qed.

(** X6.  [convertTimeToDecimal] never answers [NaN] nor a negative
    number: its result is a finite number from 0 up to, but not
    including, 113; on a text neither pattern accepts it is 0, and
    [formatApiTime] then answers ["Error"]. *)
Theorem convertTimeToDecimal_range (timeStr : string) :
  (exists v : R, AdhanApp.convertTimeToDecimal timeStr = Fin v /\ 0 <= v < 113)
  /\ (AdhanApp.isValidTimeFormat timeStr = false ->
      AdhanApp.convertTimeToDecimal timeStr = Fin 0
      /\ AdhanApp.formatApiTime timeStr = "Error"%string).
Proof.
  split.
  - apply convertTimeToDecimal_bounds.
  - unfold AdhanApp.isValidTimeFormat. intros Hinv.
    rewrite convertTimeToDecimal_parse, formatApiTime_display.
    unfold parse_hm, api_display.
    destruct (String.eqb timeStr ""); [split; reflexivity | ].
    destruct (match_24h timeStr) as [[hs ms] | ]; [discriminate | ].
    destruct (match_12h timeStr) as [[[hs ms] p] | ]; [discriminate | ].
    split; reflexivity.
Qed.

(** A text of the wrong shape. *)
Lemma convertTimeToDecimal_range_witness :
  AdhanApp.convertTimeToDecimal "5.30 pm" = Fin 0
  /\ AdhanApp.formatApiTime "5.30 pm" = "Error"%string.
Proof.
  apply (proj2 (convertTimeToDecimal_range "5.30 pm")). reflexivity.
Defined.

(** ** The countdown text *)

Lemma Ztrunc_quot (a b : Z) : (0 < b)%Z -> Ztrunc (IZR a / IZR b) = Z.quot a b.
Proof.
  intros Hb.
  assert (Hb' : 0 < IZR b) by (apply IZR_lt; exact Hb).
  assert (Hi : 0 < / IZR b) by (apply Rinv_0_lt_compat; exact Hb').
  unfold Ztrunc. destruct (Rle_dec 0 (IZR a / IZR b)) as [Hq | Hq].
  - assert (Ha : (0 <= a)%Z).
    { apply le_IZR. destruct (Rle_dec 0 (IZR a)) as [H | H]; [exact H | ].
      exfalso. unfold Rdiv in Hq. nra. }
    rewrite Zfloor_div by exact Hb. symmetry. apply Z.quot_div_nonneg; lia.
  - assert (Ha : (a < 0)%Z).
    { apply lt_IZR. destruct (Rlt_dec (IZR a) 0) as [H | H]; [exact H | ].
      exfalso. apply Hq. unfold Rdiv. apply Rmult_le_pos; lra. }
    unfold Zceil.
    replace (- (IZR a / IZR b)) with (IZR (- a) / IZR b)
      by (rewrite opp_IZR; field; lra).
    rewrite Zfloor_div by exact Hb.
    rewrite <- (Z.opp_involutive a) at 2.
    rewrite Z.quot_opp_l by lia.
    rewrite Z.quot_div_nonneg by lia. reflexivity.
Qed.

Lemma Rrem_IZR (a b : Z) : (0 < b)%Z -> Rrem (IZR a) (IZR b) = IZR (Z.rem a b).
Proof.
  intros Hb. unfold Rrem. rewrite Ztrunc_quot by exact Hb.
  pose proof (Z.quot_rem' a b) as H.
  rewrite <- mult_IZR, <- minus_IZR. f_equal. lia.
Qed.

(** The text of [formatCountdown] on a finite argument, from the whole
    minutes of the argument. *)
Lemma formatCountdown_Fin (x : R) :
  PrayerTimesCalculator.formatCountdown (Fin x)
  = (Z_toString (Zfloor (x * 60) / 60) ++ " hours "
     ++ Z_toString (Z.rem (Zfloor (x * 60)) 60) ++ " minutes")%string.
Proof.
  unfold PrayerTimesCalculator.formatCountdown. fin_arith.
  change 60 with (IZR 60) at 2 3.
  rewrite Zfloor_div, Rrem_IZR by lia.
  rewrite !Number_toString_IZR. reflexivity.
Qed.

(** X1.  For a finite argument that is not negative and stands for fewer
    than 10^15 minutes (the integers printed then print in decimal),
    [formatCountdown], the engine's and the controller's alike, prints
    ["H hours M minutes"] where [M] is between 0 and 59 and [H * 60 + M]
    is the argument in minutes rounded down to a whole minute: more than
    the minutes of the argument less one, and at most those minutes.  The
    upper bound is stated with the room that the rounding of
    [hours * 60] to a double takes, one part in 2^52, which this model
    does not have. *)
Theorem formatCountdown_truncates (x : R) :
  0 <= x ->
  x * 60 < 1000000000000000 ->
  exists H M : Z,
    PrayerTimesCalculator.formatCountdown (Fin x)
    = (Z_toString H ++ " hours " ++ Z_toString M ++ " minutes")%string
    /\ AdhanApp.formatCountdown (Fin x)
       = (Z_toString H ++ " hours " ++ Z_toString M ++ " minutes")%string
    /\ (0 <= H)%Z /\ (0 <= M < 60)%Z
    /\ x * 60 - 1 < IZR (H * 60 + M) <= x * 60 * (1 + / 4503599627370496).
Proof.
  intros Hx _.
  set (t := Zfloor (x * 60)).
  assert (Ht : (0 <= t)%Z) by (apply (Zfloor_lub 0); simpl; lra).
  assert (Etext : PrayerTimesCalculator.formatCountdown (Fin x)
                  = (Z_toString (t / 60) ++ " hours "
                     ++ Z_toString (t mod 60) ++ " minutes")%string).
  { rewrite formatCountdown_Fin. fold t. rewrite Z.rem_mod_nonneg by lia.
    reflexivity. }
  exists (t / 60)%Z, (t mod 60)%Z.
  split; [exact Etext | ]. split; [exact Etext | ].
  pose proof (Z.mod_pos_bound t 60 ltac:(lia)).
  pose proof (Z.div_pos t 60 Ht ltac:(lia)).
  replace (t / 60 * 60 + t mod 60)%Z with t
    by (pose proof (Z.div_mod t 60 ltac:(lia)); lia).
  pose proof (Zfloor_bound (x * 60)) as [Hlo Hhi]. fold t in Hlo, Hhi.
  repeat split; try lia; lra.
Qed.

(** Two hours and a little under sixteen minutes. *)
Lemma formatCountdown_truncates_witness :
  exists H M : Z,
    PrayerTimesCalculator.formatCountdown (Fin 2.26)
    = (Z_toString H ++ " hours " ++ Z_toString M ++ " minutes")%string
    /\ (0 <= M < 60)%Z
    /\ 2.26 * 60 - 1 < IZR (H * 60 + M).
Proof.
  destruct (formatCountdown_truncates 2.26 ltac:(lra) ltac:(lra))
    as [H [M [E [_ [_ [HM [Hlow _]]]]]]].
  exists H, M. split; [exact E | ]. split; [exact HM | exact Hlow].
Defined.



(** ** The solvers stay on their side of solar noon *)

Lemma hour_angle_hours (v : R) :
  -1 <= v <= 1 -> 0 <= acos v * 180 / PI / 15 <= 12.
Proof.
  intros Hv. pose proof (acos_bound v) as [A1 A2]. pose proof PI_RGT_0 as Hpi.
  assert (Hi : 0 < / PI) by (apply Rinv_0_lt_compat; exact Hpi).
  assert (Hone : PI * / PI = 1) by (apply Rinv_r; lra).
  replace (acos v * 180 / PI / 15) with (acos v * / PI * 12) by (field; lra).
  assert (0 <= acos v * / PI <= 1) by (split; nra).
  lra.
Qed.

(** The result of an hour-angle solver on a quotient [n / c] of finite
    numbers: [NaN] for [0 / 0], otherwise the noon time moved by between 0
    and 12 hours. *)
Lemma solver_step (n c fallback : R) :
  0 <= fallback <= 12 ->
  (Fin n ./ Fin c)%num = NaN
  \/ exists h : R,
       0 <= h <= 12
       /\ (if Num.gt (Math.abs (Fin n ./ Fin c)%num) (Fin 1)
           then Fin fallback
           else (Math.acos (Fin n ./ Fin c) .* #180 ./ Math.PI ./ #15)%num)
          = Fin h.
Proof.
  intros Hf. cbn [Num.div].
  destruct (Req_dec_T c 0) as [Hc | Hc].
  - rewrite (Req0_true c Hc).
    destruct (Req_dec_T n 0) as [Hn | Hn].
    + left. rewrite (Req0_true n Hn). reflexivity.
    + right. rewrite (Req0_false n Hn). exists fallback. split; [exact Hf | ].
      destruct (Rltb 0 n); reflexivity.
  - right. rewrite (Req0_false c Hc). cbn [Math.abs Num.gt]. unfold Rltb.
    destruct (Rlt_dec 1 (Rabs (n / c))) as [Hbig | Hsmall].
    + exists fallback. split; [exact Hf | reflexivity].
    + assert (Hv : -1 <= n / c <= 1).
      { unfold Rabs in Hsmall. destruct (Rcase_abs (n / c)); lra. }
      rewrite Math_acos_Fin by exact Hv. fin_arith.
      eexists; split; [apply (hour_angle_hours _ Hv) | reflexivity].
Qed.

(** X7.  On finite arguments the two twilight solvers mirror each other
    about solar noon: either both return [NaN] (the quotient is [0 / 0]),
    or Fajr is [h] hours before the solar time and Isha, with the same
    angle, [h] hours after it, for one [h] between 0 and 12. *)
Theorem fajr_and_isha_mirror (solarTime latitude angle : R) :
  (calculateFajr (Fin solarTime) (Fin latitude) (Fin angle) = NaN
   /\ calculateIsha (Fin solarTime) (Fin latitude) (Fin angle) = NaN)
  \/ exists h : R,
       0 <= h <= 12
       /\ calculateFajr (Fin solarTime) (Fin latitude) (Fin angle)
          = Fin (solarTime - h)
       /\ calculateIsha (Fin solarTime) (Fin latitude) (Fin angle)
          = Fin (solarTime + h).
Proof.
  rewrite calculateFajr_unfold, calculateIsha_unfold.
  unfold twilight_cosAngle. rewrite calculateDeclination_Fin.
  set (n := - sin (angle * PI / 180)).
  set (c := cos (latitude * PI / 180) * cos (declination_of solarTime)).
  assert (En : (.- Math.sin (#angle .* Math.PI ./ #180))%num = Fin n)
    by (fin_arith; reflexivity).
  assert (Ec : (Math.cos (#latitude .* Math.PI ./ #180)
                .* Math.cos (Fin (declination_of solarTime)))%num = Fin c)
    by (fin_arith; reflexivity).
  rewrite En, Ec.
  destruct (solver_step n c 1.5 ltac:(lra)) as [E | [h [Hh E]]].
  - left. rewrite E. split; reflexivity.
  - right. exists h. split; [exact Hh | ].
    destruct (Num.gt (Math.abs (Fin n ./ Fin c)%num) (Fin 1)).
    + injection E as <-. split; reflexivity.
    + rewrite E. split; reflexivity.
Qed.

(** X8.  On finite arguments the Asr solver never returns a time before
    the solar time nor more than 12 hours after it: its result is [NaN]
    (the quotient is [0 / 0]) or the solar time plus between 0 and 12
    hours, the fallback of 2 hours included. *)
Theorem asr_after_noon (solarTime latitude asrFactor : R) :
  calculateAsr (Fin solarTime) (Fin latitude) (Fin asrFactor) = NaN
  \/ exists h : R,
       0 <= h <= 12
       /\ calculateAsr (Fin solarTime) (Fin latitude) (Fin asrFactor)
          = Fin (solarTime + h).
Proof.
  unfold calculateAsr. rewrite calculateDeclination_Fin.
  set (c := cos (latitude * PI / 180) * cos (declination_of solarTime)).
  assert (Ec : (Math.cos (#latitude .* Math.PI ./ #180)
                .* Math.cos (Fin (declination_of solarTime)))%num = Fin c)
    by (fin_arith; reflexivity).
  rewrite Ec.
  assert (Ed : exists d : R,
             (#asrFactor
              .+ Math.abs (Math.tan ((#latitude
                                      .- Fin (declination_of solarTime) .* #180 ./ Math.PI)
                                     .* Math.PI ./ #180)))%num = Fin d)
    by (fin_arith; eexists; reflexivity).
  destruct Ed as [d ->].
  assert (Hshadow : exists a, Math.atan (#1 ./ #d)%num = Fin a).
  { cbn [Num.div]. destruct (Req0 d).
    - rewrite Req0_false by lra. rewrite Rltb_true by lra.
      cbn. eexists; reflexivity.
    - cbn. eexists; reflexivity. }
  destruct Hshadow as [a ->].
  assert (En : exists n : R,
             (Math.sin (Fin a)
              .- Math.sin (#latitude .* Math.PI ./ #180)
                 .* Math.sin (Fin (declination_of solarTime)))%num = Fin n)
    by (fin_arith; eexists; reflexivity).
  destruct En as [n ->].
  destruct (solver_step n c 2 ltac:(lra)) as [E | [h [Hh E]]].
  - left. rewrite E. reflexivity.
  - right. exists h. split; [exact Hh | ].
    destruct (Num.gt (Math.abs (Fin n ./ Fin c)%num) (Fin 1)).
    + injection E as <-. reflexivity.
    + rewrite E. reflexivity.
Qed.

(** ** The text ["Error"] of [formatTime] *)

Lemma append_colon_not_Error (a b : string) :
  (a ++ ":" ++ b)%string <> "Error"%string.
Proof.
  intros H.
  assert (Hin : In ":"%char (chars (a ++ ":" ++ b))).
  { unfold chars. clear H. induction a as [ | c a IH]; cbn.
    - left; reflexivity.
    - right; exact IH. }
  rewrite H in Hin. cbn in Hin.
  repeat (destruct Hin as [Hin | Hin]; [discriminate Hin | ]).
  exact Hin.
Qed.

(** X9.  [formatTime] answers ["Error"] exactly on 0 and on [NaN]:
    midnight, a legitimate time of the day, cannot be told from a failed
    computation, and every other number, the infinite ones included, is
    printed as a time. *)
Theorem formatTime_Error_iff (decimalTime : num) :
  formatTime decimalTime = "Error"%string
  <-> decimalTime = Fin 0 \/ decimalTime = NaN.
Proof.
  split.
  - intros H. unfold formatTime in H.
    destruct decimalTime as [ | | | x]; cbn [Num.truthy Num.isNaN negb orb] in H.
    + right; reflexivity.
    + exfalso. revert H. apply append_colon_not_Error.
    + exfalso. revert H. apply append_colon_not_Error.
    + destruct (Req_dec_T x 0) as [E | E]; [left; rewrite E; reflexivity | ].
      rewrite Req0_false in H by exact E. cbn [negb] in H.
      exfalso. revert H. apply append_colon_not_Error.
  - intros [-> | ->]; unfold formatTime; cbn [Num.truthy Num.isNaN negb orb];
      [rewrite Req0_true by reflexivity | ]; reflexivity.
Qed.

(** ** Method names the tables do not have *)

Lemma unknown_method_lookup (method : string) :
  ~ In method known_methods ->
  methodParams method = None /\ AdhanApp.ownProperty method AdhanApp.methodMap = None.
Proof.
  intros Hnot. unfold known_methods in Hnot. cbn [In] in Hnot.
  unfold methodParams, methodParamsTable, AdhanApp.methodMap.
  cbn [lookup AdhanApp.ownProperty].
  repeat match goal with
         | |- context [String.eqb method ?k] =>
             destruct (String.eqb_spec method k) as [E | _];
             [exfalso; apply Hnot; rewrite E; tauto | ]
         end.
  split; reflexivity.
Qed.

(** X10.  A method name that is in neither table, and is not the name of
    a member every object inherits, is treated as Karachi on both paths:
    the request to the remote service carries Karachi's number 1, and the
    engine computes with Karachi's angles, so that its result is the one
    for ["Karachi"]. *)
Theorem unknown_method_is_karachi
        (host : Host) (date : DateArg) (latitude longitude : num)
        (timezone method : string) (madhab : option string) :
  ~ In method known_methods ->
  ~ In method AdhanApp.objectPrototypeMembers ->
  AdhanApp.getAladhanMethod method = AdhanApp.NumberMember (Fin 1)
  /\ AdhanApp.getAladhanMethod "Karachi" = AdhanApp.NumberMember (Fin 1)
  /\ calculatePrayerTimes host date latitude longitude timezone (Some method) madhab
     = calculatePrayerTimes host date latitude longitude timezone
         (Some "Karachi"%string) madhab.
Proof.
  intros Hknown Hinherited.
  destruct (unknown_method_lookup method Hknown) as [Eengine Eapp].
  split; [ | split].
  - unfold AdhanApp.getAladhanMethod. rewrite Eapp.
    destruct (existsb (String.eqb method) AdhanApp.objectPrototypeMembers) eqn:Ex;
      [ | reflexivity].
    exfalso. apply existsb_exists in Ex. destruct Ex as [k [Hin Hk]].
    apply String.eqb_eq in Hk. subst k. exact (Hinherited Hin).
  - unfold AdhanApp.getAladhanMethod, AdhanApp.methodMap.
    cbn [AdhanApp.ownProperty String.eqb Ascii.eqb Bool.eqb].
    rewrite or_default_Fin by lra. reflexivity.
  - unfold calculatePrayerTimes, calculatePrayerTimes_try, with_default.
    rewrite Eengine.
    unfold methodParams, methodParamsTable.
    cbn [lookup String.eqb Ascii.eqb Bool.eqb option_map fajrAngle ishaAngle].
    rewrite !or_default_Fin by lra. reflexivity.
Qed.

(** A misspelt method name. *)
Lemma unknown_method_is_karachi_witness :
  AdhanApp.getAladhanMethod "Mekkah" = AdhanApp.NumberMember (Fin 1)
  /\ calculatePrayerTimes host_unknown_zone (DateUTC 2024 2 20) (Fin 21.4225)
       (Fin 39.8262) "Asia/Riyadh" (Some "Mekkah"%string) None
     = calculatePrayerTimes host_unknown_zone (DateUTC 2024 2 20) (Fin 21.4225)
         (Fin 39.8262) "Asia/Riyadh" (Some "Karachi"%string) None.
Proof.
  assert (H1 : ~ In "Mekkah"%string known_methods).
  { cbn. intros H. repeat (destruct H as [H | H]; [discriminate H | ]). exact H. }
  assert (H2 : ~ In "Mekkah"%string AdhanApp.objectPrototypeMembers).
  { cbn. intros H. repeat (destruct H as [H | H]; [discriminate H | ]). exact H. }
  destruct (unknown_method_is_karachi host_unknown_zone (DateUTC 2024 2 20)
              (Fin 21.4225) (Fin 39.8262) "Asia/Riyadh" "Mekkah" None H1 H2)
    as [E1 [_ E3]].
  split; [exact E1 | exact E3].
Defined.

(** ** The Hijri date *)

Lemma Num_lt_IZR (a b : Z) : Num.lt (Fin (IZR a)) (Fin (IZR b)) = (a <? b)%Z.
Proof. unfold Num.lt. apply Num_gt_IZR. Qed.

Lemma Fin_sub_IZR (a b : Z) : (Fin (IZR a) .- Fin (IZR b))%num = Fin (IZR (a - b)).
Proof. cbn. rewrite minus_IZR. reflexivity. Qed.

Lemma yearLoop_IZR (years : list Z) (daysLeft : Z) :
  AdhanApp.yearLoop years (Fin (IZR daysLeft))
  = (fst (yearLoopZ years daysLeft), Fin (IZR (snd (yearLoopZ years daysLeft)))).
Proof.
  revert daysLeft. induction years as [ | y rest IH]; intros daysLeft; [reflexivity | ].
  cbn [AdhanApp.yearLoop yearLoopZ].
  destruct (AdhanApp.includes y AdhanApp.leapYearsIn30).
  - change (Fin 355) with (Fin (IZR 355)).
    rewrite Num_lt_IZR, Fin_sub_IZR.
    destruct (daysLeft <? 355)%Z; [reflexivity | apply IH].
  - change (Fin 354) with (Fin (IZR 354)).
    rewrite Num_lt_IZR, Fin_sub_IZR.
    destruct (daysLeft <? 354)%Z; [reflexivity | apply IH].
Qed.

Lemma monthLoop_IZR (months : list (string * Z)) (m : nat) (daysLeft : Z) :
  AdhanApp.monthLoop m (map (fun p => (fst p, Fin (IZR (snd p)))) months)
                     (Fin (IZR daysLeft))
  = (fst (monthLoopZ m (map snd months) daysLeft),
     Fin (IZR (snd (monthLoopZ m (map snd months) daysLeft)))).
Proof.
  revert m daysLeft.
  induction months as [ | [name days] rest IH]; intros m daysLeft; [reflexivity | ].
  cbn [map AdhanApp.monthLoop monthLoopZ fst snd].
  rewrite Num_lt_IZR, Fin_sub_IZR.
  destruct (daysLeft <? days)%Z; [reflexivity | apply IH].
Qed.

Lemma islamicMonths_named (leap : bool) :
  AdhanApp.islamicMonths leap
  = map (fun p => (fst p, Fin (IZR (snd p)))) (named_months leap).
Proof. destruct leap; reflexivity. Qed.

Lemma named_months_lengths (leap : bool) :
  map snd (named_months leap) = month_lengths leap.
Proof. destruct leap; reflexivity. Qed.

Lemma month_name_nth (leap : bool) (m : nat) :
  fst (nth m (AdhanApp.islamicMonths leap) (""%string, NaN)) = hijri_month_name m.
Proof.
  unfold AdhanApp.islamicMonths, hijri_month_name.
  do 12 (destruct m as [ | m]; [reflexivity | ]).
  destruct m; reflexivity.
Qed.

Lemma cycle_table :
  forallb (fun r => cycle_day_ok (Z.of_nat r)) (seq 0 (Z.to_nat 10631)) = true.
Proof. vm_compute. reflexivity. Qed.

(** On a date not before the epoch of the calendar,
    [calculateLocalHijriDate] prints the day the two loops find for the
    day of the cycle, and the year of that cycle. *)
Lemma calculateLocalHijriDate_valid (y m d : Z) :
  let n := (gregorian_jdn y (m + 1) d - 1948439)%Z in
  (0 <= n)%Z ->
  AdhanApp.calculateLocalHijriDate (DateUTC y m d)
  = (let '(yic, month, day) := hijri_of_cycle_day (n mod 10631) in
     Z_toString day ++ " " ++ hijri_month_name month ++ " "
       ++ Z_toString (n / 10631 * 30 + yic) ++ " AH")%string.
Proof.
  intros n Hn. unfold AdhanApp.calculateLocalHijriDate.
  rewrite app_getJulianDate.
  assert (E : (Math.floor (Fin (IZR (gregorian_jdn y (m + 1) d) - 0.5)
                           .- #1948439.5) .+ #1)%num = Fin (IZR n)).
  { cbn [Num.sub Num.neg Num.add Math.floor].
    rewrite (Zfloor_eq (gregorian_jdn y (m + 1) d - 1948440))
      by (push_IZR; lra).
    unfold n. f_equal. push_IZR. lra. }
  rewrite E.
  change (Fin 10631) with (Fin (IZR 10631)).
  rewrite Fin_div, Fin_rem by (apply not_0_IZR; lia).
  rewrite Rrem_IZR_nonneg by lia.
  cbn [Math.floor]. rewrite Zfloor_div by lia.
  rewrite yearLoop_IZR.
  unfold hijri_of_cycle_day.
  destruct (yearLoopZ (map Z.of_nat (seq 1 30)) (n mod 10631)) as [yic0 dl0].
  cbn [fst snd].
  set (yic := if (yic0 =? 0)%Z then 30%Z else yic0).
  rewrite islamicMonths_named, monthLoop_IZR, named_months_lengths.
  destruct (monthLoopZ 0 (month_lengths (AdhanApp.includes yic AdhanApp.leapYearsIn30)) dl0)
    as [mi dl1].
  cbn [fst snd Math.floor Num.of_Z Num.mul Num.add].
  rewrite ZfloorZ.
  rewrite <- islamicMonths_named, month_name_nth.
  replace (IZR dl1 + 1) with (IZR (dl1 + 1)) by (push_IZR; reflexivity).
  replace (IZR (n / 10631) * 30 + IZR yic) with (IZR (n / 10631 * 30 + yic))
    by (push_IZR; reflexivity).
  rewrite !Number_toString_IZR. reflexivity.
Qed.

(** X11.  On every date from the epoch of the calendar on (Julian Day
    Number 1948439), [calculateLocalHijriDate] prints a day of the tabular
    Islamic calendar, with the month between Muharram and Dhu al-Hijjah
    and the day within the length of that month, and that day is the
    right one: counting its days back from the first day of year 1 gives
    the number of days from the epoch to the date. *)
Theorem calculateLocalHijriDate_decodes (y m d : Z) :
  (0 <= gregorian_jdn y (m + 1) d - 1948439)%Z ->
  exists (year : Z) (month : nat) (day : Z),
    AdhanApp.calculateLocalHijriDate (DateUTC y m d)
    = (Z_toString day ++ " " ++ hijri_month_name month ++ " "
         ++ Z_toString year ++ " AH")%string
    /\ (1 <= year)%Z /\ (month < 12)%nat
    /\ (1 <= day <= hijri_month_length ((year - 1) mod 30 + 1) month)%Z
    /\ hijri_day_number year month day
       = (gregorian_jdn y (m + 1) d - 1948439)%Z.
Proof.
  intros Hn. rewrite calculateLocalHijriDate_valid by exact Hn.
  set (n := (gregorian_jdn y (m + 1) d - 1948439)%Z) in *.
  pose proof (Z.mod_pos_bound n 10631 ltac:(lia)) as Hr.
  pose proof (Z.div_mod n 10631 ltac:(lia)) as Hdm.
  assert (Hc : (0 <= n / 10631)%Z) by (apply Z.div_pos; lia).
  pose proof cycle_table as T. rewrite forallb_forall in T.
  specialize (T (Z.to_nat (n mod 10631))). rewrite in_seq in T.
  specialize (T ltac:(lia)). rewrite Z2Nat.id in T by lia.
  unfold cycle_day_ok in T.
  destruct (hijri_of_cycle_day (n mod 10631)) as [[yic month] day].
  repeat (apply andb_true_iff in T; destruct T as [T ?]).
  repeat match goal with
         | H : (_ <=? _)%Z = true |- _ => apply Z.leb_le in H
         | H : (_ =? _)%Z = true |- _ => apply Z.eqb_eq in H
         | H : (_ <? _)%nat = true |- _ => apply Nat.ltb_lt in H
         end.
  apply Z.leb_le in T.
  exists (n / 10631 * 30 + yic)%Z, month, day.
  assert (Ediv : ((n / 10631 * 30 + yic - 1) / 30 = n / 10631)%Z).
  { symmetry. apply Z.div_unique with (r := (yic - 1)%Z); lia. }
  assert (Emod : ((n / 10631 * 30 + yic - 1) mod 30 + 1 = yic)%Z).
  { rewrite Z.mod_eq by lia. rewrite Ediv. lia. }
  split; [reflexivity | ].
  split; [lia | ]. split; [assumption | ].
  rewrite Emod. split; [lia | ].
  unfold hijri_day_number. rewrite Ediv, Emod. lia.
Qed.

(** The March equinox of 2024. *)
Lemma calculateLocalHijriDate_decodes_witness :
  exists (year : Z) (month : nat) (day : Z),
    AdhanApp.calculateLocalHijriDate (DateUTC 2024 2 20)
    = (Z_toString day ++ " " ++ hijri_month_name month ++ " "
         ++ Z_toString year ++ " AH")%string
    /\ hijri_day_number year month day = 511951%Z.
Proof.
  destruct (calculateLocalHijriDate_decodes 2024 2 20 ltac:(vm_compute; discriminate))
    as [year [month [day [E [_ [_ [_ Hn]]]]]]].
  exists year, month, day. split; [exact E | exact Hn].
Defined.

Lemma calculateLocalHijriDate_example :
  AdhanApp.calculateLocalHijriDate (DateUTC 2024 2 20) = "11 Ramadan 1445 AH"%string.
Proof.
  rewrite calculateLocalHijriDate_valid by (vm_compute; discriminate).
  vm_compute. reflexivity.
Qed.

Lemma chars_append (a b : string) : chars (a ++ b) = (chars a ++ chars b)%list.
Proof.
  unfold chars. induction a as [ | c a IH]; cbn; [reflexivity | ].
  rewrite IH. reflexivity.
Qed.

Lemma last_append (l l' : list ascii) (c d : ascii) :
  List.last (l ++ c :: l') d = List.last (c :: l') d.
Proof.
  induction l as [ | x l IH]; [reflexivity | ].
  cbn [app]. rewrite <- IH. cbn [List.last].
  destruct (l ++ c :: l')%list eqn:E; [ | reflexivity].
  destruct l; discriminate E.
Qed.

Lemma ends_in_AH (a b c : string) :
  (a ++ " " ++ b ++ " " ++ c ++ " AH")%string <> "Hijri Date Unavailable"%string.
Proof.
  intros H.
  assert (E : List.last (chars (a ++ " " ++ b ++ " " ++ c ++ " AH")) " "%char
              = "H"%char).
  { rewrite !chars_append. change (chars " AH") with [" "; "A"; "H"]%char.
    change (chars " ") with [" "]%char.
    rewrite !app_assoc. rewrite last_append. reflexivity. }
  rewrite H in E. vm_compute in E. discriminate E.
Qed.

(** X12.  [calculateLocalHijriDate] answers ["Hijri Date Unavailable"]
    exactly when its argument is not a [Date]; an invalid [Date] is not
    reported as unavailable but printed as ["NaN Muharram NaN AH"]. *)
Theorem calculateLocalHijriDate_unavailable_iff (date : DateArg) :
  (AdhanApp.calculateLocalHijriDate date = "Hijri Date Unavailable"%string
   <-> date = NonDate)
  /\ AdhanApp.calculateLocalHijriDate DateInvalid = "NaN Muharram NaN AH"%string.
Proof.
  split; [ | reflexivity].
  split.
  - destruct date as [y m d | | ]; [ | | reflexivity].
    + unfold AdhanApp.calculateLocalHijriDate. rewrite app_getJulianDate.
      destruct (AdhanApp.yearLoop _ _) as [yic dl].
      destruct (AdhanApp.monthLoop _ _ _) as [mi dl'].
      intros H. exfalso. revert H. apply ends_in_AH.
    + intros H. vm_compute in H. discriminate H.
  - intros ->. reflexivity.
Qed.

(** ** The direction of the Kaaba *)

Lemma degrees_of_turn (a : R) :
  - PI <= a <= PI -> 180 <= a * 180 / PI + 360 <= 540.
Proof.
  intros [H1 H2]. pose proof PI_RGT_0 as Hpi.
  assert (Hi : 0 < / PI) by (apply Rinv_0_lt_compat; exact Hpi).
  assert (Hone : PI * / PI = 1) by (apply Rinv_r; lra).
  replace (a * 180 / PI) with (a * / PI * 180) by (field; lra).
  assert (-1 <= a * / PI <= 1) by (split; nra).
  lra.
Qed.

(** X13.  For a location with finite coordinates the bearing
    [calculateQiblaDirection] stores is a finite number of degrees from 0
    up to, but not including, 360; without a location the stored value
    is left as it was. *)
Theorem calculateQiblaDirection_range
        (lat lon previous : R) (tz name : string) (chosen : option AdhanApp.Settings) :
  (exists q : R,
      AdhanApp.calculateQiblaDirection
        {| AdhanApp.currentLocation :=
             Some {| AdhanApp.latitude := Fin lat; AdhanApp.longitude := Fin lon;
                     AdhanApp.timezone := tz; AdhanApp.city := name |};
           AdhanApp.settings := chosen |} (Fin previous)
      = Fin q /\ 0 <= q < 360)
  /\ AdhanApp.calculateQiblaDirection
       {| AdhanApp.currentLocation := None;
          AdhanApp.settings := chosen |} (Fin previous)
     = Fin previous.
Proof.
  split; [ | reflexivity].
  unfold AdhanApp.calculateQiblaDirection.
  cbn [AdhanApp.currentLocation AdhanApp.latitude AdhanApp.longitude].
  fin_arith. cbn [Math.tan]. fin_arith.
  eexists; split; [reflexivity | ].
  match goal with |- context [Math.Ratan2 ?y ?x] =>
    pose proof (degrees_of_turn _ (Ratan2_bound y x)) as Hb
  end.
  apply Rrem_nonneg; lra.
Qed.

Lemma kaaba_latitude_cos : 0 < cos (21.4225 * PI / 180).
Proof. apply (cos_degrees_between 21.4225). lra. Qed.

(** The [x] of the bearing on the meridian of the Kaaba has the sign of
    the sine of the difference of the latitudes. *)
Lemma meridian_x (lat : R) :
  (cos (lat * PI / 180) * tan (21.4225 * PI / 180) - sin (lat * PI / 180) * 1)
  * cos (21.4225 * PI / 180)
  = sin (21.4225 * PI / 180 - lat * PI / 180).
Proof.
  pose proof kaaba_latitude_cos as Hk.
  rewrite sin_minus. unfold tan. field. lra.
Qed.

(** X14.  On the meridian of the Kaaba the bearing is due north (0) from
    every latitude south of it and due south (180) from every latitude
    north of it. *)
Theorem calculateQiblaDirection_meridian
        (lat previous : R) (tz name : string) (chosen : option AdhanApp.Settings) :
  -90 < lat <= 90 -> lat <> 21.4225 ->
  AdhanApp.calculateQiblaDirection
    {| AdhanApp.currentLocation :=
         Some {| AdhanApp.latitude := Fin lat; AdhanApp.longitude := Fin 39.8262;
                 AdhanApp.timezone := tz; AdhanApp.city := name |};
       AdhanApp.settings := chosen |} (Fin previous)
  = Fin (if Rlt_dec lat 21.4225 then 0 else 180).
Proof.
  intros Hlat Hne. pose proof PI_RGT_0 as Hpi.
  unfold AdhanApp.calculateQiblaDirection.
  cbn [AdhanApp.currentLocation AdhanApp.latitude AdhanApp.longitude].
  fin_arith. cbn [Math.tan]. fin_arith.
  replace (39.8262 * PI / 180 + - (39.8262 * PI / 180)) with 0 by ring.
  rewrite sin_0, cos_0.
  pose proof (meridian_x lat) as Hx.
  pose proof kaaba_latitude_cos as Hk.
  set (x := cos (lat * PI / 180) * tan (21.4225 * PI / 180)
            + - (sin (lat * PI / 180) * 1)).
  assert (Ex : x * cos (21.4225 * PI / 180)
               = sin (21.4225 * PI / 180 - lat * PI / 180))
    by (unfold x; rewrite <- Hx; ring).
  f_equal. unfold Math.Ratan2.
  destruct (Rlt_dec lat 21.4225) as [Hs | Hn].
  - assert (Hsin : 0 < sin (21.4225 * PI / 180 - lat * PI / 180))
      by (apply sin_gt_0; nra).
    assert (Hpos : 0 < x) by nra.
    rewrite (Rltb_true 0 x Hpos).
    replace (0 / x) with 0 by (field; lra).
    rewrite atan_0.
    replace (0 * 180 / PI + 360) with (0 + 360) by (field; lra).
    apply Rrem_shift. lra.
  - assert (Hsin : sin (21.4225 * PI / 180 - lat * PI / 180) < 0)
      by (apply sin_lt_0_var; nra).
    assert (Hneg : x < 0) by nra.
    rewrite (Rltb_false 0 x) by lra. rewrite (Rltb_true x 0 Hneg).
    rewrite Rleb_true by lra.
    replace (0 / x) with 0 by (field; lra).
    rewrite atan_0.
    replace ((0 + PI) * 180 / PI + 360) with (180 + 360) by (field; lra).
    apply Rrem_shift. lra.
Qed.

(** Cape Town is south of the Kaaba; the bearing from a point on the
    same meridian at its latitude is north. *)
Lemma calculateQiblaDirection_meridian_witness :
  AdhanApp.calculateQiblaDirection
    {| AdhanApp.currentLocation :=
         Some {| AdhanApp.latitude := Fin (-33.9); AdhanApp.longitude := Fin 39.8262;
                 AdhanApp.timezone := "Africa/Johannesburg"; AdhanApp.city := "South" |};
       AdhanApp.settings := None |} (Fin 0)
  = Fin 0.
Proof.
  rewrite (calculateQiblaDirection_meridian (-33.9) 0) by lra.
  destruct (Rlt_dec (-33.9) 21.4225); [reflexivity | lra].
Defined.

(** ** Validation of the times of the remote service *)

Lemma num_lt_trans (a b c : num) : num_lt a b -> num_lt b c -> num_lt a c.
Proof.
  unfold num_lt, Num.lt.
  destruct a as [ | | | x], b as [ | | | y], c as [ | | | z];
    cbn [Num.gt]; try discriminate; try reflexivity.
  unfold Rltb. destruct (Rlt_dec x y), (Rlt_dec y z), (Rlt_dec x z);
    try discriminate; try reflexivity. lra.
Qed.

Lemma validateLoop_kept_sorted (fallback : AdhanApp.Prayer -> string)
      (timings : string -> option string)
      (remaining : list AdhanApp.Prayer) (prevTime : num) :
  let times := map AdhanApp.convertTimeToDecimal
                   (kept_entries fallback
                      (AdhanApp.validateLoop fallback timings remaining prevTime)) in
  Forall (num_lt prevTime) times /\ StronglySorted num_lt times.
Proof.
  revert prevTime.
  induction remaining as [ | prayer rest IH]; intros prevTime; cbn zeta.
  - split; constructor.
  - cbn [AdhanApp.validateLoop].
    assert (Hrej :
      let times := map AdhanApp.convertTimeToDecimal
                     (kept_entries fallback
                        ((prayer, fallback prayer)
                           :: AdhanApp.validateLoop fallback timings rest prevTime)) in
      Forall (num_lt prevTime) times /\ StronglySorted num_lt times).
    { unfold kept_entries. cbn [filter fst snd].
      rewrite String.eqb_refl. cbn [negb]. apply IH. }
    destruct (AdhanApp.or_text _ _) as [text | ]; [ | exact Hrej].
    destruct (negb (String.eqb text "") && AdhanApp.isValidTimeFormat text);
      [ | exact Hrej].
    destruct (negb (Num.isNaN (AdhanApp.convertTimeToDecimal text))
              && Num.gt (AdhanApp.convertTimeToDecimal text) prevTime) eqn:Eacc;
      [ | exact Hrej].
    apply andb_true_iff in Eacc. destruct Eacc as [_ Hgt].
    specialize (IH (AdhanApp.convertTimeToDecimal text)). cbn zeta in IH.
    destruct IH as [Hall Hsorted].
    unfold kept_entries in *. cbn [filter fst snd].
    destruct (negb (String.eqb text (fallback prayer))).
    + cbn [map]. split.
      * constructor; [exact Hgt | ].
        eapply Forall_impl; [ | exact Hall].
        intros t Ht. eapply num_lt_trans; [exact Hgt | exact Ht].
      * constructor; assumption.
    + split; [ | exact Hsorted].
      eapply Forall_impl; [ | exact Hall].
      intros t Ht. eapply num_lt_trans; [exact Hgt | exact Ht].
Qed.

(** X15.  Whatever the response holds, the texts [validateAndAdjustTimes]
    keeps from it (the entries that are not the fallback of their prayer)
    stand, in the order Fajr to Isha, for strictly increasing times, and
    the result has an entry for each of the six prayers in that order. *)
Theorem validateAndAdjustTimes_kept_increasing
        (host : Host) (utcFields : Z -> Z * Z * Z) (app : AdhanApp.App)
        (timings : string -> option string) :
  let validated := AdhanApp.validateAndAdjustTimes host utcFields app timings in
  map fst validated = AdhanApp.prayers
  /\ StronglySorted num_lt
       (map AdhanApp.convertTimeToDecimal
            (kept_entries (AdhanApp.calculateFallbackTime host utcFields app)
                          validated)).
Proof.
  cbn zeta. split.
  - unfold AdhanApp.validateAndAdjustTimes.
    generalize (.- #1)%num. generalize AdhanApp.prayers.
    intros l. induction l as [ | p rest IH]; intros prev; [reflexivity | ].
    cbn [AdhanApp.validateLoop].
    destruct (AdhanApp.or_text _ _) as [text | ];
      [ | cbn [map fst]; rewrite IH; reflexivity].
    destruct (negb (String.eqb text "") && AdhanApp.isValidTimeFormat text);
      [ | cbn [map fst]; rewrite IH; reflexivity].
    destruct (negb (Num.isNaN (AdhanApp.convertTimeToDecimal text))
              && Num.gt (AdhanApp.convertTimeToDecimal text) prev);
      cbn [map fst]; rewrite IH; reflexivity.
  - apply (validateLoop_kept_sorted
             (AdhanApp.calculateFallbackTime host utcFields app) timings
             AdhanApp.prayers (.- #1)%num).
Qed.

Lemma validateLoop_identity (fallback : AdhanApp.Prayer -> string)
      (timings : string -> option string) (api : AdhanApp.Prayer -> string)
      (remaining : list AdhanApp.Prayer) (prevTime : num) :
  (forall p, In p remaining ->
             timings (AdhanApp.key p) = Some (api p)
             /\ AdhanApp.isValidTimeFormat (api p) = true) ->
  StronglySorted num_lt
    (prevTime :: map (fun p => AdhanApp.convertTimeToDecimal (api p)) remaining) ->
  AdhanApp.validateLoop fallback timings remaining prevTime
  = map (fun p => (p, api p)) remaining.
Proof.
  revert prevTime.
  induction remaining as [ | p rest IH]; intros prevTime Hin Hsorted; [reflexivity | ].
  cbn [AdhanApp.validateLoop map].
  destruct (Hin p (or_introl eq_refl)) as [Ht Hvalid].
  assert (Hne : String.eqb (api p) "" = false).
  { destruct (String.eqb_spec (api p) "") as [E | E]; [ | reflexivity].
    rewrite E in Hvalid. discriminate Hvalid. }
  rewrite Ht. unfold AdhanApp.or_text. rewrite Hne.
  cbv beta iota zeta. rewrite Hne, Hvalid. cbn [negb andb].
  inversion Hsorted as [ | ? ? Htail Hhead]; subst.
  inversion Hhead as [ | ? ? Hp _]; subst.
  destruct (convertTimeToDecimal_bounds (api p)) as [v [Ev _]].
  unfold num_lt, Num.lt in Hp. rewrite Hp.
  rewrite Ev at 1. cbn [Num.isNaN negb andb].
  f_equal. apply IH.
  - intros q Hq. apply Hin. right; exact Hq.
  - exact Htail.
Qed.

(** X16.  When the response holds, for each of the six prayers and under
    its lower-case or its capitalised key, a text one of the two patterns
    accepts, and the six texts stand for strictly increasing times,
    [validateAndAdjustTimes] returns the six texts unchanged: no fallback
    is computed. *)
Theorem validateAndAdjustTimes_identity
        (host : Host) (utcFields : Z -> Z * Z * Z) (app : AdhanApp.App)
        (timings : string -> option string) (api : AdhanApp.Prayer -> string) :
  (forall p,
      (timings (AdhanApp.key p) = Some (api p)
       \/ (timings (AdhanApp.key p) = None
           /\ timings (AdhanApp.capitalize (AdhanApp.key p)) = Some (api p)))
      /\ AdhanApp.isValidTimeFormat (api p) = true) ->
  StronglySorted num_lt
    (map (fun p => AdhanApp.convertTimeToDecimal (api p)) AdhanApp.prayers) ->
  AdhanApp.validateAndAdjustTimes host utcFields app timings
  = map (fun p => (p, api p)) AdhanApp.prayers.
Proof.
  intros Hresp Hsorted.
  assert (Hne : forall p, String.eqb (api p) "" = false).
  { intros p. destruct (Hresp p) as [_ Hv].
    destruct (String.eqb_spec (api p) "") as [E | E]; [ | reflexivity].
    rewrite E in Hv. discriminate Hv. }
  assert (Hor : forall p,
             AdhanApp.or_text (timings (AdhanApp.key p))
                              (timings (AdhanApp.capitalize (AdhanApp.key p)))
             = Some (api p)).
  { intros p. destruct (Hresp p) as [[E | [E1 E2]] _]; unfold AdhanApp.or_text.
    - rewrite E, Hne. reflexivity.
    - rewrite E1. exact E2. }
  unfold AdhanApp.validateAndAdjustTimes.
  assert (Hfirst : StronglySorted num_lt
                     ((.- #1)%num
                      :: map (fun p => AdhanApp.convertTimeToDecimal (api p))
                             AdhanApp.prayers)).
  { constructor; [exact Hsorted | ].
    apply Forall_forall. intros t Ht. apply in_map_iff in Ht.
    destruct Ht as [p [<- _]].
    destruct (convertTimeToDecimal_bounds (api p)) as [v [-> [Hv _]]].
    unfold num_lt. cbn. apply Rltb_true. lra. }
  revert Hfirst. generalize (.- #1)%num. generalize AdhanApp.prayers.
  intros l. induction l as [ | p rest IH]; intros prev Hs; [reflexivity | ].
  cbn [AdhanApp.validateLoop map]. rewrite Hor.
  cbv beta iota zeta. rewrite Hne. destruct (Hresp p) as [_ ->]. cbn [negb andb].
  inversion Hs as [ | ? ? Htail Hhead]; subst.
  inversion Hhead as [ | ? ? Hp _]; subst.
  destruct (convertTimeToDecimal_bounds (api p)) as [v [Ev _]].
  unfold num_lt, Num.lt in Hp. rewrite Hp.
  rewrite Ev at 1. cbn [Num.isNaN negb andb].
  f_equal. apply IH. exact Htail.
Qed.

(** A response with capitalised keys and increasing 24-hour texts, as
    the service sends it. *)
Lemma validateAndAdjustTimes_identity_witness :
  AdhanApp.validateAndAdjustTimes host_unknown_zone (fun _ => (2024, 2, 20)%Z)
    {| AdhanApp.currentLocation := None; AdhanApp.settings := None |}
    (fun k => if String.eqb k "Fajr" then Some "05:10"
              else if String.eqb k "Sunrise" then Some "06:25"
              else if String.eqb k "Dhuhr" then Some "12:30"
              else if String.eqb k "Asr" then Some "15:45"
              else if String.eqb k "Maghrib" then Some "18:20"
              else if String.eqb k "Isha" then Some "19:40"
              else None)%string
  = [(AdhanApp.Fajr, "05:10"); (AdhanApp.Sunrise, "06:25");
     (AdhanApp.Dhuhr, "12:30"); (AdhanApp.Asr, "15:45");
     (AdhanApp.Maghrib, "18:20"); (AdhanApp.Isha, "19:40")]%string.
Proof.
  apply (validateAndAdjustTimes_identity host_unknown_zone (fun _ => (2024, 2, 20)%Z)
           {| AdhanApp.currentLocation := None; AdhanApp.settings := None |}
           _
           (fun p => match p with
                     | AdhanApp.Fajr => "05:10" | AdhanApp.Sunrise => "06:25"
                     | AdhanApp.Dhuhr => "12:30" | AdhanApp.Asr => "15:45"
                     | AdhanApp.Maghrib => "18:20" | AdhanApp.Isha => "19:40"
                     end%string)).
  - intros p; destruct p; (split; [right; split; reflexivity | reflexivity]).
  - cbn [map AdhanApp.prayers]. rewrite !convertTimeToDecimal_parse.
    repeat match goal with
           | |- context [parse_hm ?s] =>
               let v := eval vm_compute in (parse_hm s) in
               change (parse_hm s) with v
           end.
    cbv beta iota.
    repeat constructor; unfold num_lt, Num.lt, Num.gt; apply Rltb_true; lra.
Defined.

(** Every entry of the mapping the engine returns is [NaN] or a time of
    the day. *)
Lemma calculatePrayerTimes_entry (host : Host) (date : DateArg)
      (latitude longitude : num) (timezone : string)
      (method madhab : option string) :
  exists t,
    calculatePrayerTimes host date latitude longitude timezone method madhab = Ok t
    /\ forall prayer, AdhanApp.entry t prayer = NaN \/ in_day (AdhanApp.entry t prayer).
Proof.
  unfold calculatePrayerTimes.
  destruct (try_total host date latitude longitude timezone
              (with_default method "Karachi") (with_default madhab "Hanafi"))
    as [[_ E] | [t [E Hv]]]; rewrite E; cbn [try_catch].
  - exists unavailable; split; [reflexivity | ].
    intros prayer; right. exists 0.
    destruct prayer; (split; [reflexivity | lra]).
  - exists t; split; [reflexivity | ].
    rewrite Forall_forall in Hv.
    intros prayer.
    destruct (Hv (AdhanApp.entry t prayer)) as [x ->];
      [ | apply normalize_cases].
    unfold values; destruct prayer; cbn; auto 10.
Qed.

(** X17.  Whatever the response, the location and the settings are,
    [calculateFallbackTime] answers ["Error"] or a clock text: one that
    [isValidTimeFormat] accepts, that [formatApiTime] shows unchanged and
    that [convertTimeToDecimal] reads as a time of the day.  It answers
    ["Error"] when the location or the settings are missing. *)
Theorem calculateFallbackTime_shape
        (host : Host) (utcFields : Z -> Z * Z * Z) (app : AdhanApp.App)
        (prayer : AdhanApp.Prayer) :
  let text := AdhanApp.calculateFallbackTime host utcFields app prayer in
  (text = "Error"%string
   \/ (AdhanApp.formatApiTime text = text
       /\ AdhanApp.isValidTimeFormat text = true
       /\ in_day (AdhanApp.convertTimeToDecimal text)))
  /\ (AdhanApp.currentLocation app = None \/ AdhanApp.settings app = None ->
      text = "Error"%string).
Proof.
  cbv zeta. unfold AdhanApp.calculateFallbackTime.
  destruct (AdhanApp.currentLocation app) as [location | ];
    [ | split; [left; reflexivity | reflexivity]].
  destruct (AdhanApp.settings app) as [chosen | ];
    [ | split; [left; reflexivity | reflexivity]].
  split; [ | intros [H | H]; discriminate H].
  destruct (calculatePrayerTimes_entry host (AdhanApp.newDate utcFields host)
              (AdhanApp.latitude location) (AdhanApp.longitude location)
              (AdhanApp.timezone location)
              (AdhanApp.method chosen) (AdhanApp.madhab chosen)) as [t [-> Ht]].
  assert (Hzero : formatTime (Fin 0) = "Error"%string).
  { unfold formatTime; cbn. rewrite Req0_true by reflexivity. reflexivity. }
  destruct (Ht prayer) as [-> | [v [-> Hv]]]; [left; exact Hzero | ].
  destruct (Req_dec v 0) as [-> | Hnz].
  - left. unfold or_default; cbn. rewrite Req0_true by reflexivity.
    exact Hzero.
  - right. rewrite or_default_Fin by exact Hnz.
    apply (formatTime_read_back v). lra.
Qed.

(** Without a location the fallback is the error text. *)
Lemma calculateFallbackTime_shape_witness :
  AdhanApp.calculateFallbackTime host_unknown_zone (fun _ => (2024, 2, 20)%Z)
    {| AdhanApp.currentLocation := None; AdhanApp.settings := None |}
    AdhanApp.Asr
  = "Error"%string.
Proof.
  apply (proj2 (calculateFallbackTime_shape host_unknown_zone
                  (fun _ => (2024, 2, 20)%Z)
                  {| AdhanApp.currentLocation := None; AdhanApp.settings := None |}
                  AdhanApp.Asr)).
  left. reflexivity.
Defined.

(** ** The current prayer and the countdown *)

Lemma or_default_entry (e : num) :
  e = NaN \/ in_day e ->
  exists w, or_default (Some e) #0 = Fin w /\ 0 <= w < 24
            /\ ((e = NaN /\ w = 0) \/ e = Fin w).
Proof.
  intros [-> | [v [-> Hv]]].
  - exists 0. split; [reflexivity | ]. split; [lra | left; split; reflexivity].
  - exists v. split; [ | split; [exact Hv | right; reflexivity]].
    unfold or_default; cbn. unfold Req0.
    destruct (Req_dec_T v 0) as [-> | ?]; reflexivity.
Qed.

Lemma hour_of_day_range (fields : Z * Z) :
  clock_reading fields -> 0 <= hour_of_day fields < 24.
Proof.
  intros [[H0 H1] [M0 M1]]. unfold hour_of_day.
  assert (H2 : (fst fields <= 23)%Z) by lia.
  assert (M2 : (snd fields <= 59)%Z) by lia.
  apply IZR_le in H0, H2, M0, M2. lra.
Qed.

Ltac later_step cur w :=
  destruct (Rlt_dec cur w);
  [ rewrite (Rltb_true cur w) by assumption
  | rewrite (Rltb_false cur w) by lra ].

(** The loop stops at the first prayer, in the order of the array, whose
    time is after [cur]. *)
Lemma currentAndRemaining_cases (cur : R) (times : PrayerTimes)
      (w : AdhanApp.Prayer -> R) :
  (forall p, or_default (Some (AdhanApp.entry times p)) #0 = Fin (w p)) ->
  (exists n,
      cur < w n
      /\ (forall q, (position q < position n)%nat -> w q <= cur)
      /\ AdhanApp.currentAndRemaining (Fin cur) times
         = (named times (previous n),
            next_day (AdhanApp.entry times n .- Fin cur)%num))
  \/ ((forall q, w q <= cur)
      /\ AdhanApp.currentAndRemaining (Fin cur) times
         = (named times AdhanApp.Isha,
            next_day (Fin (w AdhanApp.Fajr + 24 - cur)))).
Proof.
  intros Hw.
  pose proof (Hw AdhanApp.Fajr) as E1. pose proof (Hw AdhanApp.Sunrise) as E2.
  pose proof (Hw AdhanApp.Dhuhr) as E3. pose proof (Hw AdhanApp.Asr) as E4.
  pose proof (Hw AdhanApp.Maghrib) as E5. pose proof (Hw AdhanApp.Isha) as E6.
  clear Hw.
  destruct times as [e1 e2 e3 e4 e5 e6].
  cbn [AdhanApp.entry fajr sunrise dhuhr asr maghrib isha] in *.
  unfold AdhanApp.currentAndRemaining.
  cbn [AdhanApp.firstLater AdhanApp.time fajr sunrise dhuhr asr maghrib isha].
  rewrite E1, E2, E3, E4, E5, E6.
  unfold Num.lt at 1 2 3 4 5 6. cbn [Num.gt].
  later_step cur (w AdhanApp.Fajr);
    [ left; exists AdhanApp.Fajr; split; [assumption | ]; split;
      [intros q; destruct q; cbn; intros; (lra || lia) | reflexivity] | ].
  later_step cur (w AdhanApp.Sunrise);
    [ left; exists AdhanApp.Sunrise; split; [assumption | ]; split;
      [intros q; destruct q; cbn; intros; (lra || lia) | reflexivity] | ].
  later_step cur (w AdhanApp.Dhuhr);
    [ left; exists AdhanApp.Dhuhr; split; [assumption | ]; split;
      [intros q; destruct q; cbn; intros; (lra || lia) | reflexivity] | ].
  later_step cur (w AdhanApp.Asr);
    [ left; exists AdhanApp.Asr; split; [assumption | ]; split;
      [intros q; destruct q; cbn; intros; (lra || lia) | reflexivity] | ].
  later_step cur (w AdhanApp.Maghrib);
    [ left; exists AdhanApp.Maghrib; split; [assumption | ]; split;
      [intros q; destruct q; cbn; intros; (lra || lia) | reflexivity] | ].
  later_step cur (w AdhanApp.Isha);
    [ left; exists AdhanApp.Isha; split; [assumption | ]; split;
      [intros q; destruct q; cbn; intros; (lra || lia) | reflexivity] | ].
  right. split; [intros q; destruct q; lra | ].
  unfold Num.lt at 1 2 3 4 5 6. cbn [Num.gt].
  rewrite (Rltb_false cur (w AdhanApp.Fajr)), (Rltb_false cur (w AdhanApp.Sunrise)),
    (Rltb_false cur (w AdhanApp.Dhuhr)), (Rltb_false cur (w AdhanApp.Asr)),
    (Rltb_false cur (w AdhanApp.Maghrib)), (Rltb_false cur (w AdhanApp.Isha)) by lra.
  cbn [nth length Nat.sub AdhanApp.time]. rewrite E1. reflexivity.
Qed.

Lemma currentTime_Fin (hours minutes : Z) :
  (Num.of_Z hours .+ Num.of_Z minutes ./ #60)%num
  = Fin (hour_of_day (hours, minutes)).
Proof.
  unfold Num.of_Z, hour_of_day. cbn [fst snd]. rewrite Fin_div by lra. reflexivity.
Qed.

(** With its three elements on the page, [updateCurrentAndNextPrayer]
    writes to them and to nothing else. *)
Lemma updateCurrentAndNextPrayer_writes (app : AdhanApp.App) (host : Host)
      (localFields : Z -> Z * Z) (times : PrayerTimes)
      (document : AdhanApp.Document)
      (currentPrayer : AdhanApp.NamedTime) (remaining : num) :
  page_ready document ->
  AdhanApp.currentAndRemaining (Fin (hour_of_day (localFields (clock host)))) times
  = (currentPrayer, remaining) ->
  let page :=
    AdhanApp.updateCurrentAndNextPrayer app host localFields times document in
  page "current-prayer-name"%string = Some (AdhanApp.name currentPrayer)
  /\ page "current-prayer-time"%string
     = Some (formatTime (AdhanApp.time currentPrayer))
  /\ page "countdown"%string
     = Some ("Next prayer in " ++ AdhanApp.formatCountdown remaining)%string
  /\ forall id, ~ In id prayer_panel -> page id = document id.
Proof.
  intros [P1 [P2 P3]] Hsel. cbv zeta.
  unfold AdhanApp.updateCurrentAndNextPrayer.
  destruct (localFields (clock host)) as [hours minutes] eqn:Hf.
  rewrite currentTime_Fin, Hsel.
  unfold AdhanApp.setTextContent.
  destruct (document "current-prayer-name"%string) as [t1 | ] eqn:D1;
    [ | contradiction].
  cbn [String.eqb Ascii.eqb Bool.eqb].
  destruct (document "current-prayer-time"%string) as [t2 | ] eqn:D2;
    [ | contradiction].
  cbn [String.eqb Ascii.eqb Bool.eqb].
  destruct (document "countdown"%string) as [t3 | ] eqn:D3;
    [ | contradiction].
  cbn [String.eqb Ascii.eqb Bool.eqb].
  repeat split.
  intros id Hid. unfold prayer_panel in Hid. cbn [In] in Hid.
  destruct (String.eqb_spec id "countdown") as [-> | _]; [tauto | ].
  destruct (String.eqb_spec id "current-prayer-time") as [-> | _]; [tauto | ].
  destruct (String.eqb_spec id "current-prayer-name") as [-> | _]; [tauto | ].
  reflexivity.
Qed.

(** X18.  With its three elements on the page and six times that are
    each [NaN] or a time of the day, as the engine returns them,
    [updateCurrentAndNextPrayer] names one of the six prayers as the
    current one, prints that prayer's time, and counts down a number of
    hours that is positive and at most 24: the correction for a negative
    difference is never needed.  No other element is written. *)
Theorem updateCurrentAndNextPrayer_countdown
        (app : AdhanApp.App) (host : Host) (localFields : Z -> Z * Z)
        (times : PrayerTimes) (document : AdhanApp.Document) :
  page_ready document ->
  clock_reading (localFields (clock host)) ->
  (forall p, AdhanApp.entry times p = NaN \/ in_day (AdhanApp.entry times p)) ->
  let page :=
    AdhanApp.updateCurrentAndNextPrayer app host localFields times document in
  exists p r,
    0 < r <= 24
    /\ page "current-prayer-name"%string
       = Some (AdhanApp.capitalize (AdhanApp.key p))
    /\ page "current-prayer-time"%string
       = Some (formatTime (AdhanApp.entry times p))
    /\ page "countdown"%string
       = Some ("Next prayer in " ++ AdhanApp.formatCountdown (Fin r))%string
    /\ forall id, ~ In id prayer_panel -> page id = document id.
Proof.
  intros Hpage Hclock Hent.
  pose proof (hour_of_day_range _ Hclock) as Hnow.
  set (now := hour_of_day (localFields (clock host))) in *.
  assert (Hw : exists w : AdhanApp.Prayer -> R,
             forall p, or_default (Some (AdhanApp.entry times p)) #0 = Fin (w p)
                       /\ 0 <= w p < 24
                       /\ ((AdhanApp.entry times p = NaN /\ w p = 0)
                           \/ AdhanApp.entry times p = Fin (w p))).
  { destruct (or_default_entry _ (Hent AdhanApp.Fajr)) as [w1 H1].
    destruct (or_default_entry _ (Hent AdhanApp.Sunrise)) as [w2 H2].
    destruct (or_default_entry _ (Hent AdhanApp.Dhuhr)) as [w3 H3].
    destruct (or_default_entry _ (Hent AdhanApp.Asr)) as [w4 H4].
    destruct (or_default_entry _ (Hent AdhanApp.Maghrib)) as [w5 H5].
    destruct (or_default_entry _ (Hent AdhanApp.Isha)) as [w6 H6].
    exists (fun p => match p with
                     | AdhanApp.Fajr => w1 | AdhanApp.Sunrise => w2
                     | AdhanApp.Dhuhr => w3 | AdhanApp.Asr => w4
                     | AdhanApp.Maghrib => w5 | AdhanApp.Isha => w6
                     end).
    intros p; destruct p; assumption. }
  destruct Hw as [w Hw].
  assert (Hsel : exists p r,
             AdhanApp.currentAndRemaining (Fin now) times = (named times p, Fin r)
             /\ 0 < r <= 24).
  { destruct (currentAndRemaining_cases now times w (fun p => proj1 (Hw p)))
      as [[n [Hlater [_ E]]] | [Hnone E]]; rewrite E.
    - destruct (Hw n) as [_ [Hr [[_ Hz] | En]]]; [lra | ].
      exists (previous n), (w n - now). rewrite En.
      unfold next_day, Num.lt. cbn [Num.sub Num.add Num.neg Num.gt].
      rewrite Rltb_false by lra. split; [reflexivity | lra].
    - destruct (Hw AdhanApp.Fajr) as [_ [Hr _]].
      specialize (Hnone AdhanApp.Fajr).
      exists AdhanApp.Isha, (w AdhanApp.Fajr + 24 - now).
      unfold next_day, Num.lt. cbn [Num.gt].
      rewrite Rltb_false by lra. split; [reflexivity | lra]. }
  destruct Hsel as [p [r [E Hr]]].
  exists p, r. split; [exact Hr | ].
  exact (updateCurrentAndNextPrayer_writes app host localFields times document
           _ _ Hpage E).
Qed.

(** Half past one in the afternoon, between Dhuhr and Asr. *)
Lemma updateCurrentAndNextPrayer_countdown_witness :
  exists r,
    0 < r <= 24
    /\ AdhanApp.updateCurrentAndNextPrayer
         {| AdhanApp.currentLocation := None; AdhanApp.settings := None |}
         host_unknown_zone (fun _ => (13, 30)%Z)
         {| fajr := Fin 5; sunrise := Fin 6.5; dhuhr := Fin 12.25;
            asr := Fin 15.5; maghrib := Fin 18; isha := NaN |}
         (fun _ => Some EmptyString) "countdown"%string
       = Some ("Next prayer in " ++ AdhanApp.formatCountdown (Fin r))%string.
Proof.
  destruct (updateCurrentAndNextPrayer_countdown
              {| AdhanApp.currentLocation := None; AdhanApp.settings := None |}
              host_unknown_zone (fun _ => (13, 30)%Z)
              {| fajr := Fin 5; sunrise := Fin 6.5; dhuhr := Fin 12.25;
                 asr := Fin 15.5; maghrib := Fin 18; isha := NaN |}
              (fun _ => Some EmptyString))
    as [p [r [Hr [_ [_ [Hc _]]]]]].
  - repeat split; discriminate.
  - split; cbn; lia.
  - intros p; destruct p; cbn;
      try (left; reflexivity);
      right; eexists; (split; [reflexivity | lra]).
  - exists r. split; [exact Hr | exact Hc].
Defined.

(** X19.  When the six times are finite, not negative and strictly
    increasing in the order of the day, the prayer
    [updateCurrentAndNextPrayer] names is the latest one whose time has
    come, Isha before the first of them, and the countdown runs to the
    earliest time still ahead, tomorrow's Fajr taken as today's plus 24
    hours after the last of them. *)
Theorem updateCurrentAndNextPrayer_increasing
        (app : AdhanApp.App) (host : Host) (localFields : Z -> Z * Z)
        (times : PrayerTimes) (document : AdhanApp.Document)
        (t : AdhanApp.Prayer -> R) :
  page_ready document ->
  clock_reading (localFields (clock host)) ->
  (forall p, AdhanApp.entry times p = Fin (t p) /\ 0 <= t p) ->
  (forall p q, (position p < position q)%nat -> t p < t q) ->
  let now := hour_of_day (localFields (clock host)) in
  let page :=
    AdhanApp.updateCurrentAndNextPrayer app host localFields times document in
  exists p r,
    page "current-prayer-name"%string
    = Some (AdhanApp.capitalize (AdhanApp.key p))
    /\ page "countdown"%string
       = Some ("Next prayer in " ++ AdhanApp.formatCountdown (Fin r))%string
    /\ ((t p <= now /\ forall q, t q <= now -> t q <= t p)
        \/ (p = AdhanApp.Isha /\ forall q, now < t q))
    /\ ((exists n, now < t n /\ (forall q, now < t q -> t n <= t q)
                   /\ r = t n - now)
        \/ ((forall q, t q <= now) /\ r = t AdhanApp.Fajr + 24 - now)).
Proof.
  intros Hpage Hclock Hent Hinc. cbv zeta.
  pose proof (hour_of_day_range _ Hclock) as Hnow.
  set (now := hour_of_day (localFields (clock host))) in *.
  assert (Hw : forall p, or_default (Some (AdhanApp.entry times p)) #0 = Fin (t p)).
  { intros p. destruct (Hent p) as [-> _].
    unfold or_default; cbn. unfold Req0.
    destruct (Req_dec_T (t p) 0) as [-> | ?]; reflexivity. }
  assert (Hmono : forall p q, (position p <= position q)%nat -> t p <= t q).
  { intros p q Hpq. destruct (Nat.eq_dec (position p) (position q)) as [E | E].
    - destruct p, q; cbn in E; try discriminate E; lra.
    - apply Rlt_le, Hinc. lia. }
  destruct (currentAndRemaining_cases now times t Hw)
    as [[n [Hlater [Hbefore E]]] | [Hnone E]].
  - exists (previous n), (t n - now).
    assert (E' : AdhanApp.currentAndRemaining (Fin now) times
                 = (named times (previous n), Fin (t n - now))).
    { rewrite E. destruct (Hent n) as [-> _].
      unfold next_day, Num.lt. cbn [Num.sub Num.add Num.neg Num.gt].
      rewrite Rltb_false by lra. reflexivity. }
    destruct (updateCurrentAndNextPrayer_writes app host localFields times document
                _ _ Hpage E') as [W1 [_ [W3 _]]].
    split; [exact W1 | ]. split; [exact W3 | ]. split.
    + destruct (Nat.eq_dec (position n) 0) as [Z | NZ].
      * right. split; [destruct n; cbn in Z; try discriminate Z; reflexivity | ].
        intros q. apply Rlt_le_trans with (t n); [exact Hlater | ].
        apply Hmono. lia.
      * left. split.
        -- apply Hbefore. destruct n; cbn in *; lia.
        -- intros q Hq. apply Hmono.
           destruct (Nat.lt_ge_cases (position q) (position n)) as [L | G].
           ++ destruct n, q; cbn in *; lia.
           ++ specialize (Hmono n q G). lra.
    + left. exists n. split; [exact Hlater | ]. split; [ | reflexivity].
      intros q Hq. apply Hmono.
      destruct (Nat.lt_ge_cases (position q) (position n)) as [L | G];
        [ | exact G].
      specialize (Hbefore q L). lra.
  - exists AdhanApp.Isha, (t AdhanApp.Fajr + 24 - now).
    assert (E' : AdhanApp.currentAndRemaining (Fin now) times
                 = (named times AdhanApp.Isha, Fin (t AdhanApp.Fajr + 24 - now))).
    { rewrite E. destruct (Hent AdhanApp.Fajr) as [_ H0].
      unfold next_day, Num.lt. cbn [Num.gt].
      rewrite Rltb_false by lra. reflexivity. }
    destruct (updateCurrentAndNextPrayer_writes app host localFields times document
                _ _ Hpage E') as [W1 [_ [W3 _]]].
    split; [exact W1 | ]. split; [exact W3 | ]. split.
    + left. split; [apply Hnone | ].
      intros q _. apply Hmono. destruct q; cbn; lia.
    + right. split; [exact Hnone | reflexivity].
Qed.

(** Half past one in the afternoon: Dhuhr is the current prayer, Asr is
    two hours away. *)
Lemma updateCurrentAndNextPrayer_increasing_witness :
  let page :=
    AdhanApp.updateCurrentAndNextPrayer
      {| AdhanApp.currentLocation := None; AdhanApp.settings := None |}
      host_unknown_zone (fun _ => (13, 30)%Z)
      {| fajr := Fin 5; sunrise := Fin 6.5; dhuhr := Fin 12.25;
         asr := Fin 15.5; maghrib := Fin 18; isha := Fin 19.5 |}
      (fun _ => Some EmptyString) in
  page "current-prayer-name"%string = Some "Dhuhr"%string
  /\ page "countdown"%string
     = Some ("Next prayer in " ++ AdhanApp.formatCountdown (Fin 2))%string.
Proof.
  cbv zeta.
  set (t := fun p => match p with
                     | AdhanApp.Fajr => 5 | AdhanApp.Sunrise => 6.5
                     | AdhanApp.Dhuhr => 12.25 | AdhanApp.Asr => 15.5
                     | AdhanApp.Maghrib => 18 | AdhanApp.Isha => 19.5
                     end).
  destruct (updateCurrentAndNextPrayer_increasing
              {| AdhanApp.currentLocation := None; AdhanApp.settings := None |}
              host_unknown_zone (fun _ => (13, 30)%Z)
              {| fajr := Fin 5; sunrise := Fin 6.5; dhuhr := Fin 12.25;
                 asr := Fin 15.5; maghrib := Fin 18; isha := Fin 19.5 |}
              (fun _ => Some EmptyString) t)
    as [p [r [Hn [Hc [Hp Hr]]]]].
  - repeat split; discriminate.
  - split; cbn; lia.
  - intros p; destruct p; cbn; (split; [reflexivity | lra]).
  - intros p q; destruct p, q; cbn; intros; (lra || lia).
  - unfold hour_of_day in Hp, Hr. cbn [fst snd] in Hp, Hr.
    assert (Ep : p = AdhanApp.Dhuhr).
    { destruct Hp as [[P1 P2] | [_ P2]].
      - pose proof (P2 AdhanApp.Dhuhr) as D. cbn in D.
        destruct p; cbn in P1, D; try reflexivity; exfalso; lra.
      - specialize (P2 AdhanApp.Fajr). cbn in P2. exfalso; lra. }
    assert (Er : r = 2).
    { destruct Hr as [[n [R1 [R2 R3]]] | [R1 _]].
      - pose proof (R2 AdhanApp.Asr) as A. cbn in A.
        destruct n; cbn in R1, R3, A; try lra.
      - specialize (R1 AdhanApp.Isha). cbn in R1. exfalso; lra. }
    subst p r. split; [exact Hn | exact Hc].
Defined.

(** ** A failed update *)

Lemma setTextIfPresent_lookup (id text : string) (document : AdhanApp.Document)
      (i : string) :
  AdhanApp.setTextIfPresent id text document i
  = option_map (fun old => if String.eqb i id then text else old) (document i).
Proof.
  unfold AdhanApp.setTextIfPresent.
  destruct (document id) as [present | ] eqn:D.
  - destruct (String.eqb_spec i id) as [-> | _].
    + rewrite D. reflexivity.
    + destruct (document i); reflexivity.
  - destruct (String.eqb_spec i id) as [-> | _].
    + rewrite D. reflexivity.
    + destruct (document i); reflexivity.
Qed.

(** [handleError] rewrites the text of elements and neither adds nor
    removes one; the current prayer's name and time become ["Error"], the
    countdown becomes the message. *)
Lemma handleError_lookup (app : AdhanApp.App) (message : string)
      (document : AdhanApp.Document) (id : string) :
  exists shown : string -> string,
    AdhanApp.handleError app message document id = option_map shown (document id)
    /\ (id = "current-prayer-name"%string \/ id = "current-prayer-time"%string ->
        forall old, shown old = "Error"%string)
    /\ (id = "countdown"%string -> forall old, shown old = message).
Proof.
  unfold AdhanApp.handleError. cbn [fold_left].
  set (place := match AdhanApp.currentLocation app with
                | Some location =>
                    if String.eqb (AdhanApp.city location) ""
                    then "Error"%string else AdhanApp.city location
                | None => "Error"%string
                end).
  exists (fun old =>
            if String.eqb id "location" then place
            else if String.eqb id "countdown" then message
            else if String.eqb id "current-prayer-time" then "Error"
            else if String.eqb id "current-prayer-name" then "Error"
            else if String.eqb id "isha-time" then "Error"
            else if String.eqb id "maghrib-time" then "Error"
            else if String.eqb id "asr-time" then "Error"
            else if String.eqb id "dhuhr-time" then "Error"
            else if String.eqb id "sunrise-time" then "Error"
            else if String.eqb id "fajr-time" then "Error"
            else old)%string.
  split; [ | split].
  - rewrite !setTextIfPresent_lookup.
    destruct (document id) as [old | ]; reflexivity.
  - intros [-> | ->] old; reflexivity.
  - intros -> old. reflexivity.
Qed.

Lemma handleError_page (app : AdhanApp.App) (message : string)
      (written document : AdhanApp.Document) :
  (forall id, written id = None <-> document id = None) ->
  let page := AdhanApp.handleError app message written in
  (forall id,
      id = "current-prayer-name"%string \/ id = "current-prayer-time"%string ->
      document id <> None -> page id = Some "Error"%string)
  /\ (document "countdown"%string <> None -> page "countdown"%string = Some message)
  /\ (forall id, page id = None <-> document id = None).
Proof.
  intros Hsame. cbv zeta. split; [ | split].
  - intros id Hid Hpresent.
    destruct (handleError_lookup app message written id) as [shown [-> [Hshown _]]].
    destruct (written id) as [old | ] eqn:W.
    + cbn. rewrite (Hshown Hid). reflexivity.
    + apply Hsame in W. contradiction.
  - intros Hpresent.
    destruct (handleError_lookup app message written "countdown")
      as [shown [-> [_ Hshown]]].
    destruct (written "countdown"%string) as [old | ] eqn:W.
    + cbn. rewrite (Hshown eq_refl). reflexivity.
    + apply Hsame in W. contradiction.
  - intros id.
    destruct (handleError_lookup app message written id) as [shown [-> _]].
    rewrite <- Hsame. destruct (written id); cbn; split; congruence.
Qed.

(** X20.  When one of the three elements is missing,
    [updateCurrentAndNextPrayer] leaves nothing half written: the name
    and the time of the current prayer read ["Error"] where their
    elements exist, the countdown element, if there is one, carries the
    message, and no element appears or disappears. *)
Theorem updateCurrentAndNextPrayer_missing_element
        (app : AdhanApp.App) (host : Host) (localFields : Z -> Z * Z)
        (times : PrayerTimes) (document : AdhanApp.Document) :
  ~ page_ready document ->
  let page :=
    AdhanApp.updateCurrentAndNextPrayer app host localFields times document in
  (forall id,
      id = "current-prayer-name"%string \/ id = "current-prayer-time"%string ->
      document id <> None -> page id = Some "Error"%string)
  /\ (document "countdown"%string <> None ->
      page "countdown"%string = Some "Prayer time update failed"%string)
  /\ (forall id, page id = None <-> document id = None).
Proof.
  intros Hmissing. cbv zeta.
  pose proof (fun written =>
                handleError_page app "Prayer time update failed" written document)
    as Hfailed.
  cbv zeta in Hfailed.
  unfold AdhanApp.updateCurrentAndNextPrayer.
  destruct (localFields (clock host)) as [hours minutes].
  destruct (AdhanApp.currentAndRemaining _ times) as [currentPrayer remaining].
  unfold AdhanApp.setTextContent.
  destruct (document "current-prayer-name"%string) as [t1 | ] eqn:D1;
    [ | apply Hfailed; intros id; reflexivity].
  cbn [String.eqb Ascii.eqb Bool.eqb].
  destruct (document "current-prayer-time"%string) as [t2 | ] eqn:D2.
  - cbn [String.eqb Ascii.eqb Bool.eqb].
    destruct (document "countdown"%string) as [t3 | ] eqn:D3.
    + exfalso. apply Hmissing. unfold page_ready.
      rewrite D1, D2, D3. repeat split; discriminate.
    + apply Hfailed. intros id.
      destruct (String.eqb_spec id "current-prayer-time") as [-> | _];
        [rewrite D2; split; discriminate | ].
      destruct (String.eqb_spec id "current-prayer-name") as [-> | _];
        [rewrite D1; split; discriminate | reflexivity].
  - apply Hfailed. intros id.
    destruct (String.eqb_spec id "current-prayer-name") as [-> | _];
      [rewrite D1; split; discriminate | reflexivity].
Qed.

(** A page without the countdown element: the name that was written is
    replaced by the error text. *)
Lemma updateCurrentAndNextPrayer_missing_element_witness :
  AdhanApp.updateCurrentAndNextPrayer
    {| AdhanApp.currentLocation := None; AdhanApp.settings := None |}
    host_unknown_zone (fun _ => (13, 30)%Z)
    {| fajr := Fin 5; sunrise := Fin 6.5; dhuhr := Fin 12.25;
       asr := Fin 15.5; maghrib := Fin 18; isha := Fin 19.5 |}
    (fun id => if String.eqb id "countdown" then None else Some EmptyString)
    "current-prayer-name"%string
  = Some "Error"%string.
Proof.
  refine (proj1 (updateCurrentAndNextPrayer_missing_element
                   {| AdhanApp.currentLocation := None; AdhanApp.settings := None |}
                   host_unknown_zone (fun _ => (13, 30)%Z)
                   {| fajr := Fin 5; sunrise := Fin 6.5; dhuhr := Fin 12.25;
                      asr := Fin 15.5; maghrib := Fin 18; isha := Fin 19.5 |}
                   (fun id => if String.eqb id "countdown" then None
                              else Some EmptyString) _)
                "current-prayer-name"%string _ _).
  - intros [_ [_ H]]. apply H. reflexivity.
  - left. reflexivity.
  - discriminate.
Defined.

(** ** The compass *)

(** The test [Math.abs(rotation % 360) < 2 || Math.abs(rotation % 360) > 358]
    holds of the rotations within two degrees of a full turn. *)
Lemma aligned_iff (r : R) :
  Rltb (Rabs (Rrem r 360)) 2 || Rltb 358 (Rabs (Rrem r 360)) = true
  <-> exists k : Z, Rabs (r - 360 * IZR k) < 2.
Proof.
  pose proof (Rrem_abs_lt r 360 ltac:(lra)) as Hm.
  assert (Em : Rrem r 360 = r - 360 * IZR (Ztrunc (r / 360))) by reflexivity.
  set (m := Rrem r 360) in *. set (t := Ztrunc (r / 360)) in *.
  split.
  - intros H. apply orb_true_iff in H. destruct H as [H | H].
    + exists t. unfold Rltb in H. destruct (Rlt_dec (Rabs m) 2); [ | discriminate].
      replace (r - 360 * IZR t) with m by lra. assumption.
    + unfold Rltb in H. destruct (Rlt_dec 358 (Rabs m)) as [L | ]; [ | discriminate].
      unfold Rabs in L. destruct (Rcase_abs m).
      * exists (t - 1)%Z. rewrite minus_IZR.
        replace (r - 360 * (IZR t - 1)) with (m + 360) by lra.
        unfold Rabs. destruct (Rcase_abs (m + 360)); lra.
      * exists (t + 1)%Z. rewrite plus_IZR.
        replace (r - 360 * (IZR t + 1)) with (m - 360) by lra.
        unfold Rabs. destruct (Rcase_abs (m - 360)); lra.
  - intros [k Hk].
    assert (Ed : r - 360 * IZR k = m - 360 * IZR (k - t)) by (rewrite minus_IZR; lra).
    rewrite Ed in Hk. set (d := (k - t)%Z) in *.
    assert (Hk' : -2 < m - 360 * IZR d < 2).
    { unfold Rabs in Hk. destruct (Rcase_abs (m - 360 * IZR d)); lra. }
    apply orb_true_iff.
    assert (Hd : (d <= -2 \/ d = -1 \/ d = 0 \/ d = 1 \/ 2 <= d)%Z) by lia.
    destruct Hd as [D | [D | [D | [D | D]]]].
    + apply IZR_le in D. exfalso. lra.
    + right. apply Rltb_true. rewrite D in Hk'.
      unfold Rabs. destruct (Rcase_abs m); lra.
    + left. apply Rltb_true. rewrite D in Hk'.
      unfold Rabs. destruct (Rcase_abs m); lra.
    + right. apply Rltb_true. rewrite D in Hk'.
      unfold Rabs. destruct (Rcase_abs m); lra.
    + apply IZR_le in D. exfalso. lra.
Qed.

(** What [handleOrientation] does on a view that is shown and complete
    when the event carries a heading. *)
Lemma handleOrientation_ready (event : AdhanApp.OrientationEvent)
      (view : AdhanApp.CompassView) :
  compass_ready view ->
  AdhanApp.alpha event <> None \/ AdhanApp.webkitCompassHeading event <> None ->
  let rotation := (AdhanApp.qiblaDirection view .- compass_heading event)%num in
  let isAligned :=
    Num.lt (Math.abs (rotation .% #360)) #2
    || Num.gt (Math.abs (rotation .% #360)) #358 in
  let after := AdhanApp.handleOrientation event view in
  AdhanApp.pointerRotation after = Some rotation
  /\ AdhanApp.messageVisible after = isAligned
  /\ AdhanApp.dialAligned after = isAligned
  /\ AdhanApp.isVibrating after = isAligned
  /\ AdhanApp.vibrations after
     = (if isAligned && negb (AdhanApp.isVibrating view) && AdhanApp.canVibrate view
        then S (AdhanApp.vibrations view) else AdhanApp.vibrations view)
  /\ AdhanApp.qiblaDirection after = AdhanApp.qiblaDirection view
  /\ AdhanApp.canVibrate after = AdhanApp.canVibrate view
  /\ compass_ready after.
Proof.
  intros [Ha [Hp [Hm Hd]]] Hdata. cbv zeta.
  unfold AdhanApp.handleOrientation, compass_heading, compass_ready.
  rewrite Ha, Hp, Hm, Hd. cbn [negb orb].
  destruct (AdhanApp.alpha event) as [a | ] eqn:Ea;
    destruct (AdhanApp.webkitCompassHeading event) as [h | ] eqn:Eh;
    try (exfalso; destruct Hdata as [H | H]; apply H; reflexivity);
    match goal with
    | |- context [if ?b then _ else _] => destruct b
    end; cbn; rewrite ?Ha, ?Hp, ?Hm, ?Hd; repeat split; reflexivity.
Qed.

(** X21.  On a view that is shown and complete, an event that carries a
    heading turns the pointer by the Qibla direction less the heading,
    and, when that rotation is a finite number, shows the message exactly
    when the rotation is within two degrees of a whole number of turns;
    the dial is marked and the vibration flag set in the same cases. *)
Theorem handleOrientation_aligned
        (event : AdhanApp.OrientationEvent) (view : AdhanApp.CompassView)
        (r : R) :
  compass_ready view ->
  AdhanApp.alpha event <> None \/ AdhanApp.webkitCompassHeading event <> None ->
  (AdhanApp.qiblaDirection view .- compass_heading event)%num = Fin r ->
  let after := AdhanApp.handleOrientation event view in
  AdhanApp.pointerRotation after = Some (Fin r)
  /\ (AdhanApp.messageVisible after = true
      <-> exists k : Z, Rabs (r - 360 * IZR k) < 2)
  /\ AdhanApp.dialAligned after = AdhanApp.messageVisible after
  /\ AdhanApp.isVibrating after = AdhanApp.messageVisible after.
Proof.
  intros Hready Hdata Hr. cbv zeta.
  destruct (handleOrientation_ready event view Hready Hdata)
    as [E1 [E2 [E3 [E4 _]]]].
  rewrite E1, E2, E3, E4, Hr. repeat split; try reflexivity.
  - intros H. apply aligned_iff.
    rewrite Fin_rem in H by lra. exact H.
  - intros H. rewrite Fin_rem by lra. apply aligned_iff. exact H.
Qed.

(** A phone held one degree off the Qibla, which lies at 100 degrees. *)
Lemma handleOrientation_aligned_witness :
  AdhanApp.messageVisible
    (AdhanApp.handleOrientation
       {| AdhanApp.alpha := Some (Fin 261); AdhanApp.webkitCompassHeading := None |}
       {| AdhanApp.qiblaDirection := Fin 100;
          AdhanApp.isQiblaViewActive := true;
          AdhanApp.isVibrating := false;
          AdhanApp.hasPointer := true;
          AdhanApp.hasMessage := true;
          AdhanApp.hasDial := true;
          AdhanApp.pointerRotation := None;
          AdhanApp.messageVisible := false;
          AdhanApp.dialAligned := false;
          AdhanApp.canVibrate := true;
          AdhanApp.vibrations := 0;
          AdhanApp.compassUnavailable := false |})
  = true.
Proof.
  refine (proj2 (proj1 (proj2 (handleOrientation_aligned
                                 {| AdhanApp.alpha := Some (Fin 261);
                                    AdhanApp.webkitCompassHeading := None |}
                                 _ (100 - (360 - 261)) _ _ _))) _).
  - repeat split.
  - left. discriminate.
  - reflexivity.
  - exists 0%Z. unfold Rabs.
    destruct (Rcase_abs (100 - (360 - 261) - 360 * 0)); lra.
Defined.

Lemma handleOrientation_potential (event : AdhanApp.OrientationEvent)
      (view first : AdhanApp.CompassView) :
  compass_ready view ->
  AdhanApp.qiblaDirection view = AdhanApp.qiblaDirection first ->
  compass_ready first ->
  shows_qibla first event = true ->
  let after := AdhanApp.handleOrientation event view in
  compass_ready after
  /\ AdhanApp.qiblaDirection after = AdhanApp.qiblaDirection first
  /\ (AdhanApp.vibrations after + (if AdhanApp.isVibrating after then 0 else 1)
      <= AdhanApp.vibrations view + (if AdhanApp.isVibrating view then 0 else 1))%nat.
Proof.
  intros Hready Hq Hfirst Hshown. cbv zeta.
  destruct (AdhanApp.alpha event) as [a | ] eqn:Ea.
  - assert (Hdata : AdhanApp.alpha event <> None
                    \/ AdhanApp.webkitCompassHeading event <> None)
      by (left; rewrite Ea; discriminate).
    destruct (handleOrientation_ready event view Hready Hdata)
      as [_ [_ [_ [E4 [E5 [E6 [_ E8]]]]]]].
    destruct (handleOrientation_ready event first Hfirst Hdata)
      as [_ [F2 _]].
    unfold shows_qibla in Hshown. rewrite F2 in Hshown.
    rewrite Hq in E4, E5. rewrite Hshown in E4, E5.
    rewrite E4, E5, E6. split; [exact E8 | ]. split; [exact Hq | ].
    destruct (AdhanApp.isVibrating view), (AdhanApp.canVibrate view); cbn; lia.
  - destruct (AdhanApp.webkitCompassHeading event) as [h | ] eqn:Eh.
    + assert (Hdata : AdhanApp.alpha event <> None
                      \/ AdhanApp.webkitCompassHeading event <> None)
        by (right; rewrite Eh; discriminate).
      destruct (handleOrientation_ready event view Hready Hdata)
        as [_ [_ [_ [E4 [E5 [E6 [_ E8]]]]]]].
      destruct (handleOrientation_ready event first Hfirst Hdata)
        as [_ [F2 _]].
      unfold shows_qibla in Hshown. rewrite F2 in Hshown.
      rewrite Hq in E4, E5. rewrite Hshown in E4, E5.
      rewrite E4, E5, E6. split; [exact E8 | ]. split; [exact Hq | ].
      destruct (AdhanApp.isVibrating view), (AdhanApp.canVibrate view); cbn; lia.
    + unfold AdhanApp.handleOrientation. rewrite Ea, Eh.
      unfold AdhanApp.showCompassError, compass_ready. cbn.
      split; [exact Hready | ]. split; [exact Hq | lia].
Qed.

(** X22.  While every event that arrives leaves the message visible, the
    device vibrates at most once, however many events there are. *)
Theorem handleOrientations_vibrate_once
        (events : list AdhanApp.OrientationEvent) (view : AdhanApp.CompassView) :
  compass_ready view ->
  Forall (fun event => shows_qibla view event = true) events ->
  (AdhanApp.vibrations (handleOrientations events view)
   <= S (AdhanApp.vibrations view))%nat.
Proof.
  intros Hready Hall.
  assert (Hgen : forall current,
             compass_ready current ->
             AdhanApp.qiblaDirection current = AdhanApp.qiblaDirection view ->
             (AdhanApp.vibrations (handleOrientations events current)
              + (if AdhanApp.isVibrating (handleOrientations events current)
                 then 0 else 1)
              <= AdhanApp.vibrations current
                 + (if AdhanApp.isVibrating current then 0 else 1))%nat).
  { induction Hall as [ | event rest Hevent _ IH]; intros current Hc Hq.
    - cbn. lia.
    - unfold handleOrientations. cbn [fold_left].
      fold (handleOrientations rest (AdhanApp.handleOrientation event current)).
      destruct (handleOrientation_potential event current view Hc Hq Hready Hevent)
        as [Hc' [Hq' Hle]].
      specialize (IH _ Hc' Hq'). lia. }
  specialize (Hgen view Hready eq_refl).
  destruct (AdhanApp.isVibrating (handleOrientations events view)),
    (AdhanApp.isVibrating view); lia.
Qed.

(** Three events in a row within two degrees of the Qibla: one
    vibration. *)
Lemma handleOrientations_vibrate_once_witness :
  (AdhanApp.vibrations
     (handleOrientations
        [ {| AdhanApp.alpha := Some (Fin 261); AdhanApp.webkitCompassHeading := None |};
          {| AdhanApp.alpha := Some (Fin 260); AdhanApp.webkitCompassHeading := None |};
          {| AdhanApp.alpha := Some (Fin 259); AdhanApp.webkitCompassHeading := None |} ]
        {| AdhanApp.qiblaDirection := Fin 100;
           AdhanApp.isQiblaViewActive := true;
           AdhanApp.isVibrating := false;
           AdhanApp.hasPointer := true;
           AdhanApp.hasMessage := true;
           AdhanApp.hasDial := true;
           AdhanApp.pointerRotation := None;
           AdhanApp.messageVisible := false;
           AdhanApp.dialAligned := false;
           AdhanApp.canVibrate := true;
           AdhanApp.vibrations := 0;
           AdhanApp.compassUnavailable := false |})
   <= 1)%nat.
Proof.
  match goal with
  | |- (AdhanApp.vibrations (handleOrientations ?events ?view) <= _)%nat =>
      refine (handleOrientations_vibrate_once events view _ _)
  end.
  - repeat split.
  - repeat constructor; unfold shows_qibla;
      match goal with
      | |- AdhanApp.messageVisible (AdhanApp.handleOrientation ?e ?v) = true =>
          destruct (handleOrientation_ready e v ltac:(repeat split)
                      ltac:(left; discriminate)) as [_ [-> _]]
      end;
      unfold compass_heading; cbn [AdhanApp.alpha AdhanApp.webkitCompassHeading
                                   AdhanApp.qiblaDirection or_default];
      rewrite !Fin_sub, Fin_rem by lra;
      apply aligned_iff; exists 0%Z; unfold Rabs;
      match goal with
      | |- context [Rcase_abs ?x] => destruct (Rcase_abs x)
      end; lra.
Defined.
